(** * Utility emissions channel: the emissions contract and its invoking client

    A shallow embedding of
    [utility-emissions-channel/chaincode/node/lib/emissionscontract.js]
    (class [EmissionsRecordContract], and the [EmissionsContractInvoke]
    client that follows it in the same file), with the properties of the
    division resolution, of the emissions calculation, of the record
    fingerprint and of the client's failure handling.

    Conventions of the embedding.
    - JavaScript values are the inductive type [JsVal]; objects are
      association lists in insertion order, the first binding of a name
      being the property.
    - A [number] is NaN, an infinity or a rational, and zero has no sign
      (a division by zero behaves as a division by +0). The operations
      [+], [-], [*] and [/] of the scope [num] are exact; [fl] rounds their
      result to the nearest binary64 number, with its overflow and its
      underflow, and module [Binary64] is the calculation of the contract
      with every result rounded. The properties of the structure of the
      code are stated on the exact operations; what depends on the
      rounding is stated on [Binary64].
    - Strings are byte strings; [toLowerCase] acts on the ASCII letters.
    - A function that can throw returns a [Completion]; [await] is a
      sequential call, as each contract invocation is one transaction.
    - Primitives of the language whose definition is a parser or a printer
      ([JSON.parse], [Number::toString], ...) are the fields of the class
      [Language]; the hash and the modules of the repository that the
      contract requires are the fields of the class [Modules]; module
      [Reference] gives executable instances of both. *)

From Stdlib Require Import QArith Qfield Lqa Qround Qabs Qpower Qreduction.
From Stdlib Require Import ZArith Ascii String List Bool Lia.
From Stdlib Require Floats.
From stdpp Require Import base strings gmap.

Local Open Scope string_scope.
Local Open Scope list_scope.
Set Warnings "-register-all".

(** ** Numbers *)

Inductive number : Type :=
| NaN
| Infinity (negative : bool)
| Finite (q : Q).

Definition Qneg_b (q : Q) : bool := (Qnum q <? 0)%Z.
Definition Qzero_b (q : Q) : bool := (Qnum q =? 0)%Z.

Definition num_neg (a : number) : number :=
  match a with
  | NaN => NaN
  | Infinity s => Infinity (negb s)
  | Finite q => Finite (- q)%Q
  end.

Definition num_add (a b : number) : number :=
  match a, b with
  | NaN, _ | _, NaN => NaN
  | Infinity s, Infinity s' => if Bool.eqb s s' then Infinity s else NaN
  | Infinity s, Finite _ => Infinity s
  | Finite _, Infinity s => Infinity s
  | Finite p, Finite q => Finite (p + q)%Q
  end.

Definition num_sub (a b : number) : number := num_add a (num_neg b).

Definition num_mul (a b : number) : number :=
  match a, b with
  | NaN, _ | _, NaN => NaN
  | Infinity s, Infinity s' => Infinity (xorb s s')
  | Infinity s, Finite q | Finite q, Infinity s =>
      if Qzero_b q then NaN else Infinity (xorb s (Qneg_b q))
  | Finite p, Finite q => Finite (p * q)%Q
  end.

Definition num_div (a b : number) : number :=
  match a, b with
  | NaN, _ | _, NaN => NaN
  | Infinity _, Infinity _ => NaN
  | Infinity s, Finite q => Infinity (xorb s (Qneg_b q))
  | Finite _, Infinity _ => Finite 0%Q
  | Finite p, Finite q =>
      if Qzero_b q
      then (if Qzero_b p then NaN else Infinity (Qneg_b p))
      else Finite (p / q)%Q
  end.

(** [a < b] of the language: false as soon as an operand is NaN. *)
Definition num_lt (a b : number) : bool :=
  match a, b with
  | NaN, _ | _, NaN => false
  | Infinity s, Infinity s' => s && negb s'
  | Infinity s, Finite _ => s
  | Finite _, Infinity s => negb s
  | Finite p, Finite q =>
      match Qcompare p q with Lt => true | _ => false end
  end.

(** [a <= b] of the language: false as soon as an operand is NaN. *)
Definition num_le (a b : number) : bool :=
  match a, b with
  | NaN, _ | _, NaN => false
  | Infinity s, Infinity s' => s || negb s'
  | Infinity s, Finite _ => s
  | Finite _, Infinity s => negb s
  | Finite p, Finite q => Qle_bool p q
  end.

Definition is_finite (a : number) : bool :=
  match a with Finite _ => true | _ => false end.

(** Numeric equality: NaN is related to itself here, since the relation
    compares results of the model, not operands of [===]. *)
Definition num_eq (a b : number) : Prop :=
  match a, b with
  | NaN, NaN => True
  | Infinity s, Infinity s' => s = s'
  | Finite p, Finite q => (p == q)%Q
  | _, _ => False
  end.

Declare Scope num_scope.
Delimit Scope num_scope with num.
Infix "+" := num_add : num_scope.
Infix "-" := num_sub : num_scope.
Infix "*" := num_mul : num_scope.
Infix "/" := num_div : num_scope.
Infix "==" := num_eq (at level 70, no associativity) : num_scope.

(** ** Binary64

    The numbers of the language are the binary64 numbers: the result of an
    operation is the exact result, rounded to the nearest number with 53
    bits and an exponent of at least -1074, to the even one of two
    nearest, and to an infinity from [2 ^ 1024] on. *)

Section Binary64Numbers.
Local Open Scope Q_scope.

(** [2 ^ k] *)
Definition pow2 (k : Z) : Q := 2 ^ k.

(** The exponent of a positive rational: [2 ^ k <= x < 2 ^ (k + 1)]. *)
Definition floor_log2 (x : Q) : Z :=
  let k := (Z.log2 (Qnum x) - Z.log2 (Zpos (Qden x)))%Z in
  if Qle_bool (pow2 k) x then k else (k - 1)%Z.

(** The integer nearest to a rational, the even one of two. *)
Definition rne (y : Q) : Z :=
  let f := Qfloor y in
  match Qcompare (y - inject_Z f) (1 # 2) with
  | Lt => f
  | Gt => (f + 1)%Z
  | Eq => if Z.even f then f else (f + 1)%Z
  end.

(** The exponent of the last of the 53 bits of a positive rational, and
    -1074 from the subnormal numbers down. *)
Definition ulp_exponent (a : Q) : Z := Z.max (floor_log2 a - 52) (-1074).

(** A positive rational rounded to the nearest multiple of [2] to that
    exponent: what binary64 would give with no bound on its exponents. *)
Definition round_pos (a : Q) : Q :=
  let e := ulp_exponent a in
  inject_Z (rne (a / pow2 e)) * pow2 e.

(** The binary64 number nearest to a rational: an infinity when the
    rounded value reaches [2 ^ 1024]. *)
Definition round64 (x : Q) : number :=
  match Qcompare x 0 with
  | Eq => Finite 0
  | Gt =>
      let r := round_pos x in
      if Qle_bool (pow2 1024) r then Infinity false else Finite (Qred r)
  | Lt =>
      let r := round_pos (- x) in
      if Qle_bool (pow2 1024) r then Infinity true else Finite (Qred (- r))
  end.

(** The binary64 numbers are integer multiples of [2 ^ -1074]. *)
Definition on_grid (x : Q) : Prop :=
  exists m : Z, x == inject_Z m * pow2 (-1074).

(** The rationals of 53 bits at most and of an exponent of -1074 at
    least: the multiples of the unit of their last place. *)
Definition representable (y : Q) : Prop :=
  exists m : Z, y == inject_Z m * pow2 (ulp_exponent y).

(** The finite binary64 numbers: those below [2 ^ 1024] in absolute
    value. *)
Definition binary64 (y : Q) : Prop :=
  representable (Qabs y) /\ Qabs y < pow2 1024.

End Binary64Numbers.

(** The binary64 number nearest to a number. *)
Definition fl (a : number) : number :=
  match a with
  | Finite q => round64 q
  | _ => a
  end.

(** The binary64 numbers of the kernel, against which [fl] is checked. *)
Module Kernel.
Import PrimFloat FloatOps SpecFloat.

(** The number that a binary64 number of the kernel is, without the sign
    of zero. *)
Definition number_of (f : float) : number :=
  match Prim2SF f with
  | S754_zero _ => Finite 0
  | S754_infinity s => Infinity s
  | S754_nan => NaN
  | S754_finite s m e =>
      Finite (Qred ((if s then -1 else 1) * inject_Z (Zpos m) * pow2 e))
  end.

Definition same (a b : number) : bool :=
  match a, b with
  | NaN, NaN => true
  | Infinity s, Infinity s' => Bool.eqb s s'
  | Finite p, Finite q => Qeq_bool p q
  | _, _ => false
  end.

(** The four operations of the kernel on two numbers, against the exact
    operations followed by [fl]. *)
Definition agree (x y : float) : bool :=
  same (number_of (x + y)%float) (fl (number_of x + number_of y)%num)
  && same (number_of (x - y)%float) (fl (number_of x - number_of y)%num)
  && same (number_of (x * y)%float) (fl (number_of x * number_of y)%num)
  && same (number_of (x / y)%float) (fl (number_of x / number_of y)%num).

(** 1, 3, 7, 100 and 40; 0.1, 1/3 and 0.45359237; [2 ^ 1023] and the
    greatest number; the least normal number, the least number and the
    greatest subnormal number; the number after 1, [2 ^ 53], 1000 and
    1e308; -2.5 and the opposite of the least number; the infinities and
    NaN. *)
Definition samples : list float :=
  [0x1p+0; 0x1.8p+1; 0x1.cp+2; 0x1.9p+6; 0x1.4p+5;
   0x1.999999999999ap-4; 0x1.5555555555555p-2; 0x1.d07a84ab75e51p-2;
   0x1p+1023; 0x1.fffffffffffffp+1023; 0x1p-1022;
   0x1p-1074; 0x1.ffffffffffffep-1023;
   0x1.0000000000001p+0; 0x1p+53; 0x1.f4p+9; 0x1.1ccf385ebc8ap+1023;
   -0x1.4p+1; -0x1p-1074; infinity; neg_infinity; nan]%float.

End Kernel.

(** ** Values and exceptions *)

Inductive JsVal : Type :=
| VUndef
| VNull
| VBool (b : bool)
| VNum (n : number)
| VStr (s : string)
| VArr (items : list JsVal)
| VObj (props : list (string * JsVal)).

(** A thrown [Error] object, by its [name] and [message]. *)
Record JsError : Type := MkError { err_name : string; err_message : string }.

Definition Error (msg : string) : JsError := MkError "Error" msg.
Definition TypeError (msg : string) : JsError := MkError "TypeError" msg.
Definition SyntaxError (msg : string) : JsError := MkError "SyntaxError" msg.
Definition ReferenceError (msg : string) : JsError := MkError "ReferenceError" msg.

Inductive Completion (A : Type) : Type :=
| Normal (a : A)
| Throw (e : JsError).
Arguments Normal {A} a.
Arguments Throw {A} e.

Definition bind {A B : Type} (c : Completion A) (k : A -> Completion B)
  : Completion B :=
  match c with
  | Normal a => k a
  | Throw e => Throw e
  end.

(** [try { body } catch (error) { handler }] *)
Definition try_catch {A : Type} (body : Completion A)
    (handler : JsError -> Completion A) : Completion A :=
  match body with
  | Normal a => Normal a
  | Throw e => handler e
  end.

Notation "x <- c ;; k" := (bind c (fun x => k))
  (at level 100, c at next level, right associativity).

(** ** Strings *)

Definition lower_ascii (c : ascii) : ascii :=
  let n := nat_of_ascii c in
  if (65 <=? n)%nat && (n <=? 90)%nat then ascii_of_nat (n + 32) else c.

(** [String.prototype.toLowerCase] on the ASCII letters. No other character
    has "c", "e", "g", "i", "n", "o", "r", "s", "t", "u", "y", "a" or "_"
    for lower case, so that the comparisons of the contract with
    "nerc_region", "country" and "usa" are those of the full function. *)
Fixpoint toLowerCase (s : string) : string :=
  match s with
  | EmptyString => EmptyString
  | String c r => String (lower_ascii c) (toLowerCase r)
  end.

(** [s.split(sep)] for a separator of one character. *)
Fixpoint split (sep : ascii) (s : string) : list string :=
  match s with
  | EmptyString => [EmptyString]
  | String c r =>
      if Ascii.eqb c sep then EmptyString :: split sep r
      else match split sep r with
           | h :: t => String c h :: t
           | [] => [String c EmptyString]
           end
  end.

(** [parts[i]] for the array that [split] returns. *)
Definition item (parts : list string) (i : nat) : JsVal :=
  match nth_error parts i with
  | Some x => VStr x
  | None => VUndef
  end.

(** ** Objects *)

Fixpoint assoc (k : string) (props : list (string * JsVal)) : option JsVal :=
  match props with
  | [] => None
  | (k', v) :: r => if String.eqb k k' then Some v else assoc k r
  end.

(** [o[k] = v]: an existing property keeps its place. *)
Fixpoint set_assoc (k : string) (v : JsVal) (props : list (string * JsVal))
  : list (string * JsVal) :=
  match props with
  | [] => [(k, v)]
  | (k', v') :: r =>
      if String.eqb k k' then (k, v) :: r else (k', v') :: set_assoc k v r
  end.

(** The object [{...props}] read at a name. *)
Definition field (props : list (string * JsVal)) (k : string) : JsVal :=
  default VUndef (assoc k props).

(** [v.k] for the property names read by the contract and its client, none
    of which is an inherited property or an index: reading from [undefined]
    or [null] throws, a missing property is [undefined]. *)
Definition get_prop (v : JsVal) (k : string) : Completion JsVal :=
  match v with
  | VUndef =>
      Throw (TypeError ("Cannot read properties of undefined (reading '" +:+ k +:+ "')"))
  | VNull =>
      Throw (TypeError ("Cannot read properties of null (reading '" +:+ k +:+ "')"))
  | VObj props => Normal (field props k)
  | _ => Normal VUndef
  end.

(** [v[i]] for an index [i]: an element of an array, a character of a
    string, the property of an object whose name is the numeral. *)
Definition get_index (v : JsVal) (i : nat) : Completion JsVal :=
  match v with
  | VUndef => Throw (TypeError "Cannot read properties of undefined")
  | VNull => Throw (TypeError "Cannot read properties of null")
  | VArr items => Normal (nth i items VUndef)
  | VStr s => Normal (match String.get i s with
                      | Some c => VStr (String c EmptyString)
                      | None => VUndef
                      end)
  | VObj props => Normal (field props (pretty.pretty i))
  | _ => Normal VUndef
  end.

Definition set_prop (o : JsVal) (k : string) (v : JsVal) : JsVal :=
  match o with
  | VObj props => VObj (set_assoc k v props)
  | _ => o
  end.

(** Truthiness ([ToBoolean]). *)
Definition truthy (v : JsVal) : bool :=
  match v with
  | VUndef | VNull => false
  | VBool b => b
  | VNum NaN => false
  | VNum (Infinity _) => true
  | VNum (Finite q) => negb (Qzero_b q)
  | VStr s => negb (String.eqb s "")
  | VArr _ | VObj _ => true
  end.

(** ** The platform

    What the contract takes from outside this file: primitives of the
    language, and the modules it requires. *)

Class Language : Type := {
  JSON_parse : string -> Completion JsVal;
  Number_toString : number -> string;
  String_toNumber : string -> number;
  parseFloat : string -> number;
  parseInt : string -> number;
}.

Class Modules : Type := {
  (** [crypto-js/md5], followed by [toString()]: the digest in hexadecimal *)
  MD5 : JsVal -> string;
  (** [./emissions-calc.js]: the multiplier of a unit, a number; the year
      of a date *)
  get_uom_factor : JsVal -> Completion number;
  get_full_year_from_date : JsVal -> Completion JsVal;
  (** [./egrid-data.js]: the stored JSON text of a utility lookup item, and
      that of the rows [{Key, Record}] of the factors of a division *)
  getUtilityLookupItem : JsVal -> Completion string;
  getUtilityEmissionsFactorsByDivision : JsVal -> Completion string;
}.

Section Conversions.
Context {L : Language}.

(** [ToString]: an array joins its elements with commas, [null] and
    [undefined] elements giving the empty string. *)
Fixpoint ToString (v : JsVal) : string :=
  match v with
  | VUndef => "undefined"
  | VNull => "null"
  | VBool true => "true"
  | VBool false => "false"
  | VNum n => Number_toString n
  | VStr s => s
  | VArr items =>
      (fix join (l : list JsVal) : string :=
         match l with
         | [] => ""
         | x :: r =>
             let e := match x with
                      | VUndef | VNull => ""
                      | _ => ToString x
                      end in
             match r with
             | [] => e
             | _ :: _ => e +:+ "," +:+ join r
             end
         end) items
  | VObj _ => "[object Object]"
  end.

(** [ToNumber]; [Number(v)] is the same function. *)
Definition ToNumber (v : JsVal) : number :=
  match v with
  | VUndef => NaN
  | VNull => Finite 0
  | VBool true => Finite 1
  | VBool false => Finite 0
  | VNum n => n
  | VStr s => String_toNumber s
  | VArr _ | VObj _ => String_toNumber (ToString v)
  end.

(** [a + b] *)
Definition js_plus (a b : JsVal) : JsVal :=
  let prim v := match v with VArr _ | VObj _ => VStr (ToString v) | _ => v end in
  match prim a, prim b with
  | VStr x, y => VStr (x +:+ ToString y)
  | x, VStr y => VStr (ToString x +:+ y)
  | x, y => VNum (ToNumber x + ToNumber y)%num
  end.

(** [`${v}`] and [v + ""] *)
Definition template (v : JsVal) : string := ToString v.

(** [v.toLowerCase()]: only strings have the method. *)
Definition call_toLowerCase (v : JsVal) : Completion string :=
  match v with
  | VStr s => Normal (toLowerCase s)
  | VUndef =>
      Throw (TypeError "Cannot read properties of undefined (reading 'toLowerCase')")
  | VNull =>
      Throw (TypeError "Cannot read properties of null (reading 'toLowerCase')")
  | _ => Throw (TypeError "toLowerCase is not a function")
  end.

(** [Error.prototype.toString], which a template literal applies to a
    caught error. *)
Definition error_toString (e : JsError) : string :=
  if String.eqb (err_name e) "" then err_message e
  else if String.eqb (err_message e) "" then err_name e
  else err_name e +:+ ": " +:+ err_message e.

End Conversions.

(** ** The contract: [EmissionsRecordContract] *)

(** The object returned by [getCo2Emissions]. *)
Record Co2Emissions : Type := MkCo2Emissions {
  emissions_value : number;
  emissions_uom : string;
  division_type : JsVal;
  division_id : JsVal;
  renewable_energy_use_amount : number;
  nonrenewable_energy_use_amount : number;
  year : JsVal;
}.

(** Modelled from the spec: [EmissionsRecord.createInstance] of
    [./emissions.js], which is not part of the sources. The record has the
    fields the spec lists for an EmissionsRecord, under the names the
    client reads them by. *)
Record EmissionsRecord : Type := createInstance {
  uuid : string;
  utilityId : JsVal;
  partyId : JsVal;
  fromDate : JsVal;
  thruDate : JsVal;
  emissionsAmount : number;
  renewableEnergyUseAmount : number;
  nonrenewableEnergyUseAmount : number;
  energyUseUom : JsVal;
  factorSource : JsVal;
  url : JsVal;
  md5 : JsVal;
  tokenId : JsVal;
}.

Module EmissionsList.

(** Modelled from the spec: the emissions list of [./emissionslist.js],
    which is not part of the sources. The spec gives the store one write,
    [put(entity, key)], that creates or overwrites the entity at the key;
    both [addEmissionsRecord] and [updateEmissionsRecord] are that write. *)
Definition addEmissionsRecord (emissionsList : gmap string EmissionsRecord)
    (emissionsRecord : EmissionsRecord) (key : string)
  : gmap string EmissionsRecord :=
  <[key := emissionsRecord]> emissionsList.

(** Modelled from the spec: see [addEmissionsRecord]. *)
Definition updateEmissionsRecord (emissionsList : gmap string EmissionsRecord)
    (emissionsRecord : EmissionsRecord) (key : string)
  : gmap string EmissionsRecord :=
  <[key := emissionsRecord]> emissionsList.

End EmissionsList.

Section Contract.
Context {L : Language} {M : Modules}.

(** [hasStateData] of [getEmissionsFactor]: the value of
    [(JSON.parse(utilityLookup).state_province + "").length > 0], and
    [undefined] when computing it throws. *)
Definition hasStateData (utilityLookup : string) : JsVal :=
  match
    (p <- JSON_parse utilityLookup;;
     sp <- get_prop p "state_province";;
     Normal (0 <? String.length (template sp))%nat)
  with
  | Normal b => VBool b
  | Throw _ => VUndef
  end.

(** [newDivision] of [getEmissionsFactor]: the division to query. *)
Definition newDivision (utilityLookup : string) : Completion JsVal :=
  let hasStateData := hasStateData utilityLookup in
  p <- JSON_parse utilityLookup;;
  d <- get_prop p "divisions";;
  fetchedDivisions <- JSON_parse (ToString d);;
  fetchedDivisionType <- get_prop fetchedDivisions "division_type";;
  fetchedDivisionId <- get_prop fetchedDivisions "division_id";;
  t <- call_toLowerCase fetchedDivisionType;;
  let isNercRegion := String.eqb t "nerc_region" in
  isNonUSCountry <-
    (t' <- call_toLowerCase fetchedDivisionType;;
     if String.eqb t' "country"
     then (i <- call_toLowerCase fetchedDivisionId;;
           Normal (negb (String.eqb i "usa")))
     else Normal false);;
  if truthy hasStateData then
    p' <- JSON_parse utilityLookup;;
    sp <- get_prop p' "state_province";;
    Normal (VObj [("division_id", sp); ("division_type", VStr "STATE")])
  else if isNercRegion then
    Normal fetchedDivisions
  else if (isNonUSCountry : bool) then
    Normal (VObj [("division_id", fetchedDivisionId);
                  ("division_type", VStr "Country")])
  else
    Normal (VObj [("division_id", VStr "USA");
                  ("division_type", VStr "COUNTRY")]).

(** [queryParams] of [getEmissionsFactor]: the division, and the year of
    [thruDate] when [get_full_year_from_date] returns a truthy one; an
    exception of [get_full_year_from_date] is caught and logged. *)
Definition queryParams (newDivision_id newDivision_type thruDate : JsVal)
  : JsVal :=
  let queryParams := VObj [("division_id", newDivision_id);
                           ("division_type", newDivision_type)] in
  match get_full_year_from_date thruDate with
  | Normal year =>
      if truthy year then set_prop queryParams "year" year else queryParams
  | Throw _ => queryParams
  end.

(** [return reject(...)]: no binding of [reject] is in scope of the
    method, so that evaluating the callee throws before the message is
    built. *)
Definition reject {A : Type} : Completion A :=
  Throw (ReferenceError "reject is not defined").

(** The failure that line 192 builds the message of. *)
Definition ResolutionError (uuid : JsVal) : JsError :=
  Error ("Utility [" +:+ template uuid +:+ "] does not have a Division ID").

Definition getEmissionsFactor (uuid thruDate : JsVal) : Completion string :=
  utilityLookup <- getUtilityLookupItem uuid;;
  newDivision <- newDivision utilityLookup;;
  id <- get_prop newDivision "division_id";;
  if negb (truthy id) then reject
  else
    id <- get_prop newDivision "division_id";;
    type <- get_prop newDivision "division_type";;
    let queryParams := queryParams id type thruDate in
    utilityFactors <- getUtilityEmissionsFactorsByDivision queryParams;;
    Normal utilityFactors.

(** Lines 235-294 of [getCo2Emissions]: the calculation on the factor. *)
Definition calculate (utilityFactor usage usage_uom : JsVal)
  : Completion Co2Emissions :=
  percent <- get_prop utilityFactor "percent_of_renewables";;
  amounts <-
    (if truthy percent then
       let emissions_uom := "g" in
       uom <- get_prop utilityFactor "co2_equivalent_emissions_uom";;
       let co2_equivalent_emissions_uom := split "/" (template uom) in
       co2 <- get_prop utilityFactor "co2_equivalent_emissions";;
       f0 <- get_uom_factor (item co2_equivalent_emissions_uom 0);;
       f1 <- get_uom_factor (item co2_equivalent_emissions_uom 1);;
       let emissions_value :=
         (ToNumber co2 * ToNumber usage * (f0 / f1))%num in
       percent <- get_prop utilityFactor "percent_of_renewables";;
       let percent_of_renewables := (ToNumber percent / Finite 100)%num in
       Normal (emissions_value, emissions_uom,
               (ToNumber usage * percent_of_renewables)%num,
               (ToNumber usage * (Finite 1 - percent_of_renewables))%num)
     else
       let emissions_uom := "tons" in
       net_generation_uom <- get_prop utilityFactor "net_generation_uom";;
       co2_equivalent_emissions_uom <-
         get_prop utilityFactor "co2_equivalent_emissions_uom";;
       u0 <- get_uom_factor usage_uom;;
       u1 <- get_uom_factor net_generation_uom;;
       let usage_uom_conversion := (u0 / u1)%num in
       e0 <- get_uom_factor co2_equivalent_emissions_uom;;
       e1 <- get_uom_factor (VStr emissions_uom);;
       let emissions_uom_conversion := (e0 / e1)%num in
       co2 <- get_prop utilityFactor "co2_equivalent_emissions";;
       net_generation <- get_prop utilityFactor "net_generation";;
       let emissions_value :=
         (ToNumber co2 / ToNumber net_generation * ToNumber usage
          * usage_uom_conversion * emissions_uom_conversion)%num in
       non_renewables <- get_prop utilityFactor "non_renewables";;
       renewables <- get_prop utilityFactor "renewables";;
       let total_generation :=
         (ToNumber non_renewables + ToNumber renewables)%num in
       Normal (emissions_value, emissions_uom,
               (ToNumber usage * (ToNumber renewables / total_generation))%num,
               (ToNumber usage
                * (ToNumber non_renewables / total_generation))%num));;
  let '(emissions_value, emissions_uom, renewable, nonrenewable) :=
    amounts in
  division_type <- get_prop utilityFactor "division_type";;
  division_id <- get_prop utilityFactor "division_id";;
  year <- get_prop utilityFactor "year";;
  Normal {| emissions_value := emissions_value;
            emissions_uom := emissions_uom;
            division_type := division_type;
            division_id := division_id;
            renewable_energy_use_amount := renewable;
            nonrenewable_energy_use_amount := nonrenewable;
            year := year |}.

Definition NoFactorFound : JsError :=
  Error "No utility emissions factor found for given query".

Definition getCo2Emissions (uuid thruDate usage usage_uom : JsVal)
  : Completion Co2Emissions :=
  utilityFactorCall <- getEmissionsFactor uuid thruDate;;
  utilityFactor <-
    try_catch
      (rows <- JSON_parse utilityFactorCall;;
       row <- get_index rows 0;;
       get_prop row "Record")
      (fun _ => Throw NoFactorFound);;
  calculate utilityFactor usage usage_uom.

(** The emissions list of the ledger is threaded through the call: the
    result is the record returned and the list after the write. *)
Definition recordEmissions (emissionsList : gmap string EmissionsRecord)
    (utilityId partyId fromDate thruDate energyUseAmount energyUseUom
       url md5 : JsVal)
  : Completion (EmissionsRecord * gmap string EmissionsRecord) :=
  co2Emissions <- getCo2Emissions utilityId thruDate energyUseAmount energyUseUom;;
  let factor_source :=
    "eGrid " +:+ template (year co2Emissions) +:+ " "
    +:+ template (division_type co2Emissions) +:+ " "
    +:+ template (division_id co2Emissions) in
  let uuid :=
    MD5 (js_plus (js_plus (js_plus utilityId partyId) fromDate) thruDate) in
  let emissionsRecord :=
    createInstance uuid utilityId partyId fromDate thruDate
      (emissions_value co2Emissions)
      (renewable_energy_use_amount co2Emissions)
      (nonrenewable_energy_use_amount co2Emissions)
      energyUseUom (VStr factor_source) url md5 VNull in
  Normal (emissionsRecord,
          EmissionsList.addEmissionsRecord emissionsList emissionsRecord uuid).

(** The [uuid] is a key of the ledger, a string by the transport. *)
Definition updateEmissionsRecord (emissionsList : gmap string EmissionsRecord)
    (uuid : string)
    (utilityId partyId fromDate thruDate emissionsAmount
       renewable_energy_use_amount nonrenewable_energy_use_amount
       energyUseUom factor_source url md5 tokenId : JsVal)
  : Completion (EmissionsRecord * gmap string EmissionsRecord) :=
  let emissionsRecord :=
    createInstance uuid utilityId partyId fromDate thruDate
      (parseFloat (ToString emissionsAmount))
      (parseFloat (ToString renewable_energy_use_amount))
      (parseFloat (ToString nonrenewable_energy_use_amount))
      energyUseUom factor_source url md5 tokenId in
  Normal (emissionsRecord,
          EmissionsList.updateEmissionsRecord emissionsList emissionsRecord uuid).

End Contract.

(** ** The calculation on binary64 numbers *)

Section Rounded.
Context {L : Language} {M : Modules}.
Variable rnd : number -> number.

(** Lines 235-294 of [getCo2Emissions], as [calculate], the result of
    every conversion to a number and of every operation on numbers being
    rounded by [rnd]. *)
Definition calculate_rounded (utilityFactor usage usage_uom : JsVal)
  : Completion Co2Emissions :=
  let Number v := rnd (ToNumber v) in
  percent <- get_prop utilityFactor "percent_of_renewables";;
  amounts <-
    (if truthy percent then
       let emissions_uom := "g" in
       uom <- get_prop utilityFactor "co2_equivalent_emissions_uom";;
       let co2_equivalent_emissions_uom := split "/" (template uom) in
       co2 <- get_prop utilityFactor "co2_equivalent_emissions";;
       f0 <- get_uom_factor (item co2_equivalent_emissions_uom 0);;
       f1 <- get_uom_factor (item co2_equivalent_emissions_uom 1);;
       let emissions_value :=
         rnd (rnd (Number co2 * Number usage) * rnd (rnd f0 / rnd f1))%num in
       percent <- get_prop utilityFactor "percent_of_renewables";;
       let percent_of_renewables := rnd (Number percent / Finite 100)%num in
       Normal (emissions_value, emissions_uom,
               rnd (Number usage * percent_of_renewables)%num,
               rnd (Number usage * rnd (Finite 1 - percent_of_renewables))%num)
     else
       let emissions_uom := "tons" in
       net_generation_uom <- get_prop utilityFactor "net_generation_uom";;
       co2_equivalent_emissions_uom <-
         get_prop utilityFactor "co2_equivalent_emissions_uom";;
       u0 <- get_uom_factor usage_uom;;
       u1 <- get_uom_factor net_generation_uom;;
       let usage_uom_conversion := rnd (rnd u0 / rnd u1)%num in
       e0 <- get_uom_factor co2_equivalent_emissions_uom;;
       e1 <- get_uom_factor (VStr emissions_uom);;
       let emissions_uom_conversion := rnd (rnd e0 / rnd e1)%num in
       co2 <- get_prop utilityFactor "co2_equivalent_emissions";;
       net_generation <- get_prop utilityFactor "net_generation";;
       let emissions_value :=
         rnd (rnd (rnd (rnd (Number co2 / Number net_generation)
                        * Number usage)
                   * usage_uom_conversion)
              * emissions_uom_conversion)%num in
       non_renewables <- get_prop utilityFactor "non_renewables";;
       renewables <- get_prop utilityFactor "renewables";;
       let total_generation :=
         rnd (Number non_renewables + Number renewables)%num in
       Normal (emissions_value, emissions_uom,
               rnd (Number usage * rnd (Number renewables / total_generation))%num,
               rnd (Number usage
                    * rnd (Number non_renewables / total_generation))%num));;
  let '(emissions_value, emissions_uom, renewable, nonrenewable) :=
    amounts in
  division_type <- get_prop utilityFactor "division_type";;
  division_id <- get_prop utilityFactor "division_id";;
  year <- get_prop utilityFactor "year";;
  Normal {| emissions_value := emissions_value;
            emissions_uom := emissions_uom;
            division_type := division_type;
            division_id := division_id;
            renewable_energy_use_amount := renewable;
            nonrenewable_energy_use_amount := nonrenewable;
            year := year |}.

End Rounded.

Module Binary64.
Section Binary64.
Context {L : Language} {M : Modules}.

(** [Number(v)], a binary64 number. *)
Definition Number (v : JsVal) : number := fl (ToNumber v).

(** Lines 235-294 of [getCo2Emissions] on binary64 numbers. *)
Definition calculate (utilityFactor usage usage_uom : JsVal)
  : Completion Co2Emissions :=
  calculate_rounded fl utilityFactor usage usage_uom.

End Binary64.
End Binary64.

(** The parameters of the contract's [recordEmissions], in order. *)
Definition recordEmissions_parameters : list string :=
  ["utilityId"; "partyId"; "fromDate"; "thruDate";
   "energyUseAmount"; "energyUseUom"; "url"; "md5"].

(** A call binds the arguments to the parameters by position; a parameter
    that no argument reaches is [undefined]. *)
Fixpoint bind_parameters (parameters : list string) (args : list JsVal)
  : list (string * JsVal) :=
  match parameters with
  | [] => []
  | x :: parameters' =>
      (x, hd VUndef args) :: bind_parameters parameters' (tl args)
  end.

(** The contract's [recordEmissions] run on the arguments of a
    transaction. *)
Definition invoke_recordEmissions {L : Language} {M : Modules}
    (emissionsList : gmap string EmissionsRecord) (args : list JsVal)
  : Completion (EmissionsRecord * gmap string EmissionsRecord) :=
  recordEmissions emissionsList
    (nth 0 args VUndef) (nth 1 args VUndef) (nth 2 args VUndef)
    (nth 3 args VUndef) (nth 4 args VUndef) (nth 5 args VUndef)
    (nth 6 args VUndef) (nth 7 args VUndef).

(** ** The client: [EmissionsContractInvoke] *)

(** What the client takes from [fabric-network] and from [../utils]: the
    outcome of each call it makes during one operation. *)
Class Gateway : Type := {
  (** [setOrgDataCA], [setWalletPathByOrg] and [buildWallet] *)
  buildWallet : JsVal -> Completion unit;
  (** [gateway.connect] with the identity of the user *)
  connect : JsVal -> Completion unit;
  (** [gateway.getNetwork] and [network.getContract] *)
  getContract : Completion unit;
  getNewUuid : Completion JsVal;
  (** [contract.submitTransaction(name, ...args)], then [toString] *)
  submitTransaction : string -> list JsVal -> Completion string;
  (** [contract.evaluateTransaction(name, ...args)], then [toString] *)
  evaluateTransaction : string -> list JsVal -> Completion string;
  disconnect : Completion unit;
  (** [new Date().getFullYear()] *)
  getFullYear : number;
}.

Module EmissionsContractInvoke.
Section Client.
Context {L : Language} {G : Gateway}.

(** [result[k] = o.k] *)
Definition copy (result : JsVal) (k : string) (o : JsVal) (from : string)
  : Completion JsVal :=
  v <- get_prop o from;;
  Normal (set_prop result k v).

(** The arguments that [recordEmissions] gives to [submitTransaction]
    after the name of the transaction. *)
Definition recordEmissions_args
    (uuid utilityId partyId fromDate thruDate energyUseAmount energyUseUom
       : JsVal) : list JsVal :=
  [uuid; utilityId; partyId; fromDate; thruDate; energyUseAmount; energyUseUom].

(** The [try] block of [recordEmissions]. *)
Definition recordEmissions_try
    (userId orgName utilityId partyId fromDate thruDate energyUseAmount
       energyUseUom : JsVal) : Completion JsVal :=
  _ <- buildWallet orgName;;
  match connect userId with
  | Throw err => Normal (VStr ("ERROR: " +:+ error_toString err))
  | Normal _ =>
      _ <- getContract;;
      uuid <- getNewUuid;;
      stringResult <-
        submitTransaction "recordEmissions"
          (recordEmissions_args uuid utilityId partyId fromDate thruDate
             energyUseAmount energyUseUom);;
      jsonResult <- JSON_parse stringResult;;
      _ <- disconnect;;
      let result := VObj [] in
      let result := set_prop result "info" (VStr "EMISSION RECORDED TO LEDGER") in
      result <- copy result "utilityId" jsonResult "utilityId";;
      result <- copy result "partyId" jsonResult "partyId";;
      result <- copy result "fromDate" jsonResult "fromDate";;
      result <- copy result "thruDate" jsonResult "thruDate";;
      result <- copy result "energyUseAmount" jsonResult "emissionsAmount";;
      result <- copy result "energyUseUom" jsonResult "emissionsUom";;
      result <- copy result "renewableEnergyUseAmount" jsonResult
                  "renewableEnergyUseAmount";;
      result <- copy result "nonrenewableEnergyUseAmount" jsonResult
                  "nonrenewableEnergyUseAmount";;
      result <- copy result "energyUseUom" jsonResult "energyUseUom";;
      result <- copy result "factorSource" jsonResult "factorSource";;
      Normal result
  end.

(** The [catch] block of [recordEmissions]. *)
Definition recordEmissions_catch
    (utilityId partyId fromDate thruDate energyUseAmount energyUseUom : JsVal)
    (error : JsError) : Completion JsVal :=
  let result := VObj [] in
  let result :=
    set_prop result "info"
      (VStr ("Failed to submit transaction: " +:+ error_toString error)) in
  let result := set_prop result "utilityId" utilityId in
  let result := set_prop result "partyId" partyId in
  let result := set_prop result "fromDate" fromDate in
  let result := set_prop result "thruDate" thruDate in
  let result := set_prop result "energyUseAmount" energyUseAmount in
  let result := set_prop result "energyUseUom" energyUseUom in
  Normal result.

Definition recordEmissions
    (userId orgName utilityId partyId fromDate thruDate energyUseAmount
       energyUseUom : JsVal) : Completion JsVal :=
  try_catch
    (recordEmissions_try userId orgName utilityId partyId fromDate thruDate
       energyUseAmount energyUseUom)
    (recordEmissions_catch utilityId partyId fromDate thruDate
       energyUseAmount energyUseUom).

(** The [try] block of [getEmissionsData]. *)
Definition getEmissionsData_try (userId orgName uuid : JsVal)
  : Completion JsVal :=
  _ <- buildWallet orgName;;
  match connect userId with
  | Throw err => Normal (VStr ("ERROR: " +:+ error_toString err))
  | Normal _ =>
      _ <- getContract;;
      stringResult <- evaluateTransaction "getEmissionsData" [uuid];;
      jsonResult <- JSON_parse stringResult;;
      _ <- disconnect;;
      let result := VObj [] in
      let result := set_prop result "info" (VStr "UTILITY EMISSIONS DATA") in
      result <- copy result "utilityId" jsonResult "utilityId";;
      result <- copy result "partyId" jsonResult "partyId";;
      result <- copy result "fromDate" jsonResult "fromDate";;
      result <- copy result "thruDate" jsonResult "thruDate";;
      result <- copy result "emissionsAmount" jsonResult "emissionsAmount";;
      result <- copy result "emissionsUom" jsonResult "emissionsUom";;
      result <- copy result "renewableEnergyUseAmount" jsonResult
                  "renewableEnergyUseAmount";;
      result <- copy result "nonrenewableEnergyUseAmount" jsonResult
                  "nonrenewableEnergyUseAmount";;
      result <- copy result "energyUseUom" jsonResult "energyUseUom";;
      result <- copy result "factorSource" jsonResult "factorSource";;
      Normal result
  end.

(** The [catch] block of [getEmissionsData]. *)
Definition getEmissionsData_catch (uuid : JsVal) (error : JsError)
  : Completion JsVal :=
  let result := VObj [] in
  let result :=
    set_prop result "info"
      (VStr ("Failed to evaluate transaction: " +:+ error_toString error)) in
  let result := set_prop result "uuid" uuid in
  Normal result.

Definition getEmissionsData (userId orgName uuid : JsVal) : Completion JsVal :=
  try_catch (getEmissionsData_try userId orgName uuid)
            (getEmissionsData_catch uuid).

(** [for (let emission_item of jsonResult)]: arrays and strings are the
    iterable values that [JSON.parse] returns. *)
Definition iterate (v : JsVal) : Completion (list JsVal) :=
  match v with
  | VArr items => Normal items
  | VStr s =>
      Normal (map (fun c => VStr (String c EmptyString)) (list_ascii_of_string s))
  | _ => Throw (TypeError "jsonResult is not iterable")
  end.

(** [v.slice(0, 4)]: strings and arrays have the method. *)
Definition call_slice_0_4 (v : JsVal) : Completion JsVal :=
  match v with
  | VStr s => Normal (VStr (substring 0 4 s))
  | VArr items => Normal (VArr (firstn 4 items))
  | VUndef => Throw (TypeError "Cannot read properties of undefined (reading 'slice')")
  | VNull => Throw (TypeError "Cannot read properties of null (reading 'slice')")
  | _ => Throw (TypeError "slice is not a function")
  end.

(** The body of the loop of [getAllEmissionsData], over the rows left. *)
Fixpoint all_emissions_loop (rows : list JsVal) (current_year : number)
    (all_emissions : list JsVal) : Completion (list JsVal) :=
  match rows with
  | [] => Normal all_emissions
  | emission_item :: rows' =>
      let result := VObj [] in
      record <- get_prop emission_item "Record";;
      from <- get_prop record "fromDate";;
      prefix <- call_slice_0_4 from;;
      if num_lt (parseInt (ToString prefix)) (current_year - Finite 1)%num
      then all_emissions_loop rows' current_year all_emissions
      else
        let result := set_prop result "info" (VStr "UTILITY EMISSIONS DATA") in
        result <- copy result "utilityId" record "utilityId";;
        result <- copy result "partyId" record "partyId";;
        result <- copy result "fromDate" record "fromDate";;
        result <- copy result "thruDate" record "thruDate";;
        result <- copy result "emissionsAmount" record "emissionsAmount";;
        result <- copy result "emissionsUom" record "emissionsUom";;
        result <- copy result "renewableEnergyUseAmount" record
                    "renewableEnergyUseAmount";;
        result <- copy result "nonrenewableEnergyUseAmount" record
                    "nonrenewableEnergyUseAmount";;
        result <- copy result "energyUseUom" record "energyUseUom";;
        result <- copy result "factorSource" record "factorSource";;
        all_emissions_loop rows' current_year (all_emissions ++ [result])
  end.

(** The [try] block of [getAllEmissionsData]. *)
Definition getAllEmissionsData_try (userId orgName utilityId partyId : JsVal)
  : Completion JsVal :=
  _ <- buildWallet orgName;;
  match connect userId with
  | Throw err => Normal (VStr ("ERROR: " +:+ error_toString err))
  | Normal _ =>
      _ <- getContract;;
      stringResult <-
        evaluateTransaction "getAllEmissionsData" [utilityId; partyId];;
      jsonResult <- JSON_parse stringResult;;
      _ <- disconnect;;
      let all_emissions := [] in
      let current_year := getFullYear in
      rows <- iterate jsonResult;;
      all_emissions <- all_emissions_loop rows current_year all_emissions;;
      Normal (VArr all_emissions)
  end.

(** The [catch] block of [getAllEmissionsData]: the result it builds is
    not the value it returns. *)
Definition getAllEmissionsData_catch (error : JsError) : Completion JsVal :=
  let result := VObj [] in
  let all_emissions := [] in
  let result :=
    set_prop result "info"
      (VStr ("Failed to evaluate transaction: " +:+ error_toString error)) in
  Normal (VArr all_emissions).

Definition getAllEmissionsData (userId orgName utilityId partyId : JsVal)
  : Completion JsVal :=
  try_catch (getAllEmissionsData_try userId orgName utilityId partyId)
            getAllEmissionsData_catch.

End Client.
End EmissionsContractInvoke.

(** ** A reference platform

    Executable instances of [Language] and [Modules], for evaluating the
    contract on concrete ledgers. The theorems below hold for every
    platform; this one serves their instances. *)

Module Reference.

Local Open Scope Z_scope.

Definition dquote : ascii := ascii_of_nat 34.
Definition backslash : ascii := ascii_of_nat 92.

(** Writes a JSON text with ['] for the double quote. *)
Definition json (s : string) : string :=
  string_of_list_ascii
    (map (fun c => if Ascii.eqb c "'" then dquote else c)
         (list_ascii_of_string s)).

Definition is_space (c : ascii) : bool :=
  let n := nat_of_ascii c in
  (n =? 32)%nat || (n =? 9)%nat || (n =? 10)%nat || (n =? 13)%nat.

Fixpoint skip_space (s : list ascii) : list ascii :=
  match s with
  | c :: r => if is_space c then skip_space r else s
  | [] => []
  end.

Definition digit_of (c : ascii) : option Z :=
  let n := nat_of_ascii c in
  if (48 <=? n)%nat && (n <=? 57)%nat then Some (Z.of_nat (n - 48)) else None.

(** The longest prefix of decimal digits: its value, its length, the rest. *)
Fixpoint scan_digits (s : list ascii) (acc : Z) (count : nat)
  : Z * nat * list ascii :=
  match s with
  | c :: r =>
      match digit_of c with
      | Some d => scan_digits r (10 * acc + d) (S count)
      | None => (acc, count, s)
      end
  | [] => (acc, count, [])
  end.

Definition pow10 (n : nat) : Q := inject_Z (10 ^ Z.of_nat n).

Definition scale10 (q : Q) (negative : bool) (e : Z) : Q :=
  if negative then (q / pow10 (Z.to_nat e))%Q else (q * pow10 (Z.to_nat e))%Q.

(** An exponent part [e], [e+] or [e-] followed by digits, when there is
    one at the head of [s]. *)
Definition scan_exponent (q : Q) (s : list ascii) : Q * list ascii :=
  match s with
  | c :: r =>
      if Ascii.eqb c "e" || Ascii.eqb c "E" then
        let '(negative, r') :=
          match r with
          | "-"%char :: r' => (true, r')
          | "+"%char :: r' => (false, r')
          | _ => (false, r)
          end in
        let '(e, n, rest) := scan_digits r' 0 0 in
        match n with
        | O => (q, s)
        | S _ => (scale10 q negative e, rest)
        end
      else (q, s)
  | [] => (q, s)
  end.

(** A decimal literal without sign at the head of [s]: digits, an
    optional fraction, an optional exponent. [strict] asks for the
    grammar of JSON: a digit on each side of the point. *)
Definition scan_decimal (strict : bool) (s : list ascii)
  : option (Q * list ascii) :=
  let '(i, ni, r1) := scan_digits s 0 0 in
  match r1 with
  | "."%char :: r2 =>
      let '(f, nf, r3) := scan_digits r2 0 0 in
      if ((ni =? 0)%nat && (nf =? 0)%nat) || (strict && ((ni =? 0)%nat || (nf =? 0)%nat))
      then (if (ni =? 0)%nat then None else Some (inject_Z i, r1))
      else Some (scan_exponent (inject_Z (i * 10 ^ Z.of_nat nf + f) / pow10 nf)%Q r3)
  | _ =>
      if (ni =? 0)%nat then None else Some (scan_exponent (inject_Z i) r1)
  end.

(** [Number::toString], exact on the integers and on the decimal fractions
    of at most twenty digits. The exponent forms of the large and of the
    small magnitudes, and the rounding of the other fractions, are outside
    its domain. *)
Definition Number_toString (n : number) : string :=
  match n with
  | NaN => "NaN"
  | Infinity false => "Infinity"
  | Infinity true => "-Infinity"
  | Finite q =>
      let q := Qred q in
      let i := Z.quot (Qnum q) (Zpos (Qden q)) in
      let frac :=
        (fix digits (fuel : nat) (r : Z) : string :=
           match fuel with
           | O => ""
           | S fuel' =>
               if r =? 0 then ""
               else String (ascii_of_nat (48 + Z.to_nat (Z.quot (10 * r) (Zpos (Qden q)))))
                      (digits fuel' (Z.rem (10 * r) (Zpos (Qden q))))
           end) 20%nat (Z.abs (Z.rem (Qnum q) (Zpos (Qden q)))) in
      (if (Qnum q <? 0) && (i =? 0) then "-" else "")
      +:+ pretty.pretty i
      +:+ (if String.eqb frac "" then "" else "." +:+ frac)
  end.

(** *** [JSON.parse]

    A parser of JSON texts. Escapes [\u] above [007f] are outside its
    domain, and rejected. *)

Definition hex_of (c : ascii) : option Z :=
  let n := nat_of_ascii c in
  if (48 <=? n)%nat && (n <=? 57)%nat then Some (Z.of_nat (n - 48))
  else if (97 <=? n)%nat && (n <=? 102)%nat then Some (Z.of_nat (n - 87))
  else if (65 <=? n)%nat && (n <=? 70)%nat then Some (Z.of_nat (n - 55))
  else None.

Definition unescape (c : ascii) : option ascii :=
  if Ascii.eqb c dquote then Some dquote
  else if Ascii.eqb c backslash then Some backslash
  else if Ascii.eqb c "/" then Some "/"%char
  else if Ascii.eqb c "b" then Some (ascii_of_nat 8)
  else if Ascii.eqb c "f" then Some (ascii_of_nat 12)
  else if Ascii.eqb c "n" then Some (ascii_of_nat 10)
  else if Ascii.eqb c "r" then Some (ascii_of_nat 13)
  else if Ascii.eqb c "t" then Some (ascii_of_nat 9)
  else None.

(** The characters of a string literal after its opening quote. *)
Fixpoint scan_string (s : list ascii) : option (string * list ascii) :=
  match s with
  | [] => None
  | c :: r =>
      if Ascii.eqb c dquote then Some (EmptyString, r)
      else if Ascii.eqb c backslash then
        match r with
        | "u"%char :: h1 :: h2 :: h3 :: h4 :: r' =>
            match hex_of h1, hex_of h2, hex_of h3, hex_of h4 with
            | Some a, Some b, Some c, Some d =>
                let code := ((a * 16 + b) * 16 + c) * 16 + d in
                if code <? 128 then
                  match scan_string r' with
                  | Some (t, rest) =>
                      Some (String (ascii_of_nat (Z.to_nat code)) t, rest)
                  | None => None
                  end
                else None
            | _, _, _, _ => None
            end
        | e :: r' =>
            match unescape e, scan_string r' with
            | Some x, Some (t, rest) => Some (String x t, rest)
            | _, _ => None
            end
        | [] => None
        end
      else if (nat_of_ascii c <? 32)%nat then None
      else
        match scan_string r with
        | Some (t, rest) => Some (String c t, rest)
        | None => None
        end
  end.

(** A JSON number: no leading zero before another digit. *)
Definition scan_number (s : list ascii) : option (number * list ascii) :=
  let '(negative, r) :=
    match s with
    | "-"%char :: r => (true, r)
    | _ => (false, s)
    end in
  match r with
  | "0"%char :: d :: _ =>
      match digit_of d with
      | Some _ => None
      | None =>
          match scan_decimal true r with
          | Some (q, rest) => Some (Finite (if negative then - q else q)%Q, rest)
          | None => None
          end
      end
  | _ =>
      match scan_decimal true r with
      | Some (q, rest) => Some (Finite (if negative then - q else q)%Q, rest)
      | None => None
      end
  end.

(** Later members of a name replace earlier ones, in their place. *)
Definition object_of (members : list (string * JsVal)) : JsVal :=
  VObj (fold_left (fun acc m => set_assoc (fst m) (snd m) acc) members []).

Fixpoint parse_value (fuel : nat) (s : list ascii)
  : option (JsVal * list ascii) :=
  match fuel with
  | O => None
  | S fuel' =>
      match skip_space s with
      | "n"%char :: "u"%char :: "l"%char :: "l"%char :: r => Some (VNull, r)
      | "t"%char :: "r"%char :: "u"%char :: "e"%char :: r => Some (VBool true, r)
      | "f"%char :: "a"%char :: "l"%char :: "s"%char :: "e"%char :: r =>
          Some (VBool false, r)
      | c :: r =>
          if Ascii.eqb c dquote then
            match scan_string r with
            | Some (t, rest) => Some (VStr t, rest)
            | None => None
            end
          else if Ascii.eqb c "[" then
            match skip_space r with
            | "]"%char :: rest => Some (VArr [], rest)
            | _ =>
                match parse_elements fuel' r with
                | Some (items, rest) => Some (VArr items, rest)
                | None => None
                end
            end
          else if Ascii.eqb c "{" then
            match skip_space r with
            | "}"%char :: rest => Some (VObj [], rest)
            | _ =>
                match parse_members fuel' r with
                | Some (members, rest) => Some (object_of members, rest)
                | None => None
                end
            end
          else
            match scan_number (c :: r) with
            | Some (n, rest) => Some (VNum n, rest)
            | None => None
            end
      | [] => None
      end
  end
with parse_elements (fuel : nat) (s : list ascii)
  : option (list JsVal * list ascii) :=
  match fuel with
  | O => None
  | S fuel' =>
      match parse_value fuel' s with
      | Some (v, r) =>
          match skip_space r with
          | ","%char :: r' =>
              match parse_elements fuel' r' with
              | Some (items, rest) => Some (v :: items, rest)
              | None => None
              end
          | "]"%char :: rest => Some ([v], rest)
          | _ => None
          end
      | None => None
      end
  end
with parse_members (fuel : nat) (s : list ascii)
  : option (list (string * JsVal) * list ascii) :=
  match fuel with
  | O => None
  | S fuel' =>
      match skip_space s with
      | c :: r =>
          if Ascii.eqb c dquote then
            match scan_string r with
            | Some (k, r1) =>
                match skip_space r1 with
                | ":"%char :: r2 =>
                    match parse_value fuel' r2 with
                    | Some (v, r3) =>
                        match skip_space r3 with
                        | ","%char :: r4 =>
                            match parse_members fuel' r4 with
                            | Some (members, rest) => Some ((k, v) :: members, rest)
                            | None => None
                            end
                        | "}"%char :: rest => Some ([(k, v)], rest)
                        | _ => None
                        end
                    | None => None
                    end
                | _ => None
                end
            | None => None
            end
          else None
      | [] => None
      end
  end.

Definition JSON_parse (text : string) : Completion JsVal :=
  let s := list_ascii_of_string text in
  match parse_value (2 * List.length s + 2) s with
  | Some (v, rest) =>
      match skip_space rest with
      | [] => Normal v
      | _ :: _ => Throw (SyntaxError "Unexpected non-whitespace character after JSON")
      end
  | None => Throw (SyntaxError "Unexpected token in JSON")
  end.

(** *** Numeric conversions of strings *)

Definition is_js_space (c : ascii) : bool :=
  let n := nat_of_ascii c in
  is_space c || (n =? 11)%nat || (n =? 12)%nat.

Fixpoint skip_js_space (s : list ascii) : list ascii :=
  match s with
  | c :: r => if is_js_space c then skip_js_space r else s
  | [] => []
  end.

Definition trim (s : list ascii) : list ascii :=
  rev (skip_js_space (rev (skip_js_space s))).

Definition split_sign (s : list ascii) : bool * list ascii :=
  match s with
  | "-"%char :: r => (true, r)
  | "+"%char :: r => (false, r)
  | _ => (false, s)
  end.

Definition is_prefix (p s : list ascii) : bool :=
  String.eqb (string_of_list_ascii p)
             (string_of_list_ascii (firstn (List.length p) s)).

Definition signed (negative : bool) (q : Q) : number :=
  Finite (if negative then - q else q)%Q.

(** The longest prefix of digits in the radix: value, length, rest. *)
Fixpoint scan_radix (radix : Z) (s : list ascii) (acc : Z) (count : nat)
  : Z * nat * list ascii :=
  match s with
  | c :: r =>
      match hex_of c with
      | Some d =>
          if d <? radix then scan_radix radix r (radix * acc + d) (S count)
          else (acc, count, s)
      | None => (acc, count, s)
      end
  | [] => (acc, count, [])
  end.

Definition radix_prefix (s : list ascii) : option (Z * list ascii) :=
  match s with
  | "0"%char :: x :: r =>
      if Ascii.eqb x "x" || Ascii.eqb x "X" then Some (16, r)
      else if Ascii.eqb x "o" || Ascii.eqb x "O" then Some (8, r)
      else if Ascii.eqb x "b" || Ascii.eqb x "B" then Some (2, r)
      else None
  | _ => None
  end.

(** [StringToNumber]: the whole trimmed string is a numeric literal. *)
Definition String_toNumber (text : string) : number :=
  let s := trim (list_ascii_of_string text) in
  match s with
  | [] => Finite 0
  | _ :: _ =>
      match radix_prefix s with
      | Some (radix, r) =>
          match scan_radix radix r 0 0 with
          | (v, S _, []) => Finite (inject_Z v)
          | _ => NaN
          end
      | None =>
          let '(negative, r) := split_sign s in
          if String.eqb (string_of_list_ascii r) "Infinity" then Infinity negative
          else
            match scan_decimal false r with
            | Some (q, []) => signed negative q
            | _ => NaN
            end
      end
  end.

(** [parseFloat]: the longest prefix that is a decimal literal. *)
Definition parseFloat (text : string) : number :=
  let '(negative, r) := split_sign (skip_js_space (list_ascii_of_string text)) in
  if is_prefix (list_ascii_of_string "Infinity") r then Infinity negative
  else
    match scan_decimal false r with
    | Some (q, _) => signed negative q
    | None => NaN
    end.

(** [parseInt] without radix: the longest prefix of digits, hexadecimal
    after [0x]. *)
Definition parseInt (text : string) : number :=
  let '(negative, r) := split_sign (skip_js_space (list_ascii_of_string text)) in
  let '(radix, r) :=
    match r with
    | "0"%char :: x :: r' =>
        if Ascii.eqb x "x" || Ascii.eqb x "X" then (16, r') else (10, r)
    | _ => (10, r)
    end in
  match scan_radix radix r 0 0 with
  | (v, S _, _) => signed negative (inject_Z v)
  | _ => NaN
  end.

(** *** [crypto-js/md5]

    MD5 (RFC 1321) of the bytes of a string, in hexadecimal. *)

Definition add32 (a b : Z) : Z := (a + b) mod 2 ^ 32.
Definition not32 (a : Z) : Z := Z.lxor a (2 ^ 32 - 1).
Definition rotl32 (a n : Z) : Z :=
  Z.lor (Z.shiftl a n mod 2 ^ 32) (Z.shiftr a (32 - n)).

(** [floor(2^32 * abs(sin(i + 1)))] for [i] from 0 to 63. *)
Definition md5_K : list Z :=
  [
     3614090360; 3905402710; 606105819; 3250441966;
     4118548399; 1200080426; 2821735955; 4249261313;
     1770035416; 2336552879; 4294925233; 2304563134;
     1804603682; 4254626195; 2792965006; 1236535329;
     4129170786; 3225465664; 643717713; 3921069994;
     3593408605; 38016083; 3634488961; 3889429448;
     568446438; 3275163606; 4107603335; 1163531501;
     2850285829; 4243563512; 1735328473; 2368359562;
     4294588738; 2272392833; 1839030562; 4259657740;
     2763975236; 1272893353; 4139469664; 3200236656;
     681279174; 3936430074; 3572445317; 76029189;
     3654602809; 3873151461; 530742520; 3299628645;
     4096336452; 1126891415; 2878612391; 4237533241;
     1700485571; 2399980690; 4293915773; 2240044497;
     1873313359; 4264355552; 2734768916; 1309151649;
     4149444226; 3174756917; 718787259; 3951481745
  ].

Definition md5_shift : list Z :=
  [
     7; 12; 17; 22; 7; 12; 17; 22; 7; 12; 17; 22; 7; 12; 17; 22;
     5; 9; 14; 20; 5; 9; 14; 20; 5; 9; 14; 20; 5; 9; 14; 20;
     4; 11; 16; 23; 4; 11; 16; 23; 4; 11; 16; 23; 4; 11; 16; 23;
     6; 10; 15; 21; 6; 10; 15; 21; 6; 10; 15; 21; 6; 10; 15; 21
  ].

Definition md5_step (M : list Z) (st : Z * Z * Z * Z) (i : nat)
  : Z * Z * Z * Z :=
  let '(a, b, c, d) := st in
  let j := Z.of_nat i in
  let '(f, g) :=
    if (i <? 16)%nat then (Z.lor (Z.land b c) (Z.land (not32 b) d), j)
    else if (i <? 32)%nat then
      (Z.lor (Z.land d b) (Z.land (not32 d) c), (5 * j + 1) mod 16)
    else if (i <? 48)%nat then (Z.lxor (Z.lxor b c) d, (3 * j + 5) mod 16)
    else (Z.lxor c (Z.lor b (not32 d)), (7 * j) mod 16) in
  let f := add32 (add32 (add32 f a) (nth i md5_K 0)) (nth (Z.to_nat g) M 0) in
  (d, add32 b (rotl32 f (nth i md5_shift 0)), b, c).

(** The little-endian 32-bit words of a list of bytes. *)
Fixpoint words (bytes : list Z) : list Z :=
  match bytes with
  | b0 :: b1 :: b2 :: b3 :: r =>
      (b0 + 256 * (b1 + 256 * (b2 + 256 * b3))) :: words r
  | _ => []
  end.

Definition md5_block (st : Z * Z * Z * Z) (M : list Z) : Z * Z * Z * Z :=
  let '(a, b, c, d) := st in
  let '(a', b', c', d') := fold_left (md5_step M) (seq 0 64) st in
  (add32 a a', add32 b b', add32 c c', add32 d d').

Fixpoint md5_blocks (n : nat) (st : Z * Z * Z * Z) (ws : list Z)
  : Z * Z * Z * Z :=
  match n with
  | O => st
  | S n' => md5_blocks n' (md5_block st (firstn 16 ws)) (skipn 16 ws)
  end.

Fixpoint le_bytes (n : nat) (x : Z) : list Z :=
  match n with
  | O => []
  | S n' => x mod 256 :: le_bytes n' (x / 256)
  end.

Definition md5_pad (bytes : list Z) : list Z :=
  let len := Z.of_nat (List.length bytes) in
  let zeros := Z.to_nat ((55 - len) mod 64) in
  bytes ++ [128] ++ repeat 0 zeros ++ le_bytes 8 (8 * len).

Definition hex_digit (d : Z) : ascii :=
  ascii_of_nat (Z.to_nat (if d <? 10 then 48 + d else 87 + d)).

Definition hex_of_bytes (bytes : list Z) : string :=
  string_of_list_ascii
    (flat_map (fun b => [hex_digit (b / 16); hex_digit (b mod 16)]) bytes).

Definition md5 (text : string) : string :=
  let padded :=
    md5_pad (map (fun c => Z.of_nat (nat_of_ascii c)) (list_ascii_of_string text)) in
  let '(a, b, c, d) :=
    md5_blocks (List.length padded / 64)
      (1732584193, 4023233417, 2562383102, 271733878) (words padded) in
  hex_of_bytes (le_bytes 4 a ++ le_bytes 4 b ++ le_bytes 4 c ++ le_bytes 4 d).

(** *** The modules of the repository that are not part of the sources *)

(** Modelled from the spec: the Unit Conversion Table of
    [./emissions-calc.js], which maps the symbol of a unit to its
    multiplier against a base unit. The spec gives no entry of the table;
    these are the ratios of the units to the watt-hour and to the
    kilogram. *)
Definition UOM_FACTORS : list (string * Q) :=
  [("wh", 1); ("kwh", 1000); ("mwh", 1000000); ("gwh", 1000000000);
   ("g", 1 # 1000); ("kg", 1); ("lbs", 45359237 # 100000000);
   ("t", 1000); ("ton", 1000); ("tons", 1000)]%Q.

(** Modelled from the spec: [factor(u)] looks [u] up in the table; a
    symbol without entry is an error. *)
Definition get_uom_factor (uom : JsVal) : Completion number :=
  match uom with
  | VStr u =>
      match find (fun e => String.eqb (fst e) (toLowerCase u)) UOM_FACTORS with
      | Some e => Normal (Finite (snd e))
      | None => Throw (Error ("Unknown UOM [" +:+ u +:+ "]"))
      end
  | _ => Throw (Error "Unknown UOM")
  end.

(** Modelled from the spec: the calendar year of a date in ISO form
    [YYYY-MM-DD]; a string of another form is a parse failure. *)
Definition get_full_year_from_date (date : JsVal) : Completion JsVal :=
  match date with
  | VStr d =>
      match scan_digits (list_ascii_of_string d) 0 0 with
      | (y, 4%nat, "-"%char :: _) => Normal (VNum (Finite (inject_Z y)))
      | _ => Throw (Error ("Invalid date [" +:+ d +:+ "]"))
      end
  | _ => Throw (Error "Invalid date")
  end.

(** A stored emissions factor: the fields of its key, and its JSON text. *)
Record FactorRow : Type := {
  row_division_type : string;
  row_division_id : string;
  row_year : Z;
  row_record : string;
}.

(** Modelled from the spec: [get(key)] of the store of utility lookup
    items; without item the call fails with NotFound. *)
Definition getUtilityLookupItem (items : list (string * string))
    (uuid : JsVal) : Completion string :=
  match uuid with
  | VStr k =>
      match find (fun e => String.eqb (fst e) k) items with
      | Some e => Normal (snd e)
      | None => Throw (Error ("NotFound: utility lookup item [" +:+ k +:+ "]"))
      end
  | _ => Throw (Error "NotFound: utility lookup item")
  end.

Definition row_matches (queryParams : JsVal) (row : FactorRow) : bool :=
  match queryParams with
  | VObj props =>
      match assoc "division_type" props, assoc "division_id" props with
      | Some (VStr t), Some (VStr i) =>
          String.eqb t (row_division_type row)
          && String.eqb i (row_division_id row)
          && match assoc "year" props with
             | None => true
             | Some (VNum (Finite y)) => Qeq_bool y (inject_Z (row_year row))
             | Some _ => false
             end
      | _, _ => false
      end
  | _ => false
  end.

Fixpoint join (sep : string) (l : list string) : string :=
  match l with
  | [] => ""
  | [x] => x
  | x :: r => x +:+ sep +:+ join sep r
  end.

(** Modelled from the spec: [queryByPartialKey(division_type,
    division_id, year)] of the store of emissions factors, a scan of the
    keys that begin with the fields given; the result is the JSON text of
    the rows [{Key, Record}]. *)
Definition getUtilityEmissionsFactorsByDivision (rows : list FactorRow)
    (queryParams : JsVal) : Completion string :=
  Normal
    ("[" +:+
     join ","
       (map (fun row =>
               json "{'Key':'" +:+ row_division_type row +:+ "/"
               +:+ row_division_id row +:+ json "','Record':"
               +:+ row_record row +:+ "}")
            (filter (row_matches queryParams) rows))
     +:+ "]").

Definition language : Language :=
  Build_Language JSON_parse Number_toString String_toNumber parseFloat parseInt.

(** The digest of a string is that of its bytes; another value is outside
    the domain of the hash, and is hashed through its string. *)
Definition MD5 (message : JsVal) : string :=
  md5 (@ToString language message).

Definition modules (items : list (string * string)) (rows : list FactorRow)
  : Modules :=
  Build_Modules MD5 get_uom_factor get_full_year_from_date
    (getUtilityLookupItem items) (getUtilityEmissionsFactorsByDivision rows).

End Reference.

(** ** Concrete ledgers *)

Module Scenario.

(** The utility of the end-to-end scenario of the specification: a lookup
    item with a state, whose divisions name the country. *)
Definition lookup_U1 : string :=
  Reference.json
    "{'uuid':'U1','state_province':'CA','divisions':'{\'division_type\':\'country\',\'division_id\':\'USA\'}'}".

(** A utility without the field [state_province], in a NERC region. *)
Definition lookup_U2 : string :=
  Reference.json
    "{'uuid':'U2','divisions':'{\'division_type\':\'NERC_REGION\',\'division_id\':\'WECC\'}'}".

(** A utility with an empty state, in a country that has no identifier. *)
Definition lookup_U3 : string :=
  Reference.json
    "{'uuid':'U3','state_province':'','divisions':'{\'division_type\':\'Country\',\'division_id\':\'\'}'}".

(** A utility with an empty state, in a NERC region. *)
Definition lookup_U4 : string :=
  Reference.json
    "{'uuid':'U4','state_province':'','divisions':'{\'division_type\':\'NERC_REGION\',\'division_id\':\'WECC\'}'}".

Definition items : list (string * string) :=
  [("U1", lookup_U1); ("U2", lookup_U2); ("U3", lookup_U3); ("U4", lookup_U4)].

(** The factor of the scenario, as a text of the ledger and as a value. *)
Definition factor_CA_text : string :=
  Reference.json
    "{'division_type':'STATE','division_id':'CA','year':2020,'percent_of_renewables':40,'co2_equivalent_emissions':500,'co2_equivalent_emissions_uom':'lbs/MWh'}".

Definition factor_CA_props : list (string * JsVal) :=
  [("division_type", VStr "STATE"); ("division_id", VStr "CA");
   ("year", VNum (Finite 2020)); ("percent_of_renewables", VNum (Finite 40));
   ("co2_equivalent_emissions", VNum (Finite 500));
   ("co2_equivalent_emissions_uom", VStr "lbs/MWh")].

(** A factor on net generation, whose [percent_of_renewables] is present
    and zero; the numbers are stored as strings. *)
Definition factor_WECC_text : string :=
  Reference.json
    "{'division_type':'NERC_REGION','division_id':'WECC','year':2019,'net_generation':'2000','net_generation_uom':'MWh','co2_equivalent_emissions':'1000','co2_equivalent_emissions_uom':'tons','non_renewables':'1500','renewables':'500','percent_of_renewables':0}".

Definition factor_WECC_props : list (string * JsVal) :=
  [("division_type", VStr "NERC_REGION"); ("division_id", VStr "WECC");
   ("year", VNum (Finite 2019)); ("net_generation", VStr "2000");
   ("net_generation_uom", VStr "MWh");
   ("co2_equivalent_emissions", VStr "1000");
   ("co2_equivalent_emissions_uom", VStr "tons");
   ("non_renewables", VStr "1500"); ("renewables", VStr "500");
   ("percent_of_renewables", VNum (Finite 0))].

(** A factor on net generation that generated nothing. *)
Definition factor_idle_props : list (string * JsVal) :=
  [("division_type", VStr "STATE"); ("division_id", VStr "ZZ");
   ("year", VNum (Finite 2020)); ("net_generation", VNum (Finite 0));
   ("net_generation_uom", VStr "MWh");
   ("co2_equivalent_emissions", VNum (Finite 100));
   ("co2_equivalent_emissions_uom", VStr "tons");
   ("non_renewables", VNum (Finite 0)); ("renewables", VNum (Finite 0))].

Definition rows : list Reference.FactorRow :=
  [Reference.Build_FactorRow "STATE" "CA" 2020 factor_CA_text;
   Reference.Build_FactorRow "NERC_REGION" "WECC" 2019 factor_WECC_text].

Definition language : Language := Reference.language.
Definition modules : Modules := Reference.modules items rows.

(** The texts that the query of the factors returns for the two rows. *)
Definition rows_CA_text : string :=
  Reference.json "[{'Key':'STATE/CA','Record':" +:+ factor_CA_text +:+ "}]".

Definition rows_WECC_text : string :=
  Reference.json "[{'Key':'NERC_REGION/WECC','Record':" +:+ factor_WECC_text
  +:+ "}]".

(** The values of [JSON.parse] on the lookup items. *)
Definition lookup_U1_props : list (string * JsVal) :=
  [("uuid", VStr "U1"); ("state_province", VStr "CA");
   ("divisions",
    VStr (Reference.json "{'division_type':'country','division_id':'USA'}"))].

Definition lookup_U2_props : list (string * JsVal) :=
  [("uuid", VStr "U2");
   ("divisions",
    VStr (Reference.json "{'division_type':'NERC_REGION','division_id':'WECC'}"))].

Definition lookup_U4_props : list (string * JsVal) :=
  [("uuid", VStr "U4"); ("state_province", VStr "");
   ("divisions",
    VStr (Reference.json "{'division_type':'NERC_REGION','division_id':'WECC'}"))].

(** The record of the scenario, and its key: the MD5 digest of
    "U1P12020-01-012020-01-31". *)
Definition key_U1 : string := "fa9fc8f4f21a206fe46607974132ef66".

Definition record_U1 : EmissionsRecord :=
  createInstance key_U1 (VStr "U1") (VStr "P1") (VStr "2020-01-01")
    (VStr "2020-01-31")
    (Finite 500 * Finite 1000
     * (Finite (45359237 # 100000000) / Finite 1000000))%num
    (Finite 1000 * (Finite 40 / Finite 100))%num
    (Finite 1000 * (Finite 1 - Finite 40 / Finite 100))%num
    (VStr "MWh") (VStr "eGrid 2020 STATE CA") (VStr "https://example.org/bill")
    (VStr "0cc175b9c0f1b6a831c399e269772661") VNull.

(** The ledger after the scenario. *)
Definition ledger_U1 : gmap string EmissionsRecord :=
  <[key_U1 := record_U1]> ∅.

(** A gateway that refuses the connection. *)
Definition gateway_refused : Gateway :=
  {| buildWallet := fun _ => Normal tt;
     connect := fun _ => Throw (Error "connect ECONNREFUSED");
     getContract := Normal tt;
     getNewUuid := Normal (VStr "c3d0a4e2");
     submitTransaction := fun _ _ => Throw (Error "not connected");
     evaluateTransaction := fun _ _ => Throw (Error "not connected");
     disconnect := Normal tt;
     getFullYear := Finite 2021 |}.

(** A gateway whose peers reject every transaction. *)
Definition gateway_rejecting : Gateway :=
  {| buildWallet := fun _ => Normal tt;
     connect := fun _ => Normal tt;
     getContract := Normal tt;
     getNewUuid := Normal (VStr "c3d0a4e2");
     submitTransaction := fun _ _ => Throw (Error "endorsement failed");
     evaluateTransaction := fun _ _ => Throw (Error "endorsement failed");
     disconnect := Normal tt;
     getFullYear := Finite 2021 |}.

(** A gateway whose results are not JSON texts. *)
Definition gateway_garbled : Gateway :=
  {| buildWallet := fun _ => Normal tt;
     connect := fun _ => Normal tt;
     getContract := Normal tt;
     getNewUuid := Normal (VStr "c3d0a4e2");
     submitTransaction := fun _ _ => Normal "<html>";
     evaluateTransaction := fun _ _ => Normal "<html>";
     disconnect := Normal tt;
     getFullYear := Finite 2021 |}.

Definition division_country_USA : JsVal :=
  VObj [("division_type", VStr "country"); ("division_id", VStr "USA")].

Definition division_NERC_WECC : JsVal :=
  VObj [("division_type", VStr "NERC_REGION"); ("division_id", VStr "WECC")].

End Scenario.

(** ** The rows of [getAllEmissionsData] *)

(** The object that the loop of the client's [getAllEmissionsData] pushes
    for a record (lines 628 to 640). *)
Definition emission_result (record : list (string * JsVal)) : JsVal :=
  VObj [("info", VStr "UTILITY EMISSIONS DATA");
        ("utilityId", field record "utilityId");
        ("partyId", field record "partyId");
        ("fromDate", field record "fromDate");
        ("thruDate", field record "thruDate");
        ("emissionsAmount", field record "emissionsAmount");
        ("emissionsUom", field record "emissionsUom");
        ("renewableEnergyUseAmount", field record "renewableEnergyUseAmount");
        ("nonrenewableEnergyUseAmount",
         field record "nonrenewableEnergyUseAmount");
        ("energyUseUom", field record "energyUseUom");
        ("factorSource", field record "factorSource")].

(** The test of the loop (line 624) on the [fromDate] of a record: the
    record is skipped when the test holds. *)
Definition skipped {L : Language} (current_year : number) (fromDate : string)
  : bool :=
  num_lt (parseInt (substring 0 4 fromDate)) (current_year - Finite 1)%num.

(** The record and the [fromDate] of a row [{Record: {fromDate: "...", ...}}],
    the rows that the loop reads without exception. *)
Definition record_of_row (row : JsVal)
  : option (list (string * JsVal) * string) :=
  match row with
  | VObj props =>
      match field props "Record" with
      | VObj record =>
          match field record "fromDate" with
          | VStr fromDate => Some (record, fromDate)
          | _ => None
          end
      | _ => None
      end
  | _ => None
  end.

(** ** More ledgers and gateways *)

Module Cases.

(** A utility without state, in a division of a type that the contract
    does not know, without identifier. *)
Definition lookup_BA : string :=
  Reference.json
    "{'uuid':'U5','state_province':'','divisions':'{\'division_type\':\'BALANCING_AUTHORITY\'}'}".

Definition lookup_BA_props : list (string * JsVal) :=
  [("uuid", VStr "U5"); ("state_province", VStr "");
   ("divisions", VStr (Reference.json "{'division_type':'BALANCING_AUTHORITY'}"))].

(** A utility with a state, whose divisions have no type. *)
Definition lookup_untyped : string :=
  Reference.json "{'uuid':'U6','state_province':'CA','divisions':'{}'}".

Definition lookup_untyped_props : list (string * JsVal) :=
  [("uuid", VStr "U6"); ("state_province", VStr "CA"); ("divisions", VStr "{}")].

(** A utility with a state and no divisions. *)
Definition lookup_undivided : string :=
  Reference.json "{'uuid':'U7','state_province':'CA'}".

Definition lookup_undivided_props : list (string * JsVal) :=
  [("uuid", VStr "U7"); ("state_province", VStr "CA")].

(** The utilities of the scenario, a second utility of the state CA whose
    identifier extends that of the first, the utilities above, and an item
    that is not a JSON text. *)
Definition items : list (string * string) :=
  Scenario.items
  ++ [("U12", Scenario.lookup_U1); ("U5", lookup_BA); ("U6", lookup_untyped);
      ("U7", lookup_undivided); ("U8", "<html>")].

Definition modules : Modules := Reference.modules items Scenario.rows.

(** The modules of the ledger above, with a query of the factors that
    returns a given outcome. *)
Definition modules_returning (utilityFactors : Completion string) : Modules :=
  Build_Modules Reference.MD5 Reference.get_uom_factor
    Reference.get_full_year_from_date (Reference.getUtilityLookupItem items)
    (fun _ => utilityFactors).

(** A row of the factors without [Record]. *)
Definition rows_without_record : string :=
  Reference.json "[{'Key':'STATE/CA'}]".

(** A factor on [percent_of_renewables] whose unit has no energy part, and
    one whose percentage is above 100. *)
Definition factor_lbs_props : list (string * JsVal) :=
  [("division_type", VStr "STATE"); ("division_id", VStr "CA");
   ("year", VNum (Finite 2020)); ("percent_of_renewables", VNum (Finite 40));
   ("co2_equivalent_emissions", VNum (Finite 500));
   ("co2_equivalent_emissions_uom", VStr "lbs")].

Definition factor_150_props : list (string * JsVal) :=
  [("division_type", VStr "STATE"); ("division_id", VStr "CA");
   ("year", VNum (Finite 2020)); ("percent_of_renewables", VNum (Finite 150));
   ("co2_equivalent_emissions", VNum (Finite 500));
   ("co2_equivalent_emissions_uom", VStr "lbs/MWh")].

(** The record of the scenario as the contract returns it to the client. *)
Definition record_U1_text : string :=
  Reference.json
    "{'uuid':'fa9fc8f4f21a206fe46607974132ef66','utilityId':'U1','partyId':'P1','fromDate':'2020-01-01','thruDate':'2020-01-31','emissionsAmount':0.226796185,'renewableEnergyUseAmount':400,'nonrenewableEnergyUseAmount':600,'energyUseUom':'MWh','factorSource':'eGrid 2020 STATE CA','tokenId':null}".

Definition record_U1_props : list (string * JsVal) :=
  [("uuid", VStr "fa9fc8f4f21a206fe46607974132ef66");
   ("utilityId", VStr "U1"); ("partyId", VStr "P1");
   ("fromDate", VStr "2020-01-01"); ("thruDate", VStr "2020-01-31");
   ("emissionsAmount", VNum (Finite (226796185 # 1000000000)));
   ("renewableEnergyUseAmount", VNum (Finite 400));
   ("nonrenewableEnergyUseAmount", VNum (Finite 600));
   ("energyUseUom", VStr "MWh");
   ("factorSource", VStr "eGrid 2020 STATE CA"); ("tokenId", VNull)].

(** Records of four periods, the last with a date that has no year. *)
Definition record_of (fromDate : string) : list (string * JsVal) :=
  [("utilityId", VStr "U1"); ("partyId", VStr "P1");
   ("fromDate", VStr fromDate); ("energyUseUom", VStr "MWh")].

Definition row_of (fromDate : string) : JsVal :=
  VObj [("Key", VStr fromDate); ("Record", VObj (record_of fromDate))].

Definition row_text (fromDate : string) : string :=
  Reference.json "{'Key':'" +:+ fromDate
  +:+ Reference.json "','Record':{'utilityId':'U1','partyId':'P1','fromDate':'"
  +:+ fromDate +:+ Reference.json "','energyUseUom':'MWh'}}".

Definition rows_text : string :=
  "[" +:+ row_text "2019-12-01" +:+ "," +:+ row_text "2020-01-01" +:+ ","
  +:+ row_text "2021-03-01" +:+ "," +:+ row_text "March 2018" +:+ "]".

(** The rows above with a row without [Record] at the end. *)
Definition rows_poisoned_text : string :=
  "[" +:+ row_text "2020-01-01" +:+ "," +:+ row_text "2021-03-01" +:+ ","
  +:+ Reference.json "{'Key':'k'}" +:+ "]".

(** A gateway that connects, and returns a given text for every
    transaction; the year is 2021. *)
Definition gateway_returning (stringResult : string) : Gateway :=
  {| buildWallet := fun _ => Normal tt;
     connect := fun _ => Normal tt;
     getContract := Normal tt;
     getNewUuid := Normal (VStr "c3d0a4e2");
     submitTransaction := fun _ _ => Normal stringResult;
     evaluateTransaction := fun _ _ => Normal stringResult;
     disconnect := Normal tt;
     getFullYear := Finite 2021 |}.

(** The scenario recorded again, with a usage of 2000 kWh. *)
Definition record_U1_again : EmissionsRecord :=
  createInstance Scenario.key_U1 (VStr "U1") (VStr "P1") (VStr "2020-01-01")
    (VStr "2020-01-31")
    (Finite 500 * Finite 2000
     * (Finite (45359237 # 100000000) / Finite 1000000))%num
    (Finite 2000 * (Finite 40 / Finite 100))%num
    (Finite 2000 * (Finite 1 - Finite 40 / Finite 100))%num
    (VStr "kWh") (VStr "eGrid 2020 STATE CA") VUndef VUndef VNull.

Definition ledger_U1_again : gmap string EmissionsRecord :=
  <[Scenario.key_U1 := record_U1_again]> ∅.

(** The records of the party "2P" of the utility U1 and of the party "P"
    of the utility U12, and their key: the MD5 digest of
    "U12P2020-01-012020-01-31". *)
Definition key_U12P : string := "f8f6feef4bfec4d2961576130f6a3e35".

Definition record_of_party (utilityId partyId : string) (usage : Q)
  : EmissionsRecord :=
  createInstance key_U12P (VStr utilityId) (VStr partyId) (VStr "2020-01-01")
    (VStr "2020-01-31")
    (Finite 500 * Finite usage
     * (Finite (45359237 # 100000000) / Finite 1000000))%num
    (Finite usage * (Finite 40 / Finite 100))%num
    (Finite usage * (Finite 1 - Finite 40 / Finite 100))%num
    (VStr "MWh") (VStr "eGrid 2020 STATE CA") VUndef VUndef VNull.

Definition ledger_of_party (utilityId partyId : string) (usage : Q)
  : gmap string EmissionsRecord :=
  <[key_U12P := record_of_party utilityId partyId usage]> ∅.

(** A factor on net generation of one part in three, and its amounts for
    a usage of 7: 4.666666666666666 and 2.333333333333333. *)
Definition factor_thirds_props : list (string * JsVal) :=
  [("division_type", VStr "NERC_REGION"); ("division_id", VStr "WECC");
   ("year", VNum (Finite 2019)); ("net_generation", VNum (Finite 3));
   ("net_generation_uom", VStr "MWh");
   ("co2_equivalent_emissions", VNum (Finite 1));
   ("co2_equivalent_emissions_uom", VStr "tons");
   ("non_renewables", VNum (Finite 1)); ("renewables", VNum (Finite 2))].

(** A factor on net generation whose two generations are [2 ^ 1023]:
    their sum is not a binary64 number. *)
Definition factor_overflow_props : list (string * JsVal) :=
  [("division_type", VStr "NERC_REGION"); ("division_id", VStr "WECC");
   ("year", VNum (Finite 2019)); ("net_generation", VNum (Finite 3));
   ("net_generation_uom", VStr "MWh");
   ("co2_equivalent_emissions", VNum (Finite 1));
   ("co2_equivalent_emissions_uom", VStr "tons");
   ("non_renewables", VNum (Finite (pow2 1023)));
   ("renewables", VNum (Finite (pow2 1023)))].


Definition thirds_renewable : Q := 2627099782632789 # 562949953421312.
Definition thirds_nonrenewable : Q := 2627099782632789 # 1125899906842624.

(** The text of a value in a serialised record: a string between quotes,
    a finite number, and "null" for [null] and for a number that is not
    finite. *)
Definition text_of {L : Language} (v : JsVal) : string :=
  match v with
  | VStr s => "'" +:+ s +:+ "'"
  | VNum (Finite q) => Number_toString (Finite q)
  | _ => "null"
  end.

(** A serialisation of the record that the contract returns, for the
    gateways of the cases: the fields that the client reads. *)
Definition toBuffer {L : Language} (r : EmissionsRecord) : string :=
  Reference.json
    ("{'uuid':'" +:+ uuid r
     +:+ "','utilityId':" +:+ text_of (utilityId r)
     +:+ ",'partyId':" +:+ text_of (partyId r)
     +:+ ",'fromDate':" +:+ text_of (fromDate r)
     +:+ ",'thruDate':" +:+ text_of (thruDate r)
     +:+ ",'emissionsAmount':" +:+ text_of (VNum (emissionsAmount r))
     +:+ ",'renewableEnergyUseAmount':"
     +:+ text_of (VNum (renewableEnergyUseAmount r))
     +:+ ",'nonrenewableEnergyUseAmount':"
     +:+ text_of (VNum (nonrenewableEnergyUseAmount r))
     +:+ ",'energyUseUom':" +:+ text_of (energyUseUom r)
     +:+ ",'factorSource':" +:+ text_of (factorSource r) +:+ "}").

(** A gateway that connects and hands the arguments of the transaction
    "recordEmissions" to the contract, on a ledger. *)
Definition gateway_of_contract {L : Language} {M : Modules}
    (emissionsList : gmap string EmissionsRecord) : Gateway :=
  {| buildWallet := fun _ => Normal tt;
     connect := fun _ => Normal tt;
     getContract := Normal tt;
     getNewUuid := Normal (VStr "c3d0a4e2");
     submitTransaction := fun name args =>
       if String.eqb name "recordEmissions" then
         r <- invoke_recordEmissions emissionsList args;;
         Normal (toBuffer (fst r))
       else Throw (Error "unknown transaction");
     evaluateTransaction := fun _ _ => Throw (Error "unknown transaction");
     disconnect := Normal tt;
     getFullYear := Finite 2021 |}.

(** A ledger on which the generated uuid names a utility. *)
Definition modules_uuid : Modules :=
  Reference.modules (("c3d0a4e2", Scenario.lookup_U1) :: Scenario.items)
    Scenario.rows.

(** The MD5 digest of "c3d0a4e2U1P12020-01-01". *)
Definition key_shifted : string := "15d3a3098294a1c782505fa99ca82cbd".

(** The record of the shifted call: the party is the utility of the
    caller, the dates are its party and its first date, the usage is its
    last date, which is not a number. *)
Definition record_shifted : EmissionsRecord :=
  createInstance key_shifted (VStr "c3d0a4e2") (VStr "U1") (VStr "P1")
    (VStr "2020-01-01") NaN NaN NaN (VStr "1000")
    (VStr "eGrid 2020 STATE CA") (VStr "MWh") VUndef VNull.

Definition ledger_shifted : gmap string EmissionsRecord :=
  <[key_shifted := record_shifted]> ∅.

End Cases.

(** * Properties *)

(** ** The reference platform on known values *)

Example md5_empty : Reference.md5 "" = "d41d8cd98f00b204e9800998ecf8427e".
Proof. vm_compute. reflexivity. Qed.

Example md5_abc : Reference.md5 "abc" = "900150983cd24fb0d6963f7d28e17f72".
Proof. vm_compute. reflexivity. Qed.

(** A message of two blocks, from RFC 1321. *)
Example md5_digits :
  Reference.md5
    "12345678901234567890123456789012345678901234567890123456789012345678901234567890"
  = "57edf4a22be3c955ac49da2e2107b67a".
Proof. vm_compute. reflexivity. Qed.

Example lookup_U1_parsed :
  Reference.JSON_parse Scenario.lookup_U1 = Normal (VObj Scenario.lookup_U1_props).
Proof. vm_compute. reflexivity. Qed.

Example divisions_U1_parsed :
  Reference.JSON_parse
    (@ToString Scenario.language (field Scenario.lookup_U1_props "divisions"))
  = Normal Scenario.division_country_USA.
Proof. vm_compute. reflexivity. Qed.

Example factor_CA_parsed :
  Reference.JSON_parse Scenario.factor_CA_text
  = Normal (VObj Scenario.factor_CA_props).
Proof. vm_compute. reflexivity. Qed.

Example factor_WECC_parsed :
  Reference.JSON_parse Scenario.factor_WECC_text
  = Normal (VObj Scenario.factor_WECC_props).
Proof. vm_compute. reflexivity. Qed.

(** The end-to-end scenario of the specification: the utility U1 resolves
    to STATE/CA, the calculation takes the branch on
    [percent_of_renewables], the amounts are 400 and 600, and the record is
    stored under the digest of "U1P12020-01-012020-01-31". *)
Example scenario_recordEmissions :
  @recordEmissions Scenario.language Scenario.modules ∅
    (VStr "U1") (VStr "P1") (VStr "2020-01-01") (VStr "2020-01-31")
    (VNum (Finite 1000)) (VStr "MWh") (VStr "https://example.org/bill")
    (VStr "0cc175b9c0f1b6a831c399e269772661")
  = Normal (Scenario.record_U1, Scenario.ledger_U1).
Proof. vm_compute. reflexivity. Qed.

Example scenario_amounts :
  (renewableEnergyUseAmount Scenario.record_U1 == Finite 400)%num /\
  (nonrenewableEnergyUseAmount Scenario.record_U1 == Finite 600)%num /\
  factorSource Scenario.record_U1 = VStr "eGrid 2020 STATE CA".
Proof. repeat split; reflexivity. Qed.

(** ** Arithmetic *)

Lemma Qzero_b_iff (q : Q) : Qzero_b q = true <-> (q == 0)%Q.
Proof.
  unfold Qzero_b, Qeq. destruct q as [n d]. simpl.
  rewrite Z.eqb_eq. lia.
Qed.

Lemma Qzero_b_false_iff (q : Q) : Qzero_b q = false <-> ~ (q == 0)%Q.
Proof.
  rewrite <- Qzero_b_iff. destruct (Qzero_b q); split; congruence.
Qed.

(** Dividing by zero never gives a finite number. *)
Lemma num_div_zero (a : number) (q : Q) :
  Qzero_b q = true -> is_finite (a / Finite q)%num = false.
Proof.
  intros Hq. destruct a as [| s | p]; simpl; try reflexivity.
  rewrite Hq. destruct (Qzero_b p); reflexivity.
Qed.

Lemma num_mul_not_finite_l (a b : number) :
  is_finite a = false -> is_finite (a * b)%num = false.
Proof.
  destruct a as [| s | p]; simpl; intros H; try discriminate.
  - reflexivity.
  - destruct b as [| s' | q]; simpl; try reflexivity.
    destruct (Qzero_b q); reflexivity.
Qed.

Lemma num_mul_not_finite_r (a b : number) :
  is_finite b = false -> is_finite (a * b)%num = false.
Proof.
  destruct b as [| s | q]; simpl; intros H; try discriminate.
  - destruct a; reflexivity.
  - destruct a as [| s' | p]; simpl; try reflexivity.
    destruct (Qzero_b p); reflexivity.
Qed.

(** ** Conversions *)

Lemma append_empty (s : string) : s +:+ "" = s.
Proof.
  induction s as [| c s IH]; [reflexivity |].
  change (String c (s +:+ "") = String c s). now rewrite IH.
Qed.

(** [v + ""] is the string of [v], as [template] has it. *)
Lemma js_plus_empty (L : Language) (v : JsVal) :
  js_plus v (VStr "") = VStr (template v).
Proof.
  destruct v as [| | b | n | s | items | props]; cbn;
    rewrite ?append_empty; reflexivity.
Qed.

(** ** Completions *)

(** Runs a computation along the outcomes that the context gives. *)
Ltac run :=
  repeat match goal with
         | H : ?c = _ |- context [bind ?c _] => rewrite H; cbn [bind]
         | H : ?c = _ |- context [try_catch ?c _] => rewrite H; cbn [try_catch]
         | H : ?c = _ |- context [match ?c with Normal _ => _ | Throw _ => _ end] =>
             rewrite H
         end.

Lemma bind_Normal {A : Type} (c : Completion A) :
  (x <- c;; Normal x) = c.
Proof. destruct c; reflexivity. Qed.

(** ** The calculation *)

Section Calculation.
Context {L : Language} {M : Modules}.

Lemma get_prop_object (props : list (string * JsVal)) (k : string) :
  get_prop (VObj props) k = Normal (field props k).
Proof. reflexivity. Qed.

(** The calculation on a factor with a truthy [percent_of_renewables]. *)
Lemma calculate_percent_of_renewables
    (props : list (string * JsVal)) (usage usage_uom : JsVal) (f0 f1 : number) :
  let parts := split "/" (template (field props "co2_equivalent_emissions_uom")) in
  let percent := (ToNumber (field props "percent_of_renewables") / Finite 100)%num in
  truthy (field props "percent_of_renewables") = true ->
  get_uom_factor (item parts 0) = Normal f0 ->
  get_uom_factor (item parts 1) = Normal f1 ->
  calculate (VObj props) usage usage_uom =
  Normal {| emissions_value :=
              (ToNumber (field props "co2_equivalent_emissions")
               * ToNumber usage * (f0 / f1))%num;
            emissions_uom := "g";
            division_type := field props "division_type";
            division_id := field props "division_id";
            renewable_energy_use_amount := (ToNumber usage * percent)%num;
            nonrenewable_energy_use_amount :=
              (ToNumber usage * (Finite 1 - percent))%num;
            year := field props "year" |}.
Proof.
  intros parts percent Ht H0 H1. unfold calculate.
  rewrite !get_prop_object. cbn [bind]. rewrite Ht.
  fold parts. rewrite H0, H1. reflexivity.
Qed.

(** The calculation on a factor with a falsy [percent_of_renewables]. *)
Lemma calculate_net_generation
    (props : list (string * JsVal)) (usage usage_uom : JsVal)
    (u0 u1 e0 e1 : number) :
  let total_generation :=
    (ToNumber (field props "non_renewables")
     + ToNumber (field props "renewables"))%num in
  truthy (field props "percent_of_renewables") = false ->
  get_uom_factor usage_uom = Normal u0 ->
  get_uom_factor (field props "net_generation_uom") = Normal u1 ->
  get_uom_factor (field props "co2_equivalent_emissions_uom") = Normal e0 ->
  get_uom_factor (VStr "tons") = Normal e1 ->
  calculate (VObj props) usage usage_uom =
  Normal {| emissions_value :=
              (ToNumber (field props "co2_equivalent_emissions")
               / ToNumber (field props "net_generation")
               * ToNumber usage * (u0 / u1) * (e0 / e1))%num;
            emissions_uom := "tons";
            division_type := field props "division_type";
            division_id := field props "division_id";
            renewable_energy_use_amount :=
              (ToNumber usage
               * (ToNumber (field props "renewables") / total_generation))%num;
            nonrenewable_energy_use_amount :=
              (ToNumber usage
               * (ToNumber (field props "non_renewables") / total_generation))%num;
            year := field props "year" |}.
Proof.
  intros total Ht Hu0 Hu1 He0 He1. unfold calculate.
  rewrite !get_prop_object. cbn [bind]. rewrite Ht.
  rewrite Hu0. cbn [bind]. rewrite Hu1. cbn [bind].
  rewrite He0. cbn [bind]. rewrite He1. reflexivity.
Qed.

(** What a result of the calculation is made of. *)
Lemma calculate_inv (props : list (string * JsVal)) (usage usage_uom : JsVal)
    (res : Co2Emissions) :
  calculate (VObj props) usage usage_uom = Normal res ->
  let percent := (ToNumber (field props "percent_of_renewables") / Finite 100)%num in
  let total_generation :=
    (ToNumber (field props "non_renewables")
     + ToNumber (field props "renewables"))%num in
  if truthy (field props "percent_of_renewables") then
    emissions_uom res = "g" /\
    renewable_energy_use_amount res = (ToNumber usage * percent)%num /\
    nonrenewable_energy_use_amount res
    = (ToNumber usage * (Finite 1 - percent))%num
  else
    emissions_uom res = "tons" /\
    renewable_energy_use_amount res
    = (ToNumber usage
       * (ToNumber (field props "renewables") / total_generation))%num /\
    nonrenewable_energy_use_amount res
    = (ToNumber usage
       * (ToNumber (field props "non_renewables") / total_generation))%num.
Proof.
  unfold calculate. rewrite !get_prop_object. cbn [bind].
  destruct (truthy (field props "percent_of_renewables")).
  - destruct (get_uom_factor _); [| discriminate].
    destruct (get_uom_factor _); [| discriminate].
    cbn. intros [= <-]. auto.
  - destruct (get_uom_factor usage_uom); [| discriminate]. cbn [bind].
    destruct (get_uom_factor _); [| discriminate]. cbn [bind].
    destruct (get_uom_factor _); [| discriminate]. cbn [bind].
    destruct (get_uom_factor _); [| discriminate].
    cbn. intros [= <-]. auto.
Qed.

(** [getCo2Emissions] runs the calculation on the record of the first row
    that the query returns. *)
Lemma getCo2Emissions_first_row
    (uuid thruDate usage usage_uom : JsVal) (utilityFactors : string)
    (row : list (string * JsVal)) (rows : list JsVal) :
  getEmissionsFactor uuid thruDate = Normal utilityFactors ->
  JSON_parse utilityFactors = Normal (VArr (VObj row :: rows)) ->
  getCo2Emissions uuid thruDate usage usage_uom
  = calculate (field row "Record") usage usage_uom.
Proof.
  intros Hfactor Hparse. unfold getCo2Emissions.
  rewrite Hfactor. cbn [bind]. rewrite Hparse. reflexivity.
Qed.

End Calculation.

(** ** Claims on the calculation *)



(** C10. The branch is chosen by the truthiness of [percent_of_renewables],
    not by its presence. Zero and the empty string are falsy. On a factor
    whose [percent_of_renewables] is present and falsy, the calculation is
    that on net generation, with the unit "tons", as soon as the four
    units have a conversion factor, and [getCo2Emissions] returns that
    result when such a factor is the record of the first row of the query.
    Whenever the calculation returns, the unit of its result is "g"
    exactly when [percent_of_renewables] is truthy, "tons" exactly when it
    is falsy. *)
Theorem C10_branch_by_truthiness (L : Language) (M : Modules) :
  truthy (VNum (Finite 0)) = false /\
  truthy (VStr "") = false /\
  (forall (props : list (string * JsVal)) (usage usage_uom percent : JsVal)
          (u0 u1 e0 e1 : number),
      assoc "percent_of_renewables" props = Some percent ->
      truthy percent = false ->
      get_uom_factor usage_uom = Normal u0 ->
      get_uom_factor (field props "net_generation_uom") = Normal u1 ->
      get_uom_factor (field props "co2_equivalent_emissions_uom") = Normal e0 ->
      get_uom_factor (VStr "tons") = Normal e1 ->
      exists res : Co2Emissions,
        calculate (VObj props) usage usage_uom = Normal res /\
        emissions_uom res = "tons" /\
        emissions_value res
        = (ToNumber (field props "co2_equivalent_emissions")
           / ToNumber (field props "net_generation")
           * ToNumber usage * (u0 / u1) * (e0 / e1))%num)
  /\
  (forall (uuid thruDate usage usage_uom percent : JsVal)
          (utilityFactors : string) (row props : list (string * JsVal))
          (rows : list JsVal) (u0 u1 e0 e1 : number),
      getEmissionsFactor uuid thruDate = Normal utilityFactors ->
      JSON_parse utilityFactors = Normal (VArr (VObj row :: rows)) ->
      field row "Record" = VObj props ->
      assoc "percent_of_renewables" props = Some percent ->
      truthy percent = false ->
      get_uom_factor usage_uom = Normal u0 ->
      get_uom_factor (field props "net_generation_uom") = Normal u1 ->
      get_uom_factor (field props "co2_equivalent_emissions_uom") = Normal e0 ->
      get_uom_factor (VStr "tons") = Normal e1 ->
      exists res : Co2Emissions,
        getCo2Emissions uuid thruDate usage usage_uom = Normal res /\
        emissions_uom res = "tons" /\
        emissions_value res
        = (ToNumber (field props "co2_equivalent_emissions")
           / ToNumber (field props "net_generation")
           * ToNumber usage * (u0 / u1) * (e0 / e1))%num)
  /\
  (forall (props : list (string * JsVal)) (usage usage_uom : JsVal)
          (res : Co2Emissions),
      calculate (VObj props) usage usage_uom = Normal res ->
      (emissions_uom res = "g"
       <-> truthy (field props "percent_of_renewables") = true) /\
      (emissions_uom res = "tons"
       <-> truthy (field props "percent_of_renewables") = false)).
Proof.
  split; [reflexivity |]. split; [reflexivity |]. split; [| split].
  - intros props usage usage_uom percent u0 u1 e0 e1 Hp Ht Hu0 Hu1 He0 He1.
    assert (Hf : truthy (field props "percent_of_renewables") = false)
      by (unfold field; rewrite Hp; exact Ht).
    eexists. split.
    + apply calculate_net_generation; eassumption.
    + cbn. auto.
  - intros uuid thruDate usage usage_uom percent utilityFactors row props rows
      u0 u1 e0 e1 Hfactor Hparse Hrecord Hp Ht Hu0 Hu1 He0 He1.
    assert (Hf : truthy (field props "percent_of_renewables") = false)
      by (unfold field; rewrite Hp; exact Ht).
    eexists. split.
    + rewrite (getCo2Emissions_first_row _ _ _ _ _ _ _ Hfactor Hparse), Hrecord.
      apply calculate_net_generation; eassumption.
    + cbn. auto.
  - intros props usage usage_uom res Hres.
    apply calculate_inv in Hres. cbv zeta in Hres.
    destruct (truthy (field props "percent_of_renewables"));
      destruct Hres as (Hu & _); rewrite Hu; repeat split;
      intros; try reflexivity; try discriminate.
Qed.

(** C10 on the factor of the region WECC, whose [percent_of_renewables] is
    zero. *)
Lemma C10_branch_by_truthiness_witness :
  (exists res : Co2Emissions,
      @calculate Scenario.language Scenario.modules
        (VObj Scenario.factor_WECC_props) (VStr "100") (VStr "kWh") = Normal res /\
      emissions_uom res = "tons" /\
      emissions_value res
      = (Finite 1000 / Finite 2000 * Finite 100
         * (Finite 1000 / Finite 1000000) * (Finite 1000 / Finite 1000))%num)
  /\
  (exists res : Co2Emissions,
      @getCo2Emissions Scenario.language Scenario.modules
        (VStr "U4") (VStr "2019-12-31") (VStr "100") (VStr "kWh") = Normal res /\
      emissions_uom res = "tons" /\
      emissions_value res
      = (Finite 1000 / Finite 2000 * Finite 100
         * (Finite 1000 / Finite 1000000) * (Finite 1000 / Finite 1000))%num)
  /\
  (exists res : Co2Emissions,
      @calculate Scenario.language Scenario.modules
        (VObj Scenario.factor_WECC_props) (VStr "100") (VStr "kWh") = Normal res /\
      (emissions_uom res = "g"
       <-> truthy (field Scenario.factor_WECC_props "percent_of_renewables") = true) /\
      (emissions_uom res = "tons"
       <-> truthy (field Scenario.factor_WECC_props "percent_of_renewables") = false)).
Proof.
  pose (claim := proj2 (proj2 (C10_branch_by_truthiness
                                 Scenario.language Scenario.modules))).
  split; [| split].
  - exact (proj1 claim
             Scenario.factor_WECC_props (VStr "100") (VStr "kWh")
             (VNum (Finite 0)) (Finite 1000) (Finite 1000000)
             (Finite 1000) (Finite 1000)
             eq_refl eq_refl eq_refl eq_refl eq_refl eq_refl).
  - refine (proj1 (proj2 claim) (VStr "U4") (VStr "2019-12-31")
              (VStr "100") (VStr "kWh") (VNum (Finite 0))
              Scenario.rows_WECC_text
              [("Key", VStr "NERC_REGION/WECC");
               ("Record", VObj Scenario.factor_WECC_props)]
              Scenario.factor_WECC_props []
              (Finite 1000) (Finite 1000000) (Finite 1000) (Finite 1000)
              _ _ _ _ _ _ _ _ _);
      vm_compute; reflexivity.
  - clear claim. eexists. split; [vm_compute; reflexivity |].
    apply (proj2 (proj2 (proj2 (proj2 (C10_branch_by_truthiness
                                         Scenario.language Scenario.modules))))
             Scenario.factor_WECC_props (VStr "100") (VStr "kWh")).
    vm_compute. reflexivity.
Defined.

(** C3, as the specification states it, fails: on the idle factor, whose
    net generation and total generation are zero, the calculation returns;
    the value of the emissions is Infinity, the two amounts are NaN. *)
Lemma C3_zero_generation_counterexample :
  @calculate Scenario.language Scenario.modules
    (VObj Scenario.factor_idle_props) (VNum (Finite 1000)) (VStr "MWh")
  = Normal {| emissions_value := Infinity false;
              emissions_uom := "tons";
              division_type := VStr "STATE";
              division_id := VStr "ZZ";
              renewable_energy_use_amount := NaN;
              nonrenewable_energy_use_amount := NaN;
              year := VNum (Finite 2020) |}.
Proof. vm_compute. reflexivity. Qed.

(** C3, amended. The branch on net generation has no test for zero and no
    error of calculation: when the four units have a conversion factor,
    the calculation returns. With a net generation of zero the value of the
    emissions is not a finite number (it is an infinity or NaN); with a
    total generation of zero neither the renewable nor the nonrenewable
    amount is a finite number. *)
Theorem C3_zero_generation_not_rejected (L : Language) (M : Modules)
    (props : list (string * JsVal)) (usage usage_uom : JsVal)
    (u0 u1 e0 e1 : number) :
  truthy (field props "percent_of_renewables") = false ->
  get_uom_factor usage_uom = Normal u0 ->
  get_uom_factor (field props "net_generation_uom") = Normal u1 ->
  get_uom_factor (field props "co2_equivalent_emissions_uom") = Normal e0 ->
  get_uom_factor (VStr "tons") = Normal e1 ->
  exists res : Co2Emissions,
    calculate (VObj props) usage usage_uom = Normal res /\
    (forall q : Q,
        ToNumber (field props "net_generation") = Finite q -> (q == 0)%Q ->
        is_finite (emissions_value res) = false) /\
    (forall t : Q,
        (ToNumber (field props "non_renewables")
         + ToNumber (field props "renewables"))%num = Finite t ->
        (t == 0)%Q ->
        is_finite (renewable_energy_use_amount res) = false /\
        is_finite (nonrenewable_energy_use_amount res) = false).
Proof.
  intros Ht Hu0 Hu1 He0 He1.
  eexists. split; [apply calculate_net_generation; eassumption |].
  cbn [emissions_value renewable_energy_use_amount
       nonrenewable_energy_use_amount].
  split.
  - intros q Hq Hz. rewrite Hq.
    do 3 apply num_mul_not_finite_l.
    apply num_div_zero, Qzero_b_iff, Hz.
  - intros t Htot Hz. rewrite Htot.
    split; apply num_mul_not_finite_r, num_div_zero, Qzero_b_iff, Hz.
Qed.

(** C3, amended, on the idle factor. *)
Lemma C3_zero_generation_not_rejected_witness :
  exists res : Co2Emissions,
    @calculate Scenario.language Scenario.modules
      (VObj Scenario.factor_idle_props) (VNum (Finite 1000)) (VStr "MWh")
    = Normal res /\
    is_finite (emissions_value res) = false /\
    is_finite (renewable_energy_use_amount res) = false /\
    is_finite (nonrenewable_energy_use_amount res) = false.
Proof.
  destruct (C3_zero_generation_not_rejected Scenario.language Scenario.modules
              Scenario.factor_idle_props (VNum (Finite 1000)) (VStr "MWh")
              (Finite 1000000) (Finite 1000000) (Finite 1000) (Finite 1000)
              eq_refl eq_refl eq_refl eq_refl eq_refl)
    as (res & Hcalc & Hvalue & Hsplit).
  exists res. split; [exact Hcalc |]. split.
  - apply (Hvalue 0%Q); reflexivity.
  - apply (Hsplit (0 + 0)%Q); reflexivity.
Defined.

(** ** The rounding to binary64 *)

Section Rounding.
Local Open Scope Q_scope.

(** Powers of two. *)
Lemma pow2_pos k : 0 < pow2 k.
Proof. apply Qpower_0_lt. reflexivity. Qed.

Lemma pow2_plus a b : pow2 (a + b) == pow2 a * pow2 b.
Proof. apply Qpower_plus. discriminate. Qed.

Lemma pow2_inject k : (0 <= k)%Z -> inject_Z (2 ^ k) == pow2 k.
Proof. intros H. unfold pow2. rewrite Zpower_Qpower by exact H. reflexivity. Qed.

Lemma pow2_le a b : (a <= b)%Z -> pow2 a <= pow2 b.
Proof. intros H. apply Qpower_le_compat_l; [exact H | discriminate]. Qed.

Lemma pow2_lt a b : (a < b)%Z -> pow2 a < pow2 b.
Proof. intros H. apply Qpower_lt_compat_l; [exact H | reflexivity]. Qed.

Lemma pow2_succ k : pow2 (k + 1) == 2 * pow2 k.
Proof. rewrite pow2_plus. change (pow2 1) with 2. ring. Qed.

Lemma log2_bounds (n : Z) :
  (0 < n)%Z -> pow2 (Z.log2 n) <= inject_Z n /\ inject_Z n < pow2 (Z.log2 n + 1).
Proof.
  intros Hn. destruct (Z.log2_spec n Hn) as [Hlo Hhi].
  pose proof (Z.log2_nonneg n) as H0.
  rewrite <- !pow2_inject by lia. split.
  - rewrite <- Zle_Qle. exact Hlo.
  - rewrite <- Zlt_Qlt. replace (Z.log2 n + 1)%Z with (Z.succ (Z.log2 n)) by lia.
    exact Hhi.
Qed.

(** [floor_log2] is the exponent of a positive rational. *)
Lemma floor_log2_spec (x : Q) :
  0 < x -> pow2 (floor_log2 x) <= x /\ x < pow2 (floor_log2 x + 1).
Proof.
  intros Hx. unfold floor_log2.
  set (ln := Z.log2 (Qnum x)). set (ld := Z.log2 (Zpos (Qden x))).
  assert (Hn : (0 < Qnum x)%Z).
  { destruct x as [n d]. unfold Qlt in Hx. cbn in *. lia. }
  destruct (log2_bounds (Qnum x) Hn) as [Hn1 Hn2].
  destruct (log2_bounds (Zpos (Qden x)) eq_refl) as [Hd1 Hd2].
  fold ln in Hn1, Hn2. fold ld in Hd1, Hd2.
  assert (Hxd : x * inject_Z (Zpos (Qden x)) == inject_Z (Qnum x)).
  { destruct x as [n d]. cbn. unfold Qeq, Qmult, inject_Z. cbn. lia. }
  set (D := inject_Z (Zpos (Qden x))) in *.
  set (N := inject_Z (Qnum x)) in *.
  assert (HD : 0 < D) by (unfold D; rewrite <- (Zlt_Qlt 0); reflexivity).
  pose proof (pow2_pos (ln - ld)) as Hk.
  pose proof (pow2_pos ld) as Hld.
  assert (E1 : pow2 (ln + 1) == 2 * pow2 (ln - ld) * pow2 ld).
  { rewrite pow2_succ. replace ln with ((ln - ld) + ld)%Z at 1 by lia.
    rewrite pow2_plus. ring. }
  assert (E2 : pow2 (ld + 1) == 2 * pow2 ld) by apply pow2_succ.
  assert (E3 : pow2 ln == pow2 (ln - ld) * pow2 ld).
  { replace ln with ((ln - ld) + ld)%Z at 1 by lia. apply pow2_plus. }
  assert (Hup : x < 2 * pow2 (ln - ld)).
  { apply Qnot_le_lt. intros Hle.
    assert (2 * pow2 (ln - ld) * pow2 ld <= x * D).
    { apply Qle_trans with (x * pow2 ld).
      - apply Qmult_le_compat_r; [exact Hle | apply Qlt_le_weak, Hld].
      - rewrite !(Qmult_comm x). apply Qmult_le_compat_r; [exact Hd1 | lra]. }
    lra. }
  assert (Hlow : pow2 (ln - ld) < 2 * x).
  { apply Qnot_le_lt. intros Hle.
    assert (x * D < pow2 (ln - ld) * pow2 ld).
    { apply Qlt_le_trans with (x * (2 * pow2 ld)).
      - rewrite !(Qmult_comm x). apply Qmult_lt_compat_r; [exact Hx | lra].
      - setoid_replace (x * (2 * pow2 ld)) with ((2 * x) * pow2 ld) using relation Qeq by ring.
        apply Qmult_le_compat_r; [exact Hle | apply Qlt_le_weak, Hld]. }
    lra. }
  destruct (Qle_bool (pow2 (ln - ld)) x) eqn:Htest.
  - apply Qle_bool_iff in Htest. split; [exact Htest |].
    rewrite pow2_succ. exact Hup.
  - assert (Hlt : x < pow2 (ln - ld)).
    { apply Qnot_le_lt. intros Hle. apply Qle_bool_iff in Hle. congruence. }
    replace (ln - ld - 1 + 1)%Z with (ln - ld)%Z by lia.
    split; [| exact Hlt].
    assert (E4 : pow2 (ln - ld) == 2 * pow2 (ln - ld - 1)).
    { rewrite <- pow2_succ. replace (ln - ld - 1 + 1)%Z with (ln - ld)%Z by lia.
      reflexivity. }
    lra.
Qed.

Lemma floor_log2_unique (x : Q) (k : Z) :
  pow2 k <= x -> x < pow2 (k + 1) -> floor_log2 x = k.
Proof.
  intros Hlo Hhi.
  assert (Hx : 0 < x) by (pose proof (pow2_pos k); lra).
  destruct (floor_log2_spec x Hx) as [Hlo' Hhi'].
  set (j := floor_log2 x) in *.
  destruct (Z.lt_trichotomy j k) as [Hlt | [Heq | Hgt]]; [| exact Heq |].
  - assert (pow2 (j + 1) <= pow2 k) by (apply pow2_le; lia). lra.
  - assert (pow2 (k + 1) <= pow2 j) by (apply pow2_le; lia). lra.
Qed.

(** The nearest integer is within one half, leaves the integers in place
    and does not cross them. *)
Lemma rne_error (y : Q) : Qabs (inject_Z (rne y) - y) <= 1 # 2.
Proof.
  unfold rne. pose proof (Qfloor_le y) as Hlo. pose proof (Qlt_floor y) as Hhi.
  set (f := Qfloor y) in *.
  assert (Hf1 : inject_Z (f + 1) == inject_Z f + 1).
  { rewrite inject_Z_plus. reflexivity. }
  apply Qabs_Qle_condition.
  destruct (Qcompare (y - inject_Z f) (1 # 2)) eqn:Hc.
  - apply Qeq_alt in Hc. destruct (Z.even f); split; lra.
  - apply Qlt_alt in Hc. split; lra.
  - apply Qgt_alt in Hc. split; lra.
Qed.

Lemma rne_integer (z : Z) : rne (inject_Z z) = z.
Proof.
  unfold rne. rewrite Qfloor_Z.
  destruct (Qcompare (inject_Z z - inject_Z z) (1 # 2)) eqn:Hc.
  - apply Qeq_alt in Hc. lra.
  - reflexivity.
  - apply Qgt_alt in Hc. lra.
Qed.

Lemma rne_le (y : Q) (N : Z) : y <= inject_Z N -> (rne y <= N)%Z.
Proof.
  intros Hy. unfold rne.
  pose proof (Qfloor_le y) as Hlo.
  assert (Hf : (Qfloor y <= N)%Z).
  { rewrite Zle_Qle. lra. }
  destruct (Z.eq_dec (Qfloor y) N) as [Heq | Hne].
  - destruct (Qcompare (y - inject_Z (Qfloor y)) (1 # 2)) eqn:Hc.
    + apply Qeq_alt in Hc. rewrite Heq in Hc. lra.
    + lia.
    + apply Qgt_alt in Hc. rewrite Heq in Hc. lra.
  - destruct (Qcompare _ _); [destruct (Z.even _) | |]; lia.
Qed.

Lemma rne_ge (y : Q) (N : Z) : inject_Z N <= y -> (N <= rne y)%Z.
Proof.
  intros Hy. unfold rne.
  assert (Hf : (N <= Qfloor y)%Z).
  { rewrite <- (Qfloor_Z N). apply Qfloor_resp_le. exact Hy. }
  destruct (Qcompare _ _); [destruct (Z.even _) | |]; lia.
Qed.

Lemma rne_comp (y y' : Q) : y == y' -> rne y = rne y'.
Proof.
  intros H. unfold rne. rewrite (Qfloor_comp _ _ H).
  assert (Hc : Qcompare (y - inject_Z (Qfloor y')) (1 # 2)
               = Qcompare (y' - inject_Z (Qfloor y')) (1 # 2)).
  { apply Qcompare_comp; [rewrite H; reflexivity | reflexivity]. }
  rewrite Hc. reflexivity.
Qed.

Lemma ulp_exponent_ge (a : Q) : (-1074 <= ulp_exponent a)%Z.
Proof. unfold ulp_exponent. lia. Qed.

(** The error of the rounding of a positive rational: at most half a
    unit of the last place; at most [2 ^ -53] of it from the least normal
    number on; none on a subnormal multiple of [2 ^ -1074]. *)
Lemma round_pos_error (a : Q) :
  0 < a -> Qabs (round_pos a - a) <= pow2 (ulp_exponent a - 1).
Proof.
  intros Ha. unfold round_pos. set (e := ulp_exponent a).
  pose proof (rne_error (a / pow2 e)) as Hm.
  pose proof (pow2_pos e) as He.
  assert (E : pow2 e == 2 * pow2 (e - 1)).
  { rewrite <- pow2_succ. replace (e - 1 + 1)%Z with e by lia. reflexivity. }
  set (m := inject_Z (rne (a / pow2 e))) in *.
  assert (Ea : a == (a / pow2 e) * pow2 e) by (field; lra).
  set (y := a / pow2 e) in *.
  apply Qabs_Qle_condition in Hm. destruct Hm as [Hm1 Hm2].
  apply Qabs_Qle_condition.
  assert (H1 : (m - y) * pow2 e <= (1 # 2) * pow2 e).
  { apply Qmult_le_compat_r; lra. }
  assert (H2 : - (1 # 2) * pow2 e <= (m - y) * pow2 e).
  { apply Qmult_le_compat_r; lra. }
  assert (E' : m * pow2 e - a == (m - y) * pow2 e) by (rewrite Ea at 1; ring).
  split; lra.
Qed.

Lemma round_pos_error_general (a : Q) :
  0 < a -> Qabs (round_pos a - a) <= pow2 (-53) * a + pow2 (-1075).
Proof.
  intros Ha. eapply Qle_trans; [apply round_pos_error, Ha |].
  destruct (floor_log2_spec a Ha) as [Hlo _].
  pose proof (pow2_pos (-53)). pose proof (pow2_pos (-1075)).
  unfold ulp_exponent.
  destruct (Z.max_spec (floor_log2 a - 52) (-1074)) as [[_ ->] | [_ ->]].
  - change (-1074 - 1)%Z with (-1075)%Z.
    assert (0 <= pow2 (-53) * a) by (apply Qmult_le_0_compat; lra). lra.
  - replace (floor_log2 a - 52 - 1)%Z with (-53 + floor_log2 a)%Z by lia.
    rewrite pow2_plus.
    assert (pow2 (-53) * pow2 (floor_log2 a) <= pow2 (-53) * a).
    { rewrite !(Qmult_comm (pow2 (-53))). apply Qmult_le_compat_r; lra. }
    lra.
Qed.

Lemma floor_log2_normal (a : Q) :
  pow2 (-1022) <= a -> (-1022 <= floor_log2 a)%Z.
Proof.
  intros Ha. pose proof (pow2_pos (-1022)).
  destruct (floor_log2_spec a) as [_ Hhi]; [lra |].
  destruct (Z_le_gt_dec (-1022) (floor_log2 a)) as [Hle | Hgt]; [exact Hle |].
  assert (pow2 (floor_log2 a + 1) <= pow2 (-1022)) by (apply pow2_le; lia).
  lra.
Qed.

Lemma round_pos_error_normal (a : Q) :
  pow2 (-1022) <= a -> Qabs (round_pos a - a) <= pow2 (-53) * a.
Proof.
  intros Ha. pose proof (pow2_pos (-1022)).
  assert (Hpos : 0 < a) by lra.
  eapply Qle_trans; [apply round_pos_error, Hpos |].
  destruct (floor_log2_spec a Hpos) as [Hlo _].
  pose proof (floor_log2_normal a Ha) as Hk.
  unfold ulp_exponent. rewrite Z.max_l by lia.
  replace (floor_log2 a - 52 - 1)%Z with (-53 + floor_log2 a)%Z by lia.
  rewrite pow2_plus. pose proof (pow2_pos (-53)).
  rewrite !(Qmult_comm (pow2 (-53))). apply Qmult_le_compat_r; lra.
Qed.

Lemma round_pos_exact_subnormal (a : Q) :
  0 < a -> a < pow2 (-1022) -> on_grid a -> round_pos a == a.
Proof.
  intros Hpos Ha [m Hm]. unfold round_pos.
  destruct (floor_log2_spec a Hpos) as [Hlo _].
  assert (Hk : (floor_log2 a < -1022)%Z).
  { destruct (Z_lt_ge_dec (floor_log2 a) (-1022)) as [Hlt | Hge]; [exact Hlt |].
    assert (pow2 (-1022) <= pow2 (floor_log2 a)) by (apply pow2_le; lia). lra. }
  unfold ulp_exponent. rewrite Z.max_r by lia.
  pose proof (pow2_pos (-1074)) as He.
  assert (Ey : a / pow2 (-1074) == inject_Z m) by (rewrite Hm; field; lra).
  rewrite (rne_comp _ _ Ey), rne_integer, Hm. reflexivity.
Qed.

(** The rounding keeps 0 and 1 as bounds. *)
Lemma round_pos_nonneg (a : Q) : 0 < a -> 0 <= round_pos a.
Proof.
  intros Ha. unfold round_pos. set (e := ulp_exponent a).
  pose proof (pow2_pos e) as He.
  apply Qmult_le_0_compat; [| lra].
  rewrite <- (Zle_Qle 0). apply rne_ge. change (inject_Z 0) with 0.
  apply Qle_shift_div_l; [exact He | lra].
Qed.

Lemma round_pos_le_one (a : Q) : 0 < a -> a <= 1 -> round_pos a <= 1.
Proof.
  intros Hpos Ha. unfold round_pos.
  destruct (floor_log2_spec a Hpos) as [Hlo _].
  assert (Hk : (floor_log2 a <= 0)%Z).
  { destruct (Z_le_gt_dec (floor_log2 a) 0) as [Hle | Hgt]; [exact Hle |].
    assert (pow2 1 <= pow2 (floor_log2 a)) by (apply pow2_le; lia).
    change (pow2 1) with 2 in *. lra. }
  set (e := ulp_exponent a).
  assert (He : (e <= 0)%Z) by (unfold e, ulp_exponent; lia).
  pose proof (pow2_pos e) as Hpe.
  assert (Einv : pow2 (- e) * pow2 e == 1).
  { rewrite <- pow2_plus. replace (- e + e)%Z with 0%Z by lia. reflexivity. }
  assert (Hm : (rne (a / pow2 e) <= 2 ^ (- e))%Z).
  { apply rne_le. rewrite pow2_inject by lia.
    apply Qle_shift_div_r; [exact Hpe |]. lra. }
  rewrite Zle_Qle in Hm. rewrite pow2_inject in Hm by lia.
  apply Qle_trans with (pow2 (- e) * pow2 e); [| lra].
  apply Qmult_le_compat_r; lra.
Qed.

(** The rounded numbers are on the grid. *)
Lemma round_pos_grid (a : Q) : on_grid (round_pos a).
Proof.
  unfold round_pos. set (e := ulp_exponent a).
  pose proof (ulp_exponent_ge a) as He. fold e in He.
  exists (rne (a / pow2 e) * 2 ^ (e + 1074))%Z.
  rewrite inject_Z_mult, pow2_inject by lia.
  replace e with ((e + 1074) + -1074)%Z at 2 by lia.
  rewrite pow2_plus. ring.
Qed.

Lemma on_grid_comp (x y : Q) : x == y -> on_grid x -> on_grid y.
Proof. intros H [m Hm]. exists m. rewrite <- H. exact Hm. Qed.

Lemma on_grid_opp (x : Q) : on_grid x -> on_grid (- x).
Proof.
  intros [m Hm]. exists (- m)%Z. rewrite inject_Z_opp, Hm. ring.
Qed.

Lemma on_grid_plus (x y : Q) : on_grid x -> on_grid y -> on_grid (x + y).
Proof.
  intros [m Hm] [n Hn]. exists (m + n)%Z. rewrite inject_Z_plus, Hm, Hn. ring.
Qed.

Lemma on_grid_0 : on_grid 0.
Proof. exists 0%Z. ring. Qed.

(** The finite results of [round64]. *)
Lemma round64_cases (x r : Q) :
  round64 x = Finite r ->
  (x == 0 /\ r == 0) \/
  (0 < x /\ r == round_pos x) \/
  (x < 0 /\ r == - round_pos (- x)).
Proof.
  unfold round64. destruct (Qcompare x 0) eqn:Hc.
  - apply Qeq_alt in Hc. intros [= <-]. left. split; [exact Hc | reflexivity].
  - apply Qlt_alt in Hc. destruct (Qle_bool _ _); [discriminate |].
    intros Heq. right. right. split; [exact Hc |].
    assert (Hr : Qred (- round_pos (- x)) = r) by congruence.
    rewrite <- Hr. apply Qred_correct.
  - apply Qgt_alt in Hc. destruct (Qle_bool _ _); [discriminate |].
    intros Heq. right. left. split; [exact Hc |].
    assert (Hr : Qred (round_pos x) = r) by congruence.
    rewrite <- Hr. apply Qred_correct.
Qed.

(** The error of [round64], relative and absolute; and relative alone
    for a number of the grid, as the sum of two binary64 numbers is. *)
Lemma round64_error (x r : Q) :
  round64 x = Finite r ->
  Qabs (r - x) <= pow2 (-53) * Qabs x + pow2 (-1075).
Proof.
  intros H. pose proof (pow2_pos (-53)). pose proof (pow2_pos (-1075)).
  destruct (round64_cases x r H) as [[Hx Hr] | [[Hx Hr] | [Hx Hr]]].
  - rewrite Hx, Hr.
    assert (E0 : Qabs (0 - 0) == 0) by reflexivity.
    assert (E1 : Qabs 0 == 0) by reflexivity.
    rewrite E0, E1. lra.
  - rewrite Hr, (Qabs_pos x) by lra. apply round_pos_error_general, Hx.
  - rewrite Hr, (Qabs_neg x) by lra.
    assert (Hp : 0 < - x) by lra.
    pose proof (round_pos_error_general (- x) Hp) as He.
    setoid_replace (- round_pos (- x) - x) with (- (round_pos (- x) - - x)) using relation Qeq by ring.
    rewrite Qabs_opp. exact He.
Qed.

Lemma round64_grid (x r : Q) : round64 x = Finite r -> on_grid r.
Proof.
  intros H.
  destruct (round64_cases x r H) as [[Hx Hr] | [[Hx Hr] | [Hx Hr]]].
  - apply (on_grid_comp 0); [symmetry; exact Hr | apply on_grid_0].
  - apply (on_grid_comp (round_pos x)); [symmetry; exact Hr | apply round_pos_grid].
  - apply (on_grid_comp (- round_pos (- x))); [symmetry; exact Hr |].
    apply on_grid_opp, round_pos_grid.
Qed.

Lemma round64_error_grid (x r : Q) :
  on_grid x -> round64 x = Finite r -> Qabs (r - x) <= pow2 (-53) * Qabs x.
Proof.
  intros Hg H. pose proof (pow2_pos (-53)).
  assert (Hpos : forall a, 0 < a -> on_grid a ->
                           Qabs (round_pos a - a) <= pow2 (-53) * a).
  { intros a Ha Hga. destruct (Qlt_le_dec a (pow2 (-1022))) as [Hlt | Hge].
    - rewrite (round_pos_exact_subnormal a Ha Hlt Hga).
      setoid_replace (a - a) with 0 using relation Qeq by ring.
      assert (E1 : Qabs 0 == 0) by reflexivity. rewrite E1.
      apply Qmult_le_0_compat; lra.
    - apply round_pos_error_normal, Hge. }
  destruct (round64_cases x r H) as [[Hx Hr] | [[Hx Hr] | [Hx Hr]]].
  - rewrite Hx, Hr.
    assert (E0 : Qabs (0 - 0) == 0) by reflexivity.
    assert (E1 : Qabs 0 == 0) by reflexivity.
    rewrite E0, E1. lra.
  - rewrite Hr, (Qabs_pos x) by lra. apply Hpos; assumption.
  - rewrite Hr, (Qabs_neg x) by lra.
    assert (Hp : 0 < - x) by lra.
    pose proof (Hpos (- x) Hp (on_grid_opp x Hg)) as He.
    setoid_replace (- round_pos (- x) - x) with (- (round_pos (- x) - - x)) using relation Qeq by ring.
    rewrite Qabs_opp. exact He.
Qed.

Lemma round64_nonneg (x r : Q) : 0 <= x -> round64 x = Finite r -> 0 <= r.
Proof.
  intros Hx H.
  destruct (round64_cases x r H) as [[_ Hr] | [[Hp Hr] | [Hn _]]].
  - rewrite Hr. apply Qle_refl.
  - rewrite Hr. apply round_pos_nonneg, Hp.
  - lra.
Qed.

Lemma round64_unit (x : Q) :
  0 <= x -> x <= 1 -> exists r : Q, round64 x = Finite r /\ 0 <= r /\ r <= 1.
Proof.
  intros H0 H1. unfold round64. destruct (Qcompare x 0) eqn:Hc.
  - exists 0. repeat split; lra.
  - apply Qlt_alt in Hc. lra.
  - apply Qgt_alt in Hc.
    pose proof (round_pos_le_one x Hc H1) as Hle.
    pose proof (round_pos_nonneg x Hc) as Hge.
    destruct (Qle_bool (pow2 1024) (round_pos x)) eqn:Ho.
    + apply Qle_bool_iff in Ho.
      assert (pow2 0 <= pow2 1024) by (apply pow2_le; lia).
      change (pow2 0) with 1 in *.
      assert (pow2 0 < pow2 1024) by (apply pow2_lt; lia).
      change (pow2 0) with 1 in *. lra.
    + eexists. split; [reflexivity |]. rewrite Qred_correct. split; assumption.
Qed.

(** The exponent and the unit of the last place grow with the number. *)
Lemma floor_log2_le (x y : Q) :
  0 < x -> x <= y -> (floor_log2 x <= floor_log2 y)%Z.
Proof.
  intros Hx Hxy.
  destruct (floor_log2_spec x Hx) as [Hlo _].
  destruct (floor_log2_spec y) as [_ Hhi]; [lra |].
  destruct (Z_le_gt_dec (floor_log2 x) (floor_log2 y)) as [Hle | Hgt];
    [exact Hle |].
  assert (pow2 (floor_log2 y + 1) <= pow2 (floor_log2 x))
    by (apply pow2_le; lia).
  lra.
Qed.

Lemma ulp_exponent_le (x y : Q) :
  0 < x -> x <= y -> (ulp_exponent x <= ulp_exponent y)%Z.
Proof.
  intros Hx Hxy. pose proof (floor_log2_le x y Hx Hxy). unfold ulp_exponent. lia.
Qed.

Lemma ulp_exponent_comp (x y : Q) :
  0 < x -> x == y -> ulp_exponent x = ulp_exponent y.
Proof.
  intros Hx Hxy.
  assert (H1 : (ulp_exponent x <= ulp_exponent y)%Z)
    by (apply ulp_exponent_le; lra).
  assert (H2 : (ulp_exponent y <= ulp_exponent x)%Z)
    by (apply ulp_exponent_le; lra).
  lia.
Qed.

(** A power of two as an integer multiple of a lower one. *)
Lemma pow2_multiple (e k : Z) :
  (e <= k)%Z -> pow2 k == inject_Z (2 ^ (k - e)) * pow2 e.
Proof.
  intros H. rewrite pow2_inject by lia. rewrite <- pow2_plus.
  replace (k - e + e)%Z with k by lia. reflexivity.
Qed.

(** The rounding of a positive rational does not go above a power of two
    that is above it and is a multiple of its unit. *)
Lemma round_pos_le_pow2 (x : Q) (k : Z) :
  0 < x -> x <= pow2 k -> (ulp_exponent x <= k)%Z -> round_pos x <= pow2 k.
Proof.
  intros Hx Hxk He. unfold round_pos. set (e := ulp_exponent x) in *.
  pose proof (pow2_pos e) as Hpe.
  rewrite (pow2_multiple e k He).
  apply Qmult_le_compat_r; [| lra].
  rewrite <- Zle_Qle. apply rne_le.
  apply Qle_shift_div_r; [exact Hpe |].
  rewrite <- (pow2_multiple e k He). exact Hxk.
Qed.

Lemma round_pos_ge_pow2 (x : Q) (k : Z) :
  0 < x -> pow2 k <= x -> (ulp_exponent x <= k)%Z -> pow2 k <= round_pos x.
Proof.
  intros Hx Hxk He. unfold round_pos. set (e := ulp_exponent x) in *.
  pose proof (pow2_pos e) as Hpe.
  rewrite (pow2_multiple e k He).
  apply Qmult_le_compat_r; [| lra].
  rewrite <- Zle_Qle. apply rne_ge.
  apply Qle_shift_div_l; [exact Hpe |].
  rewrite <- (pow2_multiple e k He). exact Hxk.
Qed.

(** The rounding does not cross a representable number. *)
Lemma round_pos_le (x y : Q) :
  representable y -> 0 < x -> x <= y -> round_pos x <= y.
Proof.
  intros [m Hm] Hx Hxy.
  assert (Hy : 0 < y) by lra.
  pose proof (ulp_exponent_le x y Hx Hxy) as He.
  destruct (floor_log2_spec x Hx) as [Hxlo Hxhi].
  destruct (floor_log2_spec y Hy) as [Hylo Hyhi].
  destruct (Z.eq_dec (ulp_exponent x) (ulp_exponent y)) as [Heq | Hne].
  - unfold round_pos. rewrite Heq. set (e := ulp_exponent y) in *.
    pose proof (pow2_pos e) as Hpe.
    rewrite Hm. apply Qmult_le_compat_r; [| lra].
    rewrite <- Zle_Qle. apply rne_le.
    apply Qle_shift_div_r; [exact Hpe |]. rewrite <- Hm. exact Hxy.
  - set (N := Z.max (floor_log2 x + 1) (ulp_exponent x)).
    assert (HN : (N <= floor_log2 y)%Z).
    { unfold N, ulp_exponent in *. lia. }
    apply Qle_trans with (pow2 N).
    + apply round_pos_le_pow2; [exact Hx | | unfold N; lia].
      assert (pow2 (floor_log2 x + 1) <= pow2 N)
        by (apply pow2_le; unfold N; lia).
      lra.
    + assert (pow2 N <= pow2 (floor_log2 y)) by (apply pow2_le; exact HN).
      lra.
Qed.

Lemma round_pos_ge (x y : Q) :
  representable y -> 0 < y -> y <= x -> y <= round_pos x.
Proof.
  intros [m Hm] Hy Hxy.
  assert (Hx : 0 < x) by lra.
  pose proof (ulp_exponent_le y x Hy Hxy) as He.
  destruct (floor_log2_spec x Hx) as [Hxlo Hxhi].
  destruct (floor_log2_spec y Hy) as [Hylo Hyhi].
  destruct (Z.eq_dec (ulp_exponent y) (ulp_exponent x)) as [Heq | Hne].
  - unfold round_pos. rewrite Heq in Hm. set (e := ulp_exponent x) in *.
    pose proof (pow2_pos e) as Hpe.
    rewrite Hm at 1. apply Qmult_le_compat_r; [| lra].
    rewrite <- Zle_Qle. apply rne_ge.
    apply Qle_shift_div_l; [exact Hpe |]. rewrite <- Hm. exact Hxy.
  - assert (Hk : (floor_log2 y + 1 <= floor_log2 x)%Z
                 /\ (ulp_exponent x <= floor_log2 x)%Z).
    { unfold ulp_exponent in *. lia. }
    destruct Hk as [Hk1 Hk2].
    apply Qle_trans with (pow2 (floor_log2 x)).
    + assert (pow2 (floor_log2 y + 1) <= pow2 (floor_log2 x))
        by (apply pow2_le; exact Hk1).
      lra.
    + apply round_pos_ge_pow2; assumption.
Qed.

(** The rounded numbers are representable. *)
Lemma round_pos_representable (x : Q) :
  0 < x -> representable (round_pos x).
Proof.
  intros Hx.
  destruct (floor_log2_spec x Hx) as [Hlo Hhi].
  set (k := floor_log2 x) in *.
  pose proof (round_pos_nonneg x Hx) as Hr0.
  destruct (Qeq_dec (round_pos x) 0) as [Hz | Hnz].
  { exists 0%Z. apply Qeq_trans with 0; [exact Hz | ring]. }
  assert (Hrpos : 0 < round_pos x) by lra.
  destruct (Z_le_gt_dec (ulp_exponent x) k) as [Hek | Hek].
  - (* the unit is at most the exponent *)
    pose proof (round_pos_ge_pow2 x k Hx Hlo Hek) as Hrlo.
    assert (Hrhi : round_pos x <= pow2 (k + 1)).
    { apply round_pos_le_pow2; [exact Hx | lra | lia]. }
    destruct (Qlt_le_dec (round_pos x) (pow2 (k + 1))) as [Hlt | Hge].
    + assert (Hkr : floor_log2 (round_pos x) = k)
        by (apply floor_log2_unique; assumption).
      assert (Her : ulp_exponent (round_pos x) = ulp_exponent x).
      { unfold ulp_exponent. rewrite Hkr. reflexivity. }
      unfold representable. rewrite Her.
      exists (rne (x / pow2 (ulp_exponent x))). reflexivity.
    + assert (Hreq : round_pos x == pow2 (k + 1)) by lra.
      assert (Hkr : floor_log2 (round_pos x) = (k + 1)%Z).
      { apply floor_log2_unique; [lra |].
        assert (pow2 (k + 1) < pow2 (k + 1 + 1)) by (apply pow2_lt; lia).
        lra. }
      assert (Her : (ulp_exponent (round_pos x) <= k + 1)%Z).
      { unfold ulp_exponent in *. rewrite Hkr. fold k in Hek. lia. }
      exists (2 ^ (k + 1 - ulp_exponent (round_pos x)))%Z.
      apply Qeq_trans with (pow2 (k + 1)); [exact Hreq |].
      apply pow2_multiple, Her.
  - (* below the least number *)
    assert (He : ulp_exponent x = (-1074)%Z).
    { unfold ulp_exponent in *. fold k in Hek |- *. lia. }
    assert (Hx1 : x <= pow2 (-1074)).
    { assert (pow2 (k + 1) <= pow2 (-1074)) by (apply pow2_le; lia). lra. }
    assert (Hrhi : round_pos x <= pow2 (-1074)).
    { apply round_pos_le_pow2; [exact Hx | exact Hx1 | lia]. }
    destruct (round_pos_grid x) as [m Hm].
    pose proof (pow2_pos (-1074)) as Hp.
    assert (Hm1 : m = 1%Z).
    { assert (H0 : (0 < m)%Z).
      { rewrite Zlt_Qlt. apply Qnot_le_lt. intros Hle.
        assert (inject_Z m * pow2 (-1074) <= 0 * pow2 (-1074))
          by (apply Qmult_le_compat_r; [exact Hle | lra]).
        lra. }
      assert (H1 : (m <= 1)%Z).
      { rewrite Zle_Qle. apply Qnot_lt_le. intros Hlt.
        assert (1 * pow2 (-1074) < inject_Z m * pow2 (-1074))
          by (apply Qmult_lt_compat_r; [exact Hp | exact Hlt]).
        lra. }
      lia. }
    subst m.
    assert (Hreq : round_pos x == pow2 (-1074)) by (rewrite Hm; ring).
    assert (Hkr : floor_log2 (round_pos x) = (-1074)%Z).
    { apply floor_log2_unique; [lra |].
      assert (pow2 (-1074) < pow2 (-1074 + 1)) by (apply pow2_lt; lia).
      lra. }
    exists 1%Z. unfold ulp_exponent. rewrite Hkr.
    change (Z.max (-1074 - 52) (-1074)) with (-1074)%Z.
    apply Qeq_trans with (pow2 (-1074)); [exact Hreq | ring].
Qed.

Lemma representable_comp (x y : Q) :
  0 <= x -> x == y -> representable x -> representable y.
Proof.
  intros Hx Hxy [m Hm].
  destruct (Qeq_dec x 0) as [Hz | Hnz].
  - exists 0%Z. apply Qeq_trans with 0; [lra | ring].
  - exists m. rewrite <- (ulp_exponent_comp x y) by lra.
    rewrite <- Hxy. exact Hm.
Qed.

Lemma representable_0 : representable 0.
Proof. exists 0%Z. ring. Qed.

Lemma representable_1 : representable 1.
Proof. exists (2 ^ 52)%Z. reflexivity. Qed.

Lemma binary64_1 : binary64 1.
Proof.
  split; [exact representable_1 |].
  assert (pow2 0 < pow2 1024) by (apply pow2_lt; lia). exact H.
Qed.

(** The results of [round64], with the bound of the finite ones. *)
Lemma round64_results (x : Q) :
  (x == 0 /\ round64 x = Finite 0) \/
  (0 < x /\
   ((pow2 1024 <= round_pos x /\ round64 x = Infinity false) \/
    (round_pos x < pow2 1024 /\ round64 x = Finite (Qred (round_pos x))))) \/
  (x < 0 /\
   ((pow2 1024 <= round_pos (- x) /\ round64 x = Infinity true) \/
    (round_pos (- x) < pow2 1024 /\
     round64 x = Finite (Qred (- round_pos (- x)))))).
Proof.
  unfold round64. destruct (Qcompare x 0) eqn:Hc.
  - apply Qeq_alt in Hc. left. split; [exact Hc | reflexivity].
  - apply Qlt_alt in Hc. right. right. split; [exact Hc |].
    destruct (Qle_bool (pow2 1024) (round_pos (- x))) eqn:Ho.
    + apply Qle_bool_iff in Ho. left. split; [exact Ho | reflexivity].
    + right. split; [| reflexivity].
      apply Qnot_le_lt. intros Hle. apply Qle_bool_iff in Hle. congruence.
  - apply Qgt_alt in Hc. right. left. split; [exact Hc |].
    destruct (Qle_bool (pow2 1024) (round_pos x)) eqn:Ho.
    + apply Qle_bool_iff in Ho. left. split; [exact Ho | reflexivity].
    + right. split; [| reflexivity].
      apply Qnot_le_lt. intros Hle. apply Qle_bool_iff in Hle. congruence.
Qed.

(** A finite result of [round64] is a finite binary64 number. *)
Lemma round64_binary64 (x r : Q) : round64 x = Finite r -> binary64 r.
Proof.
  intros H.
  destruct (round64_results x)
    as [[Hx H0] | [[Hx [[Ho Hi] | [Ho Hf]]] | [Hx [[Ho Hi] | [Ho Hf]]]]];
    try congruence.
  - assert (Hr : r = 0) by congruence. subst r. split.
    + exact representable_0.
    + apply pow2_pos.
  - assert (Hr : Qred (round_pos x) = r) by congruence.
    pose proof (round_pos_nonneg x Hx) as Hr0.
    assert (Heq : round_pos x == Qabs r).
    { rewrite <- Hr, Qred_correct, Qabs_pos; [reflexivity | exact Hr0]. }
    split.
    + apply (representable_comp (round_pos x)); [exact Hr0 | exact Heq |].
      apply round_pos_representable, Hx.
    + rewrite <- Heq. exact Ho.
  - assert (Hr : Qred (- round_pos (- x)) = r) by congruence.
    assert (Hp : 0 < - x) by lra.
    pose proof (round_pos_nonneg (- x) Hp) as Hr0.
    assert (Heq : round_pos (- x) == Qabs r).
    { rewrite <- Hr, Qred_correct, Qabs_opp, Qabs_pos;
        [reflexivity | exact Hr0]. }
    split.
    + apply (representable_comp (round_pos (- x))); [exact Hr0 | exact Heq |].
      apply round_pos_representable, Hp.
    + rewrite <- Heq. exact Ho.
Qed.

(** A rational that is not beyond a finite binary64 number rounds to a
    finite number that is not beyond it, and keeps its sign. *)
Lemma round64_within (x y : Q) :
  binary64 y -> Qabs x <= Qabs y ->
  exists r : Q,
    round64 x = Finite r /\ Qabs r <= Qabs y /\
    (0 <= x -> 0 <= r) /\ (x <= 0 -> r <= 0).
Proof.
  intros [Hrep Hfin] Hxy.
  destruct (round64_results x)
    as [[Hx H0] | [[Hx [[Ho Hi] | [Ho Hf]]] | [Hx [[Ho Hi] | [Ho Hf]]]]].
  - exists 0. split; [exact H0 |].
    assert (E : Qabs 0 == 0) by reflexivity. rewrite E.
    split; [apply Qabs_nonneg |]. split; intros _; apply Qle_refl.
  - exfalso. rewrite (Qabs_pos x) in Hxy by lra.
    pose proof (round_pos_le x (Qabs y) Hrep Hx Hxy). lra.
  - rewrite (Qabs_pos x) in Hxy by lra.
    pose proof (round_pos_le x (Qabs y) Hrep Hx Hxy) as Hle.
    pose proof (round_pos_nonneg x Hx) as Hr0.
    eexists. split; [exact Hf |]. rewrite Qred_correct.
    rewrite (Qabs_pos (round_pos x)) by exact Hr0.
    split; [exact Hle |]. split; [intros _; exact Hr0 | intros Hn; lra].
  - exfalso. rewrite (Qabs_neg x) in Hxy by lra.
    assert (Hp : 0 < - x) by lra.
    pose proof (round_pos_le (- x) (Qabs y) Hrep Hp Hxy). lra.
  - rewrite (Qabs_neg x) in Hxy by lra.
    assert (Hp : 0 < - x) by lra.
    pose proof (round_pos_le (- x) (Qabs y) Hrep Hp Hxy) as Hle.
    pose proof (round_pos_nonneg (- x) Hp) as Hr0.
    eexists. split; [exact Hf |]. rewrite Qred_correct.
    rewrite Qabs_opp, (Qabs_pos (round_pos (- x))) by exact Hr0.
    split; [exact Hle |]. split; [intros Hn; lra | intros _; lra].
Qed.

(** A rational that is not below a positive binary64 number rounds to
    Infinity or to a number that is not below it. *)
Lemma round64_above (x y : Q) :
  binary64 y -> 0 < y -> y <= x ->
  round64 x = Infinity false \/
  exists r : Q, round64 x = Finite r /\ y <= r.
Proof.
  intros [Hrep _] Hy Hxy.
  apply (representable_comp (Qabs y) y) in Hrep;
    [| apply Qabs_nonneg | apply Qabs_pos; lra].
  destruct (round64_results x)
    as [[Hx H0] | [[Hx [[Ho Hi] | [Ho Hf]]] | [Hx _]]]; try lra.
  - left. exact Hi.
  - right. eexists. split; [exact Hf |]. rewrite Qred_correct.
    apply round_pos_ge; assumption.
Qed.

(** A rational that is not positive rounds to -Infinity or to a number
    that is not positive. *)
Lemma round64_nonpos (x : Q) :
  x <= 0 ->
  round64 x = Infinity true \/
  exists r : Q, round64 x = Finite r /\ r <= 0.
Proof.
  intros Hx0.
  destruct (round64_results x)
    as [[Hx H0] | [[Hx _] | [Hx [[Ho Hi] | [Ho Hf]]]]]; try lra.
  - right. exists 0. split; [exact H0 | apply Qle_refl].
  - left. exact Hi.
  - right. eexists. split; [exact Hf |]. rewrite Qred_correct.
    assert (Hp : 0 < - x) by lra.
    pose proof (round_pos_nonneg (- x) Hp). lra.
Qed.

(** A binary64 number that is not negative and not above a rational is
    not above the rounded rational. *)
Lemma round64_ge (x b t : Q) :
  binary64 b -> 0 <= b -> b <= x -> round64 x = Finite t -> b <= t.
Proof.
  intros Hb Hb0 Hbx Ht.
  destruct (Qeq_dec b 0) as [Hz | Hnz].
  - rewrite Hz. apply (round64_nonneg x); [lra | exact Ht].
  - assert (Hbpos : 0 < b) by lra.
    destruct (round64_above x b Hb Hbpos Hbx) as [Hi | (r & Hr & Hle)];
      [congruence |].
    assert (r = t) by congruence. subst r. exact Hle.
Qed.

(** The rounding leaves a representable number in place. *)
Lemma round_pos_representable_fixed (y : Q) :
  0 < y -> representable y -> round_pos y == y.
Proof.
  intros Hy [m Hm]. unfold round_pos. set (e := ulp_exponent y) in *.
  pose proof (pow2_pos e) as He.
  assert (Ey : y / pow2 e == inject_Z m) by (rewrite Hm; field; lra).
  rewrite (rne_comp _ _ Ey), rne_integer. symmetry. exact Hm.
Qed.

(** [round64] leaves the finite binary64 numbers in place: [Number] does
    not change a number that a parser returns rounded. *)
Lemma round64_binary64_fixed (y : Q) :
  binary64 y -> (round64 y == Finite y)%num.
Proof.
  intros [Hrep Hfin].
  destruct (round64_results y)
    as [[Hy H0] | [[Hy [[Ho Hi] | [Ho Hf]]] | [Hy [[Ho Hi] | [Ho Hf]]]]].
  - rewrite H0. cbn. symmetry. exact Hy.
  - exfalso. apply (representable_comp (Qabs y) y) in Hrep;
      [| apply Qabs_nonneg | apply Qabs_pos; lra].
    rewrite (round_pos_representable_fixed y Hy Hrep) in Ho.
    rewrite (Qabs_pos y) in Hfin by lra. lra.
  - apply (representable_comp (Qabs y) y) in Hrep;
      [| apply Qabs_nonneg | apply Qabs_pos; lra].
    rewrite Hf. cbn. rewrite Qred_correct.
    apply round_pos_representable_fixed; assumption.
  - exfalso. assert (Hp : 0 < - y) by lra.
    apply (representable_comp (Qabs y) (- y)) in Hrep;
      [| apply Qabs_nonneg | apply Qabs_neg; lra].
    rewrite (round_pos_representable_fixed (- y) Hp Hrep) in Ho.
    rewrite (Qabs_neg y) in Hfin by lra. lra.
  - assert (Hp : 0 < - y) by lra.
    apply (representable_comp (Qabs y) (- y)) in Hrep;
      [| apply Qabs_nonneg | apply Qabs_neg; lra].
    rewrite Hf. cbn. rewrite Qred_correct.
    rewrite (round_pos_representable_fixed (- y) Hp Hrep). ring.
Qed.

End Rounding.

(** On the samples, two by two, the sum, the difference, the product and
    the quotient of the kernel's binary64 numbers are the exact ones
    rounded by [fl]. *)
Example fl_agrees_with_the_kernel :
  forallb (fun x => forallb (Kernel.agree x) Kernel.samples) Kernel.samples
  = true.
Proof. vm_compute. reflexivity. Qed.

(** 0.1 is 3602879701896397 / 2 ^ 55; half of the least number rounds to
    0 and three halves of it to twice it; [2 ^ 1024] is Infinity. *)
Example round64_known_values :
  round64 (1 # 10) = Finite (3602879701896397 # 36028797018963968) /\
  round64 (pow2 (-1075)) = Finite 0 /\
  (fl (Finite (3 * pow2 (-1075))) == Finite (pow2 (-1073)))%num /\
  round64 (pow2 1023 + pow2 1023) = Infinity false.
Proof.
  split; [vm_compute; reflexivity |]. split; [vm_compute; reflexivity |].
  split; vm_compute; reflexivity.
Qed.

(** Without rounding, the rounded calculation is the calculation. *)
Lemma calculate_rounded_exact {L : Language} {M : Modules}
    (utilityFactor usage usage_uom : JsVal) :
  calculate_rounded (fun a => a) utilityFactor usage usage_uom
  = calculate utilityFactor usage usage_uom.
Proof. reflexivity. Qed.

(** ** The two amounts and the usage *)

Section Amounts.
Local Open Scope Q_scope.

Lemma mul_bounds (u x lo hi : Q) :
  0 <= u -> lo <= x -> x <= hi -> u * lo <= u * x /\ u * x <= u * hi.
Proof.
  intros Hu Hlo Hhi. split.
  - rewrite !(Qmult_comm u). apply Qmult_le_compat_r; assumption.
  - rewrite !(Qmult_comm u). apply Qmult_le_compat_r; assumption.
Qed.

(** The two amounts of the first branch, for a usage that is not
    negative: [q] is the rounded quotient, [s] the rounded difference. *)
Lemma conservation_A_pos (eta u q s r n : Q) :
  0 <= eta -> eta <= 1 # 9007199254740992 ->
  0 <= u -> 0 <= q -> q <= 1 -> 0 <= s -> s <= 1 ->
  Qabs (r - u * q) <= (1 # 9007199254740992) * (u * q) + eta ->
  Qabs (s - (1 - q)) <= (1 # 9007199254740992) * (1 - q) + eta ->
  Qabs (n - u * s) <= (1 # 9007199254740992) * (u * s) + eta ->
  Qabs (r + n - u) <= 4 * (1 # 9007199254740992) * u + 2 * eta.
Proof.
  intros He0 He1 Hu Hq0 Hq1 Hs0 Hs1 Hr Hs Hn.
  apply Qabs_Qle_condition in Hr, Hs, Hn.
  destruct Hr as [Hr1 Hr2], Hs as [Hs1' Hs2], Hn as [Hn1 Hn2].
  apply Qabs_Qle_condition.
  destruct (mul_bounds u q 0 1 Hu Hq0 Hq1) as [HX0 HX1].
  destruct (mul_bounds u s 0 1 Hu Hs0 Hs1) as [HY0 HY1].
  destruct (mul_bounds u (s - (1 - q)) _ _ Hu Hs1' Hs2) as [HZ0 HZ1].
  destruct (mul_bounds u eta 0 _ Hu He0 He1) as [HE0 HE1].
  set (X := u * q) in *. set (Y := u * s) in *. set (E := u * eta) in *.
  assert (EZ : u * (s - (1 - q)) == Y - u + X) by (unfold X, Y; ring).
  assert (EZ1 : u * - ((1 # 9007199254740992) * (1 - q) + eta)
                == - ((1 # 9007199254740992) * (u - X) + E))
    by (unfold X, E; ring).
  assert (EZ2 : u * ((1 # 9007199254740992) * (1 - q) + eta)
                == (1 # 9007199254740992) * (u - X) + E)
    by (unfold X, E; ring).
  rewrite EZ, EZ1 in HZ0. rewrite EZ, EZ2 in HZ1.
  split; lra.
Qed.

(** The two amounts of the second branch, for a usage that is not
    negative: [t] is the rounded total, [a] and [b] the rounded shares. *)
Lemma conservation_B_pos (eta u T t xa xb a b r n : Q) :
  0 <= eta -> eta <= (1 # 9007199254740992) * (1 # 8) ->
  0 <= u -> 0 < T -> 0 <= xa -> 0 <= xb ->
  Qabs (t - T) <= (1 # 9007199254740992) * T ->
  (xa + xb) * t == T ->
  Qabs (a - xa) <= (1 # 9007199254740992) * xa + eta ->
  Qabs (b - xb) <= (1 # 9007199254740992) * xb + eta ->
  Qabs (r - u * a) <= (1 # 9007199254740992) * (u * a) + eta ->
  Qabs (n - u * b) <= (1 # 9007199254740992) * (u * b) + eta ->
  Qabs (r + n - u) <= 4 * (1 # 9007199254740992) * u + 2 * eta.
Proof.
  intros He0 He1 Hu HT Hxa Hxb Ht HS Ha Hb Hr Hn.
  apply Qabs_Qle_condition in Ht, Ha, Hb, Hr, Hn.
  destruct Ht as [Ht1 Ht2], Ha as [Ha1 Ha2], Hb as [Hb1 Hb2],
    Hr as [Hr1 Hr2], Hn as [Hn1 Hn2].
  apply Qabs_Qle_condition.
  set (S := xa + xb) in *.
  assert (Htpos : 0 < t) by lra.
  assert (HS0 : 0 <= S) by (unfold S; lra).
  assert (HS1 : S - 1 <= (1 # 9007199254740992) * S).
  { apply Qnot_lt_le. intros Hlt.
    assert (((1 # 9007199254740992) * S) * t < (S - 1) * t)
      by (apply Qmult_lt_compat_r; assumption).
    assert (Ex : (S - 1) * t == T - t) by (rewrite <- HS; ring).
    assert (Ey : ((1 # 9007199254740992) * S) * t
                 == (1 # 9007199254740992) * T) by (rewrite <- HS; ring).
    lra. }
  assert (HS2 : - ((1 # 9007199254740992) * S) <= S - 1).
  { apply Qnot_lt_le. intros Hlt.
    assert ((S - 1) * t < - ((1 # 9007199254740992) * S) * t)
      by (apply Qmult_lt_compat_r; assumption).
    assert (Ex : (S - 1) * t == T - t) by (rewrite <- HS; ring).
    assert (Ey : - ((1 # 9007199254740992) * S) * t
                 == - ((1 # 9007199254740992) * T)) by (rewrite <- HS; ring).
    lra. }
  assert (HS3 : S <= 16 # 15) by lra.
  destruct (mul_bounds u (a - xa) _ _ Hu Ha1 Ha2) as [HA1 HA2].
  destruct (mul_bounds u (b - xb) _ _ Hu Hb1 Hb2) as [HB1 HB2].
  destruct (mul_bounds u S 0 (16 # 15) Hu HS0 HS3) as [HZ0 HZ1].
  destruct (mul_bounds u (S - 1) _ _ Hu HS2 HS1) as [HW1 HW2].
  destruct (mul_bounds u eta 0 _ Hu He0 He1) as [HE0 HE1].
  destruct (mul_bounds u xa 0 S Hu Hxa) as [HXa0 HXa1]; [unfold S; lra |].
  destruct (mul_bounds u xb 0 S Hu Hxb) as [HXb0 HXb1]; [unfold S; lra |].
  set (X := u * a) in *. set (Y := u * b) in *.
  set (Xa := u * xa) in *. set (Xb := u * xb) in *.
  set (Z := u * S) in *. set (E := u * eta) in *.
  assert (E1 : u * (a - xa) == X - Xa) by (unfold X, Xa; ring).
  assert (E2 : u * (b - xb) == Y - Xb) by (unfold Y, Xb; ring).
  assert (E3 : u * ((1 # 9007199254740992) * xa + eta)
               == (1 # 9007199254740992) * Xa + E) by (unfold Xa, E; ring).
  assert (E4 : u * ((1 # 9007199254740992) * xb + eta)
               == (1 # 9007199254740992) * Xb + E) by (unfold Xb, E; ring).
  assert (E5 : u * - ((1 # 9007199254740992) * xa + eta)
               == - ((1 # 9007199254740992) * Xa + E))
    by (unfold Xa, E; ring).
  assert (E6 : u * - ((1 # 9007199254740992) * xb + eta)
               == - ((1 # 9007199254740992) * Xb + E))
    by (unfold Xb, E; ring).
  assert (E7 : u * (S - 1) == Z - u) by (unfold Z; ring).
  assert (E8 : u * ((1 # 9007199254740992) * S)
               == (1 # 9007199254740992) * Z) by (unfold Z; ring).
  assert (E9 : u * - ((1 # 9007199254740992) * S)
               == - ((1 # 9007199254740992) * Z)) by (unfold Z; ring).
  assert (E10 : Z == Xa + Xb) by (unfold Z, Xa, Xb, S; ring).
  rewrite E1, E5 in HA1. rewrite E1, E3 in HA2.
  rewrite E2, E6 in HB1. rewrite E2, E4 in HB2.
  rewrite E7, E9 in HW1. rewrite E7, E8 in HW2.
  split; lra.
Qed.

Lemma pow2_53 : pow2 (-53) = 1 # 9007199254740992.
Proof. reflexivity. Qed.

Lemma pow2_1075_small : pow2 (-1075) <= (1 # 9007199254740992) * (1 # 8).
Proof.
  assert (H : pow2 (-1075) <= pow2 (-56)) by (apply pow2_le; lia).
  assert (E : pow2 (-56) == (1 # 9007199254740992) * (1 # 8)) by reflexivity.
  rewrite <- E. exact H.
Qed.

(** The error of a product, of a quotient or of a difference that is
    rounded, relative to its absolute value. *)
Lemma round64_error_53 (x r : Q) :
  round64 x = Finite r ->
  Qabs (r - x) <= (1 # 9007199254740992) * Qabs x + pow2 (-1075).
Proof. intros H. rewrite <- pow2_53. apply round64_error, H. Qed.

(** The sign-free forms: a negative usage is the opposite of a positive
    one, with opposite amounts. *)
Lemma conservation_A (u q s r n : Q) :
  0 <= q -> q <= 1 -> 0 <= s -> s <= 1 ->
  round64 (u * q) = Finite r ->
  round64 (1 - q) = Finite s ->
  round64 (u * s) = Finite n ->
  Qabs (r + n - u) <= pow2 (-51) * Qabs u + pow2 (-1074).
Proof.
  intros Hq0 Hq1 Hs0 Hs1 Hr Hs Hn.
  apply round64_error_53 in Hr, Hs, Hn.
  pose proof (pow2_pos (-1075)) as He0.
  pose proof pow2_1075_small as He1.
  assert (Ee : pow2 (-51) * Qabs u + pow2 (-1074)
               == 4 * (1 # 9007199254740992) * Qabs u + 2 * pow2 (-1075)).
  { change (-1074)%Z with (-1075 + 1)%Z. rewrite pow2_succ.
    assert (E : pow2 (-51) == 4 * (1 # 9007199254740992)) by reflexivity.
    rewrite E. reflexivity. }
  rewrite Ee. rewrite (Qabs_pos (1 - q)) in Hs by lra.
  destruct (Qlt_le_dec u 0) as [Hneg | Hpos].
  - rewrite (Qabs_neg u) by lra.
    assert (E1 : Qabs (r + n - u) == Qabs (- r + - n - - u)).
    { rewrite <- Qabs_opp. apply Qabs_wd. ring. }
    rewrite E1.
    apply (conservation_A_pos (pow2 (-1075)) (- u) q s (- r) (- n));
      try lra.
    + assert (E2 : - r - - u * q == - (r - u * q)) by ring.
      rewrite E2, Qabs_opp.
      assert (E3 : Qabs (u * q) == - u * q).
      { rewrite Qabs_neg; [ring |].
        setoid_replace (u * q) with (- (- u * q)) using relation Qeq by ring.
        assert (0 <= - u * q) by (apply Qmult_le_0_compat; lra). lra. }
      rewrite E3 in Hr. exact Hr.
    + assert (E2 : - n - - u * s == - (n - u * s)) by ring.
      rewrite E2, Qabs_opp.
      assert (E3 : Qabs (u * s) == - u * s).
      { rewrite Qabs_neg; [ring |].
        setoid_replace (u * s) with (- (- u * s)) using relation Qeq by ring.
        assert (0 <= - u * s) by (apply Qmult_le_0_compat; lra). lra. }
      rewrite E3 in Hn. exact Hn.
  - rewrite (Qabs_pos u) by lra.
    apply (conservation_A_pos (pow2 (-1075)) u q s r n); try lra.
    + rewrite (Qabs_pos (u * q)) in Hr; [exact Hr |].
      apply Qmult_le_0_compat; lra.
    + rewrite (Qabs_pos (u * s)) in Hn; [exact Hn |].
      apply Qmult_le_0_compat; lra.
Qed.

Lemma conservation_B (u a0 b0 t a b r n : Q) :
  on_grid a0 -> on_grid b0 -> 0 <= a0 -> 0 <= b0 ->
  round64 (a0 + b0) = Finite t -> ~ t == 0 ->
  round64 (b0 / t) = Finite a ->
  round64 (a0 / t) = Finite b ->
  round64 (u * a) = Finite r ->
  round64 (u * b) = Finite n ->
  Qabs (r + n - u) <= pow2 (-51) * Qabs u + pow2 (-1074).
Proof.
  intros Hga Hgb Ha0 Hb0 Ht Hnz Ha Hb Hr Hn.
  assert (HT : 0 < a0 + b0).
  { destruct (Qlt_le_dec 0 (a0 + b0)) as [Hlt | Hle]; [exact Hlt |].
    exfalso. apply Hnz.
    destruct (round64_cases _ _ Ht) as [[_ H0] | [[Hp _] | [Hm _]]];
      [exact H0 | lra | lra]. }
  pose proof (round64_error_grid _ _ (on_grid_plus _ _ Hga Hgb) Ht) as Het.
  rewrite pow2_53, (Qabs_pos (a0 + b0)) in Het by lra.
  assert (Htpos : 0 < t).
  { apply Qabs_Qle_condition in Het. lra. }
  assert (Hxa : 0 <= b0 / t) by (apply Qle_shift_div_l; lra).
  assert (Hxb : 0 <= a0 / t) by (apply Qle_shift_div_l; lra).
  pose proof (round64_nonneg _ _ Hxa Ha) as Ha'.
  pose proof (round64_nonneg _ _ Hxb Hb) as Hb'.
  apply round64_error_53 in Ha, Hb, Hr, Hn.
  rewrite (Qabs_pos (b0 / t)) in Ha by exact Hxa.
  rewrite (Qabs_pos (a0 / t)) in Hb by exact Hxb.
  pose proof (pow2_pos (-1075)) as He0.
  pose proof pow2_1075_small as He1.
  assert (HS : (b0 / t + a0 / t) * t == a0 + b0) by (field; lra).
  assert (Ee : pow2 (-51) * Qabs u + pow2 (-1074)
               == 4 * (1 # 9007199254740992) * Qabs u + 2 * pow2 (-1075)).
  { change (-1074)%Z with (-1075 + 1)%Z. rewrite pow2_succ.
    assert (E : pow2 (-51) == 4 * (1 # 9007199254740992)) by reflexivity.
    rewrite E. reflexivity. }
  rewrite Ee.
  destruct (Qlt_le_dec u 0) as [Hneg | Hpos].
  - rewrite (Qabs_neg u) by lra.
    assert (E1 : Qabs (r + n - u) == Qabs (- r + - n - - u)).
    { rewrite <- Qabs_opp. apply Qabs_wd. ring. }
    rewrite E1.
    apply (conservation_B_pos (pow2 (-1075)) (- u) (a0 + b0) t
             (b0 / t) (a0 / t) a b (- r) (- n)); try lra; try assumption.
    + assert (E2 : - r - - u * a == - (r - u * a)) by ring.
      rewrite E2, Qabs_opp.
      assert (E3 : Qabs (u * a) == - u * a).
      { rewrite Qabs_neg; [ring |].
        setoid_replace (u * a) with (- (- u * a)) using relation Qeq by ring.
        assert (0 <= - u * a) by (apply Qmult_le_0_compat; lra). lra. }
      rewrite E3 in Hr. exact Hr.
    + assert (E2 : - n - - u * b == - (n - u * b)) by ring.
      rewrite E2, Qabs_opp.
      assert (E3 : Qabs (u * b) == - u * b).
      { rewrite Qabs_neg; [ring |].
        setoid_replace (u * b) with (- (- u * b)) using relation Qeq by ring.
        assert (0 <= - u * b) by (apply Qmult_le_0_compat; lra). lra. }
      rewrite E3 in Hn. exact Hn.
  - rewrite (Qabs_pos u) by lra.
    apply (conservation_B_pos (pow2 (-1075)) u (a0 + b0) t
             (b0 / t) (a0 / t) a b r n); try lra; try assumption.
    + rewrite (Qabs_pos (u * a)) in Hr; [exact Hr |].
      apply Qmult_le_0_compat; lra.
    + rewrite (Qabs_pos (u * b)) in Hn; [exact Hn |].
      apply Qmult_le_0_compat; lra.
Qed.

End Amounts.

Section Conservation.
Context {L : Language} {M : Modules}.

(** What a result of the binary64 calculation is made of. *)
Lemma Binary64_calculate_inv (props : list (string * JsVal))
    (usage usage_uom : JsVal) (res : Co2Emissions) :
  Binary64.calculate (VObj props) usage usage_uom = Normal res ->
  let percent :=
    fl (Binary64.Number (field props "percent_of_renewables") / Finite 100)%num in
  let total_generation :=
    fl (Binary64.Number (field props "non_renewables")
        + Binary64.Number (field props "renewables"))%num in
  if truthy (field props "percent_of_renewables") then
    renewable_energy_use_amount res = fl (Binary64.Number usage * percent)%num /\
    nonrenewable_energy_use_amount res
    = fl (Binary64.Number usage * fl (Finite 1 - percent))%num
  else
    renewable_energy_use_amount res
    = fl (Binary64.Number usage
          * fl (Binary64.Number (field props "renewables") / total_generation))%num /\
    nonrenewable_energy_use_amount res
    = fl (Binary64.Number usage
          * fl (Binary64.Number (field props "non_renewables")
                / total_generation))%num.
Proof.
  unfold Binary64.calculate, calculate_rounded. rewrite !get_prop_object.
  cbn [bind].
  destruct (truthy (field props "percent_of_renewables")).
  - destruct (get_uom_factor _); [| discriminate].
    destruct (get_uom_factor _); [| discriminate].
    cbn. intros H. injection H as <-. auto.
  - destruct (get_uom_factor usage_uom); [| discriminate]. cbn [bind].
    destruct (get_uom_factor _); [| discriminate]. cbn [bind].
    destruct (get_uom_factor _); [| discriminate]. cbn [bind].
    destruct (get_uom_factor _); [| discriminate].
    cbn. intros H. injection H as <-. auto.
Qed.

Lemma Number_on_grid (v : JsVal) (a : Q) :
  Binary64.Number v = Finite a -> on_grid a.
Proof.
  unfold Binary64.Number, fl. destruct (ToNumber v) as [| s | q]; try discriminate.
  apply round64_grid.
Qed.

Lemma Number_binary64 (v : JsVal) (a : Q) :
  Binary64.Number v = Finite a -> binary64 a.
Proof.
  unfold Binary64.Number, fl. destruct (ToNumber v) as [| s | q]; try discriminate.
  apply round64_binary64.
Qed.

Lemma Qabs_mul_unit (u q : Q) :
  (0 <= q)%Q -> (q <= 1)%Q -> (Qabs (u * q) <= Qabs u)%Q.
Proof.
  intros H0 H1. rewrite Qabs_Qmult, (Qabs_pos q) by exact H0.
  pose proof (Qabs_nonneg u) as Hu.
  setoid_replace (Qabs u) with (Qabs u * 1)%Q using relation Qeq at 2 by ring.
  rewrite !(Qmult_comm (Qabs u)). apply Qmult_le_compat_r; assumption.
Qed.

End Conservation.

(** C4, as the specification states it, fails: on a factor whose
    [non_renewables] and [renewables] are [2 ^ 1023], the total is
    Infinity, which is not zero, the two shares are 0, and for a usage of
    100 the two amounts are 0 and 0. *)
Lemma C4_overflow_counterexample :
  exists res : Co2Emissions,
    @Binary64.calculate Scenario.language Scenario.modules
      (VObj Cases.factor_overflow_props) (VNum (Finite 100)) (VStr "MWh")
    = Normal res /\
    fl (Finite (pow2 1023) + Finite (pow2 1023))%num = Infinity false /\
    renewable_energy_use_amount res = Finite 0 /\
    nonrenewable_energy_use_amount res = Finite 0.
Proof.
  eexists. split; [vm_compute; reflexivity |].
  split; [vm_compute; reflexivity |].
  split; vm_compute; reflexivity.
Qed.

(** C4, amended. On binary64 numbers and for a finite usage, the two
    amounts that the calculation returns are finite, not beyond the usage
    in absolute value, and add up to the usage within [2 ^ -51] times the
    usage plus [2 ^ -1074]: on a factor with a truthy
    [percent_of_renewables] between 0 and 100; and on a factor with a
    falsy one whose [non_renewables] and [renewables] are not negative and
    whose total, as the calculation rounds it, is finite and not zero. *)
Theorem C4_usage_conservation_within_tolerance (L : Language) (M : Modules)
    (props : list (string * JsVal)) (usage usage_uom : JsVal)
    (res : Co2Emissions) (u : Q) :
  Binary64.calculate (VObj props) usage usage_uom = Normal res ->
  Binary64.Number usage = Finite u ->
  (exists p : Q,
      truthy (field props "percent_of_renewables") = true /\
      Binary64.Number (field props "percent_of_renewables") = Finite p /\
      (0 <= p)%Q /\ (p <= 100)%Q)
  \/
  (exists non_renewables renewables total_generation : Q,
      truthy (field props "percent_of_renewables") = false /\
      Binary64.Number (field props "non_renewables") = Finite non_renewables /\
      Binary64.Number (field props "renewables") = Finite renewables /\
      (0 <= non_renewables)%Q /\ (0 <= renewables)%Q /\
      fl (Finite non_renewables + Finite renewables)%num
      = Finite total_generation /\
      ~ (total_generation == 0)%Q) ->
  exists r n : Q,
    renewable_energy_use_amount res = Finite r /\
    nonrenewable_energy_use_amount res = Finite n /\
    (Qabs r <= Qabs u)%Q /\ (Qabs n <= Qabs u)%Q /\
    (Qabs (r + n - u) <= pow2 (-51) * Qabs u + pow2 (-1074))%Q.
Proof.
  intros Hres Hu Hcases.
  apply Binary64_calculate_inv in Hres. cbv zeta in Hres.
  pose proof (Number_binary64 _ _ Hu) as Hu64.
  destruct Hcases as [(p & Ht & Hp & Hp0 & Hp100)
                     | (a & b & t & Ht & Ha & Hb & Ha0 & Hb0 & Htot & Hnz)];
    rewrite Ht in Hres; destruct Hres as [Hr Hn]; rewrite Hu in Hr, Hn.
  - rewrite Hp in Hr, Hn.
    destruct (round64_unit (p / 100)) as (q & Hq & Hq0 & Hq1).
    { apply Qle_shift_div_l; lra. }
    { apply Qle_shift_div_r; lra. }
    destruct (round64_unit (1 - q)) as (s & Hs & Hs0 & Hs1); [lra | lra |].
    destruct (round64_within (u * q) u Hu64 (Qabs_mul_unit u q Hq0 Hq1))
      as (r & Hr' & Hru & _).
    destruct (round64_within (u * s) u Hu64 (Qabs_mul_unit u s Hs0 Hs1))
      as (n & Hn' & Hnu & _).
    exists r, n.
    assert (Er : renewable_energy_use_amount res = Finite r).
    { rewrite Hr. cbn. rewrite Hq. cbn. exact Hr'. }
    assert (En : nonrenewable_energy_use_amount res = Finite n).
    { rewrite Hn. cbn. rewrite Hq. cbn.
      change (1 + - q)%Q with (1 - q)%Q. rewrite Hs. cbn. exact Hn'. }
    split; [exact Er |]. split; [exact En |].
    split; [exact Hru |]. split; [exact Hnu |].
    apply (conservation_A u q s r n); assumption.
  - rewrite Ha, Hb, Htot in Hr, Hn.
    pose proof (Number_binary64 _ _ Ha) as Ha64.
    pose proof (Number_binary64 _ _ Hb) as Hb64.
    apply Qzero_b_false_iff in Hnz as Hz.
    cbn in Htot.
    assert (Hbt : (b <= t)%Q)
      by (apply (round64_ge (a + b) b t); [assumption | assumption | lra | exact Htot]).
    assert (Hat : (a <= t)%Q)
      by (apply (round64_ge (a + b) a t); [assumption | assumption | lra | exact Htot]).
    assert (Htpos : (0 < t)%Q).
    { pose proof (round64_nonneg (a + b) t) as H0.
      assert ((0 <= t)%Q) by (apply H0; [lra | exact Htot]). lra. }
    destruct (round64_unit (b / t)) as (x & Hx & Hx0 & Hx1).
    { apply Qle_shift_div_l; lra. }
    { apply Qle_shift_div_r; lra. }
    destruct (round64_unit (a / t)) as (y & Hy & Hy0 & Hy1).
    { apply Qle_shift_div_l; lra. }
    { apply Qle_shift_div_r; lra. }
    destruct (round64_within (u * x) u Hu64 (Qabs_mul_unit u x Hx0 Hx1))
      as (r & Hr' & Hru & _).
    destruct (round64_within (u * y) u Hu64 (Qabs_mul_unit u y Hy0 Hy1))
      as (n & Hn' & Hnu & _).
    exists r, n.
    assert (Er : renewable_energy_use_amount res = Finite r).
    { rewrite Hr. cbn. rewrite Hz. cbn. rewrite Hx. cbn. exact Hr'. }
    assert (En : nonrenewable_energy_use_amount res = Finite n).
    { rewrite Hn. cbn. rewrite Hz. cbn. rewrite Hy. cbn. exact Hn'. }
    split; [exact Er |]. split; [exact En |].
    split; [exact Hru |]. split; [exact Hnu |].
    apply (conservation_B u a b t x y r n); try assumption.
    + apply (Number_on_grid _ _ Ha).
    + apply (Number_on_grid _ _ Hb).
Qed.

(** C4 on the factor of the scenario, whose amounts are 400 and 600, and
    on a factor of one part in three, whose amounts for a usage of 7 add
    up to 6.999999999999999. *)
Lemma C4_usage_conservation_within_tolerance_witness :
  (exists res : Co2Emissions,
      @Binary64.calculate Scenario.language Scenario.modules
        (VObj Scenario.factor_CA_props) (VStr "1000") (VStr "MWh") = Normal res /\
      renewable_energy_use_amount res = Finite 400 /\
      nonrenewable_energy_use_amount res = Finite 600 /\
      exists r n : Q,
        renewable_energy_use_amount res = Finite r /\
        nonrenewable_energy_use_amount res = Finite n /\
        (Qabs r <= Qabs 1000)%Q /\ (Qabs n <= Qabs 1000)%Q /\
        (Qabs (r + n - 1000) <= pow2 (-51) * Qabs 1000 + pow2 (-1074))%Q)
  /\
  (exists res : Co2Emissions,
      @Binary64.calculate Scenario.language Scenario.modules
        (VObj Cases.factor_thirds_props) (VNum (Finite 7)) (VStr "MWh") = Normal res /\
      renewable_energy_use_amount res = Finite Cases.thirds_renewable /\
      nonrenewable_energy_use_amount res = Finite Cases.thirds_nonrenewable /\
      ~ (Cases.thirds_renewable + Cases.thirds_nonrenewable == 7)%Q /\
      exists r n : Q,
        renewable_energy_use_amount res = Finite r /\
        nonrenewable_energy_use_amount res = Finite n /\
        (Qabs r <= Qabs 7)%Q /\ (Qabs n <= Qabs 7)%Q /\
        (Qabs (r + n - 7) <= pow2 (-51) * Qabs 7 + pow2 (-1074))%Q).
Proof.
  split.
  - eexists. split; [vm_compute; reflexivity |].
    split; [vm_compute; reflexivity |]. split; [vm_compute; reflexivity |].
    refine (C4_usage_conservation_within_tolerance
              Scenario.language Scenario.modules
              Scenario.factor_CA_props (VStr "1000") (VStr "MWh")
              _ 1000%Q _ _
              (or_introl (ex_intro _ 40%Q (conj _ (conj _ (conj _ _))))));
      vm_compute; try reflexivity; discriminate.
  - eexists. split; [vm_compute; reflexivity |].
    split; [vm_compute; reflexivity |]. split; [vm_compute; reflexivity |].
    split; [vm_compute; discriminate |].
    refine (C4_usage_conservation_within_tolerance
              Scenario.language Scenario.modules
              Cases.factor_thirds_props (VNum (Finite 7)) (VStr "MWh")
              _ 7%Q _ _
              (or_intror
                 (ex_intro _ 1%Q
                    (ex_intro _ 2%Q
                       (ex_intro _ 3%Q
                          (conj _ (conj _ (conj _ (conj _ (conj _ (conj _ _)))))))))));
      vm_compute; try reflexivity; discriminate.
Defined.

(** ** Claims on the resolution of the division *)

(** C1. For a lookup item whose divisions are a pair of strings, the
    division resolved is: the state, with the type "STATE", when the string
    of [state_province] is not empty; else the divisions of the item when
    their type is "nerc_region" in any case; else the country, with the
    type "Country", when their type is "country" and their identifier is
    not "usa", in any case; else USA with the type "COUNTRY". A
    [state_province] that is a string is tested for being non-empty, which
    is the order of the specification. A [state_province] that is absent
    has the string "undefined": the item resolves to the type "STATE" with
    an undefined identifier, whatever its divisions. *)
Theorem C1_division_resolution_order (L : Language)
    (utilityLookup : string) (props : list (string * JsVal))
    (fetchedDivisions : JsVal) (fetchedDivisionType fetchedDivisionId : string) :
  JSON_parse utilityLookup = Normal (VObj props) ->
  JSON_parse (ToString (field props "divisions")) = Normal fetchedDivisions ->
  get_prop fetchedDivisions "division_type" = Normal (VStr fetchedDivisionType) ->
  get_prop fetchedDivisions "division_id" = Normal (VStr fetchedDivisionId) ->
  let state_province := field props "state_province" in
  newDivision utilityLookup
  = Normal
      (if (0 <? String.length (template state_province))%nat then
         VObj [("division_id", state_province); ("division_type", VStr "STATE")]
       else if String.eqb (toLowerCase fetchedDivisionType) "nerc_region" then
         fetchedDivisions
       else if String.eqb (toLowerCase fetchedDivisionType) "country"
               && negb (String.eqb (toLowerCase fetchedDivisionId) "usa") then
         VObj [("division_id", VStr fetchedDivisionId);
               ("division_type", VStr "Country")]
       else
         VObj [("division_id", VStr "USA"); ("division_type", VStr "COUNTRY")])
  /\
  (forall s : string,
      state_province = VStr s ->
      (0 <? String.length (template state_province))%nat
      = negb (String.eqb s ""))
  /\
  (assoc "state_province" props = None ->
   newDivision utilityLookup
   = Normal (VObj [("division_id", VUndef); ("division_type", VStr "STATE")])).
Proof.
  intros Hparse Hdiv Htype Hid state_province.
  assert (Hnew :
    newDivision utilityLookup
    = Normal
        (if (0 <? String.length (template state_province))%nat then
           VObj [("division_id", state_province); ("division_type", VStr "STATE")]
         else if String.eqb (toLowerCase fetchedDivisionType) "nerc_region" then
           fetchedDivisions
         else if String.eqb (toLowerCase fetchedDivisionType) "country"
                 && negb (String.eqb (toLowerCase fetchedDivisionId) "usa") then
           VObj [("division_id", VStr fetchedDivisionId);
                 ("division_type", VStr "Country")]
         else
           VObj [("division_id", VStr "USA"); ("division_type", VStr "COUNTRY")])).
  { unfold newDivision, hasStateData.
    rewrite Hparse. cbn [bind]. rewrite !get_prop_object. cbn [bind].
    rewrite Hdiv. cbn [bind]. rewrite Htype, Hid. cbn [bind call_toLowerCase].
    fold state_province.
    destruct (0 <? String.length (template state_province))%nat; cbn [truthy].
    - destruct (String.eqb (toLowerCase fetchedDivisionType) "country");
        reflexivity.
    - destruct (String.eqb (toLowerCase fetchedDivisionType) "nerc_region");
        destruct (String.eqb (toLowerCase fetchedDivisionType) "country");
        cbn [bind andb]; try reflexivity;
        destruct (String.eqb (toLowerCase fetchedDivisionId) "usa"); reflexivity. }
  split; [exact Hnew |]. split.
  - intros s Hs. rewrite Hs. cbn. destruct s; reflexivity.
  - intros Habsent. rewrite Hnew. unfold state_province, field.
    rewrite Habsent. reflexivity.
Qed.

(** C1 on three utilities: one with a state, one with an empty state in a
    NERC region, one without state. *)
Lemma C1_division_resolution_order_witness :
  @newDivision Scenario.language Scenario.lookup_U1
  = Normal (VObj [("division_id", VStr "CA"); ("division_type", VStr "STATE")])
  /\
  @newDivision Scenario.language Scenario.lookup_U4
  = Normal Scenario.division_NERC_WECC
  /\
  @newDivision Scenario.language Scenario.lookup_U2
  = Normal (VObj [("division_id", VUndef); ("division_type", VStr "STATE")]).
Proof.
  split; [| split].
  - refine (proj1 (C1_division_resolution_order Scenario.language
                     Scenario.lookup_U1 Scenario.lookup_U1_props
                     Scenario.division_country_USA "country" "USA" _ _ _ _));
      vm_compute; reflexivity.
  - refine (proj1 (C1_division_resolution_order Scenario.language
                     Scenario.lookup_U4 Scenario.lookup_U4_props
                     Scenario.division_NERC_WECC "NERC_REGION" "WECC" _ _ _ _));
      vm_compute; reflexivity.
  - refine (proj2 (proj2 (C1_division_resolution_order Scenario.language
                            Scenario.lookup_U2 Scenario.lookup_U2_props
                            Scenario.division_NERC_WECC "NERC_REGION" "WECC"
                            _ _ _ _)) _);
      vm_compute; reflexivity.
Defined.

(** C7, as the code has it. When the division resolved has a falsy
    identifier, [getEmissionsFactor] evaluates [reject], which nothing
    binds: it throws the ReferenceError "reject is not defined", not the
    error whose message names the utility, and so do [getCo2Emissions] and
    [recordEmissions] on that utility. *)
Theorem C7_empty_division_id_throws_ReferenceError (L : Language) (M : Modules)
    (uuid thruDate : JsVal) (utilityLookup : string) (division id : JsVal) :
  getUtilityLookupItem uuid = Normal utilityLookup ->
  newDivision utilityLookup = Normal division ->
  get_prop division "division_id" = Normal id ->
  truthy id = false ->
  getEmissionsFactor uuid thruDate
  = Throw (ReferenceError "reject is not defined") /\
  getEmissionsFactor uuid thruDate <> Throw (ResolutionError uuid) /\
  (forall usage usage_uom : JsVal,
      getCo2Emissions uuid thruDate usage usage_uom
      = Throw (ReferenceError "reject is not defined")) /\
  (forall (emissionsList : gmap string EmissionsRecord)
          (partyId fromDate energyUseAmount energyUseUom url md5 : JsVal),
      recordEmissions emissionsList uuid partyId fromDate thruDate
        energyUseAmount energyUseUom url md5
      = Throw (ReferenceError "reject is not defined")).
Proof.
  intros Hlookup Hnew Hid Hfalsy.
  assert (Hfactor : getEmissionsFactor uuid thruDate
                    = Throw (ReferenceError "reject is not defined")).
  { unfold getEmissionsFactor. run. rewrite Hfalsy. reflexivity. }
  split; [exact Hfactor |]. split; [rewrite Hfactor; discriminate |].
  assert (Hco2 : forall usage usage_uom : JsVal,
             getCo2Emissions uuid thruDate usage usage_uom
             = Throw (ReferenceError "reject is not defined")).
  { intros usage usage_uom. unfold getCo2Emissions.
    rewrite Hfactor. reflexivity. }
  split; [exact Hco2 |].
  intros emissionsList partyId fromDate energyUseAmount energyUseUom url md5.
  unfold recordEmissions. rewrite Hco2. reflexivity.
Qed.

(** C7 on the utility whose country has no identifier. *)
Lemma C7_empty_division_id_throws_ReferenceError_witness :
  @getEmissionsFactor Scenario.language Scenario.modules
    (VStr "U3") (VStr "2020-01-31")
  = Throw (ReferenceError "reject is not defined") /\
  @getEmissionsFactor Scenario.language Scenario.modules
    (VStr "U3") (VStr "2020-01-31")
  <> Throw (@ResolutionError Scenario.language (VStr "U3")) /\
  (forall usage usage_uom : JsVal,
      @getCo2Emissions Scenario.language Scenario.modules
        (VStr "U3") (VStr "2020-01-31") usage usage_uom
      = Throw (ReferenceError "reject is not defined")) /\
  (forall (emissionsList : gmap string EmissionsRecord)
          (partyId fromDate energyUseAmount energyUseUom url md5 : JsVal),
      @recordEmissions Scenario.language Scenario.modules
        emissionsList (VStr "U3") partyId fromDate (VStr "2020-01-31")
        energyUseAmount energyUseUom url md5
      = Throw (ReferenceError "reject is not defined")).
Proof.
  refine (C7_empty_division_id_throws_ReferenceError
            Scenario.language Scenario.modules
            (VStr "U3") (VStr "2020-01-31") Scenario.lookup_U3
            (VObj [("division_id", VStr ""); ("division_type", VStr "Country")])
            (VStr "") _ _ _ _);
    vm_compute; reflexivity.
Defined.

(** ** Claims on the lookup of the factor *)

(** C5. When the division resolved has an identifier, [getEmissionsFactor]
    is the query of the factors of that division, with the year that
    [get_full_year_from_date] returns for [thruDate] when it returns a
    truthy one, and without year when it returns a falsy one or throws: a
    failure to extract the year is not a failure of the call. When the
    query returns the text of an empty array, [getCo2Emissions] and
    [recordEmissions] throw the error "No utility emissions factor found
    for given query". When it returns a first row, the calculation runs on
    the record of that row. *)
Theorem C5_factor_lookup_contract (L : Language) (M : Modules) :
  (forall (uuid thruDate : JsVal) (utilityLookup : string)
          (division id type : JsVal),
      getUtilityLookupItem uuid = Normal utilityLookup ->
      newDivision utilityLookup = Normal division ->
      get_prop division "division_id" = Normal id ->
      truthy id = true ->
      get_prop division "division_type" = Normal type ->
      getEmissionsFactor uuid thruDate
      = getUtilityEmissionsFactorsByDivision
          (match get_full_year_from_date thruDate with
           | Normal year =>
               if truthy year then
                 VObj [("division_id", id); ("division_type", type); ("year", year)]
               else VObj [("division_id", id); ("division_type", type)]
           | Throw _ => VObj [("division_id", id); ("division_type", type)]
           end))
  /\
  (forall (uuid thruDate usage usage_uom : JsVal) (utilityFactors : string),
      getEmissionsFactor uuid thruDate = Normal utilityFactors ->
      JSON_parse utilityFactors = Normal (VArr []) ->
      getCo2Emissions uuid thruDate usage usage_uom
      = Throw (Error "No utility emissions factor found for given query") /\
      forall (emissionsList : gmap string EmissionsRecord)
             (partyId fromDate url md5 : JsVal),
        recordEmissions emissionsList uuid partyId fromDate thruDate
          usage usage_uom url md5
        = Throw (Error "No utility emissions factor found for given query"))
  /\
  (forall (uuid thruDate usage usage_uom : JsVal) (utilityFactors : string)
          (row : list (string * JsVal)) (rows : list JsVal),
      getEmissionsFactor uuid thruDate = Normal utilityFactors ->
      JSON_parse utilityFactors = Normal (VArr (VObj row :: rows)) ->
      getCo2Emissions uuid thruDate usage usage_uom
      = calculate (field row "Record") usage usage_uom).
Proof.
  split; [| split].
  - intros uuid thruDate utilityLookup division id type
      Hlookup Hnew Hid Htruthy Htype.
    unfold getEmissionsFactor. run. rewrite Htruthy. cbn [negb]. run.
    rewrite bind_Normal. unfold queryParams.
    destruct (get_full_year_from_date thruDate) as [year |];
      [destruct (truthy year) |]; reflexivity.
  - intros uuid thruDate usage usage_uom utilityFactors Hfactor Hparse.
    assert (Hco2 : getCo2Emissions uuid thruDate usage usage_uom
                   = Throw (Error "No utility emissions factor found for given query")).
    { unfold getCo2Emissions. rewrite Hfactor. cbn [bind].
      rewrite Hparse. reflexivity. }
    split; [exact Hco2 |].
    intros emissionsList partyId fromDate url md5.
    unfold recordEmissions. rewrite Hco2. reflexivity.
  - intros uuid thruDate usage usage_uom utilityFactors row rows Hfactor Hparse.
    unfold getCo2Emissions. rewrite Hfactor. cbn [bind].
    rewrite Hparse. reflexivity.
Qed.

(** C5 on the ledger of the scenario: a date that is not one, a date of
    2020, a region without factor for 2020, and the factor of the state. *)
Lemma C5_factor_lookup_contract_witness :
  @getEmissionsFactor Scenario.language Scenario.modules
    (VStr "U1") (VStr "January 2020")
  = @getUtilityEmissionsFactorsByDivision Scenario.modules
      (VObj [("division_id", VStr "CA"); ("division_type", VStr "STATE")])
  /\
  @getEmissionsFactor Scenario.language Scenario.modules
    (VStr "U1") (VStr "2020-01-31")
  = @getUtilityEmissionsFactorsByDivision Scenario.modules
      (VObj [("division_id", VStr "CA"); ("division_type", VStr "STATE");
             ("year", VNum (Finite 2020))])
  /\
  (@getCo2Emissions Scenario.language Scenario.modules
     (VStr "U4") (VStr "2020-01-31") (VStr "100") (VStr "kWh")
   = Throw (Error "No utility emissions factor found for given query") /\
   forall (emissionsList : gmap string EmissionsRecord)
          (partyId fromDate url md5 : JsVal),
     @recordEmissions Scenario.language Scenario.modules
       emissionsList (VStr "U4") partyId fromDate (VStr "2020-01-31")
       (VStr "100") (VStr "kWh") url md5
     = Throw (Error "No utility emissions factor found for given query"))
  /\
  @getCo2Emissions Scenario.language Scenario.modules
    (VStr "U1") (VStr "2020-01-31") (VNum (Finite 1000)) (VStr "MWh")
  = @calculate Scenario.language Scenario.modules
      (VObj Scenario.factor_CA_props) (VNum (Finite 1000)) (VStr "MWh").
Proof.
  pose (claim := C5_factor_lookup_contract Scenario.language Scenario.modules).
  split; [| split; [| split]].
  - refine (proj1 claim (VStr "U1") (VStr "January 2020") Scenario.lookup_U1
              (VObj [("division_id", VStr "CA"); ("division_type", VStr "STATE")])
              (VStr "CA") (VStr "STATE") _ _ _ _ _);
      vm_compute; reflexivity.
  - refine (proj1 claim (VStr "U1") (VStr "2020-01-31") Scenario.lookup_U1
              (VObj [("division_id", VStr "CA"); ("division_type", VStr "STATE")])
              (VStr "CA") (VStr "STATE") _ _ _ _ _);
      vm_compute; reflexivity.
  - refine (proj1 (proj2 claim) (VStr "U4") (VStr "2020-01-31")
              (VStr "100") (VStr "kWh") "[]" _ _);
      vm_compute; reflexivity.
  - refine (proj2 (proj2 claim) (VStr "U1") (VStr "2020-01-31")
              (VNum (Finite 1000)) (VStr "MWh")
              Scenario.rows_CA_text
              [("Key", VStr "STATE/CA"); ("Record", VObj Scenario.factor_CA_props)]
              [] _ _);
      vm_compute; reflexivity.
Defined.

(** ** Claims on the records *)

(** C6. A record that [recordEmissions] returns has for [uuid] the digest
    of utilityId + partyId + fromDate + thruDate, the concatenation of the
    four strings; the ledger after the call is the ledger before it with
    that record at that key; no parameter of the call supplies the key.
    [updateEmissionsRecord] always returns: its record has the [uuid] that
    the caller gave, the ledger after the call has that record at that
    key and is unchanged at the other keys, and the keys of the ledger are
    the same when the key was in it. *)
Theorem C6_fingerprint_identity (L : Language) (M : Modules) :
  (forall (emissionsList emissionsList' : gmap string EmissionsRecord)
          (utilityId partyId fromDate thruDate energyUseAmount energyUseUom
             url md5 : JsVal)
          (emissionsRecord : EmissionsRecord),
      recordEmissions emissionsList utilityId partyId fromDate thruDate
        energyUseAmount energyUseUom url md5
      = Normal (emissionsRecord, emissionsList') ->
      let key :=
        MD5 (js_plus (js_plus (js_plus utilityId partyId) fromDate) thruDate) in
      uuid emissionsRecord = key /\
      emissionsList' = <[key := emissionsRecord]> emissionsList /\
      emissionsList' !! key = Some emissionsRecord /\
      (forall u p f t : string,
          utilityId = VStr u -> partyId = VStr p ->
          fromDate = VStr f -> thruDate = VStr t ->
          key = MD5 (VStr (((u +:+ p) +:+ f) +:+ t))))
  /\
  (forall (emissionsList : gmap string EmissionsRecord) (key : string)
          (utilityId partyId fromDate thruDate emissionsAmount
             renewable_energy_use_amount nonrenewable_energy_use_amount
             energyUseUom factor_source url md5 tokenId : JsVal),
      exists emissionsRecord : EmissionsRecord,
        updateEmissionsRecord emissionsList key utilityId partyId fromDate
          thruDate emissionsAmount renewable_energy_use_amount
          nonrenewable_energy_use_amount energyUseUom factor_source url md5
          tokenId
        = Normal (emissionsRecord, <[key := emissionsRecord]> emissionsList) /\
        uuid emissionsRecord = key /\
        (<[key := emissionsRecord]> emissionsList) !! key = Some emissionsRecord /\
        (forall k : string,
            k <> key ->
            (<[key := emissionsRecord]> emissionsList) !! k = emissionsList !! k) /\
        (is_Some (emissionsList !! key) ->
         dom (<[key := emissionsRecord]> emissionsList) = dom emissionsList)).
Proof.
  split.
  - intros emissionsList emissionsList' utilityId partyId fromDate thruDate
      energyUseAmount energyUseUom url md5 emissionsRecord.
    unfold recordEmissions, EmissionsList.addEmissionsRecord.
    destruct (getCo2Emissions utilityId thruDate energyUseAmount energyUseUom)
      as [co2Emissions |]; [| discriminate].
    cbn [bind]. intros Hcall. injection Hcall as <- <-. cbn [uuid].
    split; [reflexivity |]. split; [reflexivity |].
    split; [apply lookup_insert_eq |].
    intros u p f t -> -> -> ->. reflexivity.
  - intros emissionsList key utilityId partyId fromDate thruDate emissionsAmount
      renewable nonrenewable energyUseUom factor_source url md5 tokenId.
    eexists. split; [reflexivity |]. cbn [uuid].
    split; [reflexivity |]. split; [apply lookup_insert_eq |].
    split.
    + intros k Hk. apply lookup_insert_ne. congruence.
    + intros Hin. rewrite dom_insert_L.
      apply elem_of_dom in Hin.
      apply subseteq_union_1_L, singleton_subseteq_l, Hin.
Qed.

(** C6 on the record of the scenario, and on its update with a token. *)
Lemma C6_fingerprint_identity_witness :
  (uuid Scenario.record_U1
   = @MD5 Scenario.modules
       (@js_plus Scenario.language
          (@js_plus Scenario.language
             (@js_plus Scenario.language (VStr "U1") (VStr "P1"))
             (VStr "2020-01-01"))
          (VStr "2020-01-31")) /\
   Scenario.ledger_U1 !! Scenario.key_U1 = Some Scenario.record_U1)
  /\
  (exists emissionsRecord : EmissionsRecord,
      @updateEmissionsRecord Scenario.language
        Scenario.ledger_U1 Scenario.key_U1
        (VStr "U1") (VStr "P1") (VStr "2020-01-01") (VStr "2020-01-31")
        (VStr "226.796185") (VStr "400") (VStr "600") (VStr "MWh")
        (VStr "eGrid 2020 STATE CA") (VStr "https://example.org/bill")
        (VStr "0cc175b9c0f1b6a831c399e269772661") (VStr "token-7")
      = Normal (emissionsRecord,
                <[Scenario.key_U1 := emissionsRecord]> Scenario.ledger_U1) /\
      uuid emissionsRecord = Scenario.key_U1 /\
      dom (<[Scenario.key_U1 := emissionsRecord]> Scenario.ledger_U1)
      = dom Scenario.ledger_U1).
Proof.
  pose (claim := C6_fingerprint_identity Scenario.language Scenario.modules).
  split.
  - destruct (proj1 claim _ _ _ _ _ _ _ _ _ _ _ scenario_recordEmissions)
      as (Hkey & _ & Hget & _).
    split; [exact Hkey |].
    exact Hget.
  - destruct (proj2 claim Scenario.ledger_U1 Scenario.key_U1
                (VStr "U1") (VStr "P1") (VStr "2020-01-01") (VStr "2020-01-31")
                (VStr "226.796185") (VStr "400") (VStr "600") (VStr "MWh")
                (VStr "eGrid 2020 STATE CA") (VStr "https://example.org/bill")
                (VStr "0cc175b9c0f1b6a831c399e269772661") (VStr "token-7"))
      as (r & Hcall & Huuid & _ & _ & Hdom).
    exists r. split; [exact Hcall |]. split; [exact Huuid |].
    apply Hdom. exists Scenario.record_U1. vm_compute. reflexivity.
Defined.

(** The client's [recordEmissions] consults [submitTransaction] at one
    call only: the transaction "recordEmissions" with the arguments
    [recordEmissions_args] that begin with the generated uuid. Two
    gateways that agree on everything else and on that call give the same
    result. *)
Lemma recordEmissions_submits (L : Language) (G1 G2 : Gateway)
    (userId orgName utilityId partyId fromDate thruDate energyUseAmount
       energyUseUom : JsVal) :
  @buildWallet G1 orgName = @buildWallet G2 orgName ->
  @connect G1 userId = @connect G2 userId ->
  @getContract G1 = @getContract G2 ->
  @getNewUuid G1 = @getNewUuid G2 ->
  @disconnect G1 = @disconnect G2 ->
  (forall uuid : JsVal,
      @getNewUuid G1 = Normal uuid ->
      @submitTransaction G1 "recordEmissions"
        (EmissionsContractInvoke.recordEmissions_args uuid utilityId partyId
           fromDate thruDate energyUseAmount energyUseUom)
      = @submitTransaction G2 "recordEmissions"
          (EmissionsContractInvoke.recordEmissions_args uuid utilityId partyId
             fromDate thruDate energyUseAmount energyUseUom)) ->
  @EmissionsContractInvoke.recordEmissions L G1 userId orgName utilityId
    partyId fromDate thruDate energyUseAmount energyUseUom
  = @EmissionsContractInvoke.recordEmissions L G2 userId orgName utilityId
      partyId fromDate thruDate energyUseAmount energyUseUom.
Proof.
  intros Hwallet Hconnect Hcontract Huuid Hdisconnect Hsubmit.
  unfold EmissionsContractInvoke.recordEmissions,
    EmissionsContractInvoke.recordEmissions_try.
  rewrite Hwallet, Hconnect, Hcontract, Hdisconnect.
  destruct (@buildWallet G2 orgName); [| reflexivity]. cbn [bind].
  destruct (@connect G2 userId); [| reflexivity].
  destruct (@getContract G2); [| reflexivity]. cbn [bind].
  destruct (@getNewUuid G1) as [uuid |] eqn:Hnew; rewrite <- Huuid;
    [| reflexivity].
  cbn [bind]. rewrite (Hsubmit uuid eq_refl). reflexivity.
Qed.

(** The shift on the ledger of the scenario: the contract looks for the
    utility that the generated uuid names. *)
Example scenario_shifted_call :
  @invoke_recordEmissions Scenario.language Scenario.modules ∅
    (EmissionsContractInvoke.recordEmissions_args
       (VStr "c3d0a4e2") (VStr "U1") (VStr "P1") (VStr "2020-01-01")
       (VStr "2020-01-31") (VStr "1000") (VStr "MWh"))
  = Throw (Error "NotFound: utility lookup item [c3d0a4e2]").
Proof. vm_compute. reflexivity. Qed.

(** Runs an operation of the client: its [try] block is entered only when
    the context does not give its outcome. *)
Ltac run_client :=
  unfold EmissionsContractInvoke.recordEmissions,
    EmissionsContractInvoke.getEmissionsData,
    EmissionsContractInvoke.getAllEmissionsData;
  run;
  unfold EmissionsContractInvoke.recordEmissions_try,
    EmissionsContractInvoke.getEmissionsData_try,
    EmissionsContractInvoke.getAllEmissionsData_try;
  run.

(** C9. The call of [submitTransaction] in the client's [recordEmissions]
    has eight positional arguments: the name of the transaction, then seven
    arguments of the transaction that begin with the generated uuid. The
    contract's [recordEmissions] has eight parameters, the first of which
    is [utilityId] and none of which is a uuid. Bound by position, the
    uuid is received as [utilityId], the utilityId as [partyId], the
    partyId as [fromDate], the fromDate as [thruDate], the thruDate as
    [energyUseAmount], the energyUseAmount as [energyUseUom], the
    energyUseUom as [url], and [md5] is undefined. Through a gateway that
    hands the arguments of the transaction to the contract, the
    transaction that the client submits is that shifted call: when it
    throws, the client reports its error; when it returns, its record has
    the uuid for utility, the caller's utilityId for party, partyId and
    fromDate for dates, energyUseAmount for unit and energyUseUom for url,
    and the client returns the fields of that record. *)
Theorem C9_positional_argument_shift (L : Language) (M : Modules) (G : Gateway)
    (emissionsList : gmap string EmissionsRecord)
    (toBuffer : EmissionsRecord -> string)
    (userId orgName uuid utilityId partyId fromDate thruDate energyUseAmount
       energyUseUom : JsVal) :
  let args :=
    EmissionsContractInvoke.recordEmissions_args uuid utilityId partyId
      fromDate thruDate energyUseAmount energyUseUom in
  buildWallet orgName = Normal tt ->
  connect userId = Normal tt ->
  getContract = Normal tt ->
  getNewUuid = Normal uuid ->
  (forall l : list JsVal,
      submitTransaction "recordEmissions" l
      = (r <- invoke_recordEmissions emissionsList l;;
         Normal (toBuffer (fst r)))) ->
  (* the arguments of the call and the parameters of the contract *)
  (List.length (VStr "recordEmissions" :: args) = 8%nat /\
   List.length args = 7%nat /\
   hd VUndef args = uuid /\
   List.length recordEmissions_parameters = 8%nat /\
   hd "" recordEmissions_parameters = "utilityId" /\
   ~ In "uuid" recordEmissions_parameters /\
   bind_parameters recordEmissions_parameters args
   = [("utilityId", uuid); ("partyId", utilityId); ("fromDate", partyId);
      ("thruDate", fromDate); ("energyUseAmount", thruDate);
      ("energyUseUom", energyUseAmount); ("url", energyUseUom);
      ("md5", VUndef)] /\
   invoke_recordEmissions emissionsList args
   = recordEmissions emissionsList uuid utilityId partyId fromDate thruDate
       energyUseAmount energyUseUom VUndef) /\
  (* the transaction that the client submits is the shifted call *)
  submitTransaction "recordEmissions" args
  = (r <- recordEmissions emissionsList uuid utilityId partyId fromDate
            thruDate energyUseAmount energyUseUom VUndef;;
     Normal (toBuffer (fst r))) /\
  (* the failure of the shifted call is the failure that the client reports *)
  (forall e : JsError,
      recordEmissions emissionsList uuid utilityId partyId fromDate thruDate
        energyUseAmount energyUseUom VUndef = Throw e ->
      EmissionsContractInvoke.recordEmissions userId orgName utilityId partyId
        fromDate thruDate energyUseAmount energyUseUom
      = Normal
          (VObj [("info", VStr ("Failed to submit transaction: "
                                +:+ error_toString e));
                 ("utilityId", utilityId); ("partyId", partyId);
                 ("fromDate", fromDate); ("thruDate", thruDate);
                 ("energyUseAmount", energyUseAmount);
                 ("energyUseUom", energyUseUom)])) /\
  (* the record of the shifted call is the record that the client returns *)
  (forall (emissionsRecord : EmissionsRecord)
          (emissionsList' : gmap string EmissionsRecord)
          (props : list (string * JsVal)),
      recordEmissions emissionsList uuid utilityId partyId fromDate thruDate
        energyUseAmount energyUseUom VUndef
      = Normal (emissionsRecord, emissionsList') ->
      JSON_parse (toBuffer emissionsRecord) = Normal (VObj props) ->
      disconnect = Normal tt ->
      (exists (key : string) (amount renewable nonrenewable : number)
              (source : JsVal),
          emissionsRecord
          = createInstance key uuid utilityId partyId fromDate
              amount renewable nonrenewable energyUseAmount source
              energyUseUom VUndef VNull) /\
      EmissionsContractInvoke.recordEmissions userId orgName utilityId partyId
        fromDate thruDate energyUseAmount energyUseUom
      = Normal
          (VObj [("info", VStr "EMISSION RECORDED TO LEDGER");
                 ("utilityId", field props "utilityId");
                 ("partyId", field props "partyId");
                 ("fromDate", field props "fromDate");
                 ("thruDate", field props "thruDate");
                 ("energyUseAmount", field props "emissionsAmount");
                 ("energyUseUom", field props "energyUseUom");
                 ("renewableEnergyUseAmount",
                  field props "renewableEnergyUseAmount");
                 ("nonrenewableEnergyUseAmount",
                  field props "nonrenewableEnergyUseAmount");
                 ("factorSource", field props "factorSource")])).
Proof.
  cbv zeta. intros Hwallet Hconnect Hcontract Huuid Hsubmit.
  split; [| split; [| split]].
  - repeat split.
    cbn. intros H. repeat (destruct H as [H | H]; [discriminate |]). exact H.
  - apply Hsubmit.
  - intros e Hcall.
    pose proof (Hsubmit (EmissionsContractInvoke.recordEmissions_args uuid
                           utilityId partyId fromDate thruDate energyUseAmount
                           energyUseUom)) as Hs.
    change (invoke_recordEmissions emissionsList
              (EmissionsContractInvoke.recordEmissions_args uuid utilityId
                 partyId fromDate thruDate energyUseAmount energyUseUom))
      with (recordEmissions emissionsList uuid utilityId partyId fromDate
              thruDate energyUseAmount energyUseUom VUndef) in Hs.
    rewrite Hcall in Hs. cbn [bind] in Hs.
    run_client. reflexivity.
  - intros emissionsRecord emissionsList' props Hcall Hparse Hdisconnect.
    pose proof (Hsubmit (EmissionsContractInvoke.recordEmissions_args uuid
                           utilityId partyId fromDate thruDate energyUseAmount
                           energyUseUom)) as Hs.
    change (invoke_recordEmissions emissionsList
              (EmissionsContractInvoke.recordEmissions_args uuid utilityId
                 partyId fromDate thruDate energyUseAmount energyUseUom))
      with (recordEmissions emissionsList uuid utilityId partyId fromDate
              thruDate energyUseAmount energyUseUom VUndef) in Hs.
    rewrite Hcall in Hs. cbn [bind fst] in Hs.
    split; [| run_client; reflexivity].
    unfold recordEmissions in Hcall.
    destruct (getCo2Emissions uuid fromDate thruDate energyUseAmount)
      as [co2Emissions |]; [| discriminate].
    cbn [bind] in Hcall. injection Hcall as <- _. eauto 6.
Qed.

(** C9 on the scenario: on its ledger the contract looks for the utility
    that the generated uuid names, and the client reports that failure;
    on a ledger where the uuid names the utility of the scenario, the
    record is that of the party "U1" from "P1" to "2020-01-01", and its
    amounts, computed from the usage "2020-01-31", are NaN. *)
Lemma C9_positional_argument_shift_witness :
  @EmissionsContractInvoke.recordEmissions Scenario.language
    (@Cases.gateway_of_contract Scenario.language Scenario.modules ∅)
    (VStr "admin") (VStr "auditor1") (VStr "U1") (VStr "P1")
    (VStr "2020-01-01") (VStr "2020-01-31") (VStr "1000") (VStr "MWh")
  = Normal
      (VObj [("info",
              VStr "Failed to submit transaction: Error: NotFound: utility lookup item [c3d0a4e2]");
             ("utilityId", VStr "U1"); ("partyId", VStr "P1");
             ("fromDate", VStr "2020-01-01"); ("thruDate", VStr "2020-01-31");
             ("energyUseAmount", VStr "1000"); ("energyUseUom", VStr "MWh")])
  /\
  @EmissionsContractInvoke.recordEmissions Scenario.language
    (@Cases.gateway_of_contract Scenario.language Cases.modules_uuid ∅)
    (VStr "admin") (VStr "auditor1") (VStr "U1") (VStr "P1")
    (VStr "2020-01-01") (VStr "2020-01-31") (VStr "1000") (VStr "MWh")
  = Normal
      (VObj [("info", VStr "EMISSION RECORDED TO LEDGER");
             ("utilityId", VStr "c3d0a4e2"); ("partyId", VStr "U1");
             ("fromDate", VStr "P1"); ("thruDate", VStr "2020-01-01");
             ("energyUseAmount", VNull); ("energyUseUom", VStr "1000");
             ("renewableEnergyUseAmount", VNull);
             ("nonrenewableEnergyUseAmount", VNull);
             ("factorSource", VStr "eGrid 2020 STATE CA")]).
Proof.
  split.
  - refine (proj1 (proj2 (proj2
              (C9_positional_argument_shift Scenario.language Scenario.modules
                 (@Cases.gateway_of_contract Scenario.language
                    Scenario.modules ∅)
                 ∅ (@Cases.toBuffer Scenario.language)
                 (VStr "admin") (VStr "auditor1") (VStr "c3d0a4e2")
                 (VStr "U1") (VStr "P1") (VStr "2020-01-01")
                 (VStr "2020-01-31") (VStr "1000") (VStr "MWh")
                 eq_refl eq_refl eq_refl eq_refl (fun l => eq_refl))))
              (Error "NotFound: utility lookup item [c3d0a4e2]") _).
    vm_compute. reflexivity.
  - refine (proj2 (proj2 (proj2 (proj2
                 (C9_positional_argument_shift Scenario.language
                    Cases.modules_uuid
                    (@Cases.gateway_of_contract Scenario.language
                       Cases.modules_uuid ∅)
                    ∅ (@Cases.toBuffer Scenario.language)
                    (VStr "admin") (VStr "auditor1") (VStr "c3d0a4e2")
                    (VStr "U1") (VStr "P1") (VStr "2020-01-01")
                    (VStr "2020-01-31") (VStr "1000") (VStr "MWh")
                    eq_refl eq_refl eq_refl eq_refl (fun l => eq_refl))))
              Cases.record_shifted Cases.ledger_shifted
              [("uuid", VStr "15d3a3098294a1c782505fa99ca82cbd");
               ("utilityId", VStr "c3d0a4e2"); ("partyId", VStr "U1");
               ("fromDate", VStr "P1"); ("thruDate", VStr "2020-01-01");
               ("emissionsAmount", VNull); ("renewableEnergyUseAmount", VNull);
               ("nonrenewableEnergyUseAmount", VNull);
               ("energyUseUom", VStr "1000");
               ("factorSource", VStr "eGrid 2020 STATE CA")]
              _ _ _)); vm_compute; reflexivity.
Defined.

(** ** Claims on the client *)

Lemma try_catch_returns {A : Type} (body : Completion A)
    (handler : JsError -> Completion A) :
  (forall e : JsError, exists a : A, handler e = Normal a) ->
  exists a : A, try_catch body handler = Normal a.
Proof.
  intros Hhandler. destruct body as [a | e]; cbn; [eauto | apply Hhandler].
Qed.

(** C8, as the specification states it, fails: when the gateway refuses the
    connection, [recordEmissions] returns the string "ERROR: " followed by
    the error, which is not a result object and has no field [info]. *)
Lemma C8_connect_error_counterexample :
  @EmissionsContractInvoke.recordEmissions Scenario.language
    Scenario.gateway_refused
    (VStr "admin") (VStr "auditor1") (VStr "U1") (VStr "P1")
    (VStr "2020-01-01") (VStr "2020-01-31") (VStr "1000") (VStr "MWh")
  = Normal (VStr "ERROR: Error: connect ECONNREFUSED").
Proof. vm_compute. reflexivity. Qed.

(** When the gateway connects and the evaluation fails,
    [getAllEmissionsData] returns the empty array: the object that its
    [catch] block builds, with the field [info], is dropped. *)
Lemma getAllEmissionsData_failure_is_empty :
  @EmissionsContractInvoke.getAllEmissionsData Scenario.language
    Scenario.gateway_rejecting
    (VStr "admin") (VStr "auditor1") (VStr "U1") (VStr "P1")
  = Normal (VArr []).
Proof. vm_compute. reflexivity. Qed.

(** C8, amended. None of [recordEmissions], [getEmissionsData] and
    [getAllEmissionsData] throws. When [gateway.connect] throws, each of
    the three returns the string "ERROR: " followed by the error. When
    another step of [recordEmissions] throws (among them the submission
    and the parsing of its result), it returns the object with [info] =
    "Failed to submit transaction: " followed by the error, and the
    caller's utilityId, partyId, fromDate, thruDate, energyUseAmount and
    energyUseUom; when another step of [getEmissionsData] throws (among
    them the evaluation and the parsing of its result), it returns the
    object with [info] = "Failed to evaluate transaction: " followed by
    the error, and the caller's uuid. *)
Theorem C8_client_failure_shaping (L : Language) (G : Gateway)
    (userId orgName : JsVal) :
  let submit_failure utilityId partyId fromDate thruDate energyUseAmount
        energyUseUom error :=
    VObj [("info", VStr ("Failed to submit transaction: " +:+ error_toString error));
          ("utilityId", utilityId); ("partyId", partyId);
          ("fromDate", fromDate); ("thruDate", thruDate);
          ("energyUseAmount", energyUseAmount);
          ("energyUseUom", energyUseUom)] in
  let evaluate_failure uuid error :=
    VObj [("info", VStr ("Failed to evaluate transaction: " +:+ error_toString error));
          ("uuid", uuid)] in
  (* no exception leaves the client *)
  ((forall utilityId partyId fromDate thruDate energyUseAmount energyUseUom,
       exists v : JsVal,
         EmissionsContractInvoke.recordEmissions userId orgName utilityId
           partyId fromDate thruDate energyUseAmount energyUseUom = Normal v) /\
   (forall uuid,
       exists v : JsVal,
         EmissionsContractInvoke.getEmissionsData userId orgName uuid = Normal v) /\
   (forall utilityId partyId,
       exists v : JsVal,
         EmissionsContractInvoke.getAllEmissionsData userId orgName utilityId
           partyId = Normal v))
  /\
  (* a connect error *)
  (forall err : JsError,
      buildWallet orgName = Normal tt ->
      connect userId = Throw err ->
      (forall utilityId partyId fromDate thruDate energyUseAmount energyUseUom,
          EmissionsContractInvoke.recordEmissions userId orgName utilityId
            partyId fromDate thruDate energyUseAmount energyUseUom
          = Normal (VStr ("ERROR: " +:+ error_toString err))) /\
      (forall uuid,
          EmissionsContractInvoke.getEmissionsData userId orgName uuid
          = Normal (VStr ("ERROR: " +:+ error_toString err))) /\
      (forall utilityId partyId,
          EmissionsContractInvoke.getAllEmissionsData userId orgName utilityId
            partyId
          = Normal (VStr ("ERROR: " +:+ error_toString err))))
  /\
  (* the other failures of recordEmissions *)
  ((forall utilityId partyId fromDate thruDate energyUseAmount energyUseUom error,
       EmissionsContractInvoke.recordEmissions_try userId orgName utilityId
         partyId fromDate thruDate energyUseAmount energyUseUom = Throw error ->
       EmissionsContractInvoke.recordEmissions userId orgName utilityId
         partyId fromDate thruDate energyUseAmount energyUseUom
       = Normal (submit_failure utilityId partyId fromDate thruDate
                   energyUseAmount energyUseUom error)) /\
   (forall utilityId partyId fromDate thruDate energyUseAmount energyUseUom
           uuid error,
       buildWallet orgName = Normal tt -> connect userId = Normal tt ->
       getContract = Normal tt -> getNewUuid = Normal uuid ->
       submitTransaction "recordEmissions"
         (EmissionsContractInvoke.recordEmissions_args uuid utilityId partyId
            fromDate thruDate energyUseAmount energyUseUom) = Throw error ->
       EmissionsContractInvoke.recordEmissions userId orgName utilityId
         partyId fromDate thruDate energyUseAmount energyUseUom
       = Normal (submit_failure utilityId partyId fromDate thruDate
                   energyUseAmount energyUseUom error)) /\
   (forall utilityId partyId fromDate thruDate energyUseAmount energyUseUom
           uuid stringResult error,
       buildWallet orgName = Normal tt -> connect userId = Normal tt ->
       getContract = Normal tt -> getNewUuid = Normal uuid ->
       submitTransaction "recordEmissions"
         (EmissionsContractInvoke.recordEmissions_args uuid utilityId partyId
            fromDate thruDate energyUseAmount energyUseUom)
       = Normal stringResult ->
       JSON_parse stringResult = Throw error ->
       EmissionsContractInvoke.recordEmissions userId orgName utilityId
         partyId fromDate thruDate energyUseAmount energyUseUom
       = Normal (submit_failure utilityId partyId fromDate thruDate
                   energyUseAmount energyUseUom error)))
  /\
  (* the other failures of getEmissionsData *)
  ((forall uuid error,
       EmissionsContractInvoke.getEmissionsData_try userId orgName uuid
       = Throw error ->
       EmissionsContractInvoke.getEmissionsData userId orgName uuid
       = Normal (evaluate_failure uuid error)) /\
   (forall uuid error,
       buildWallet orgName = Normal tt -> connect userId = Normal tt ->
       getContract = Normal tt ->
       evaluateTransaction "getEmissionsData" [uuid] = Throw error ->
       EmissionsContractInvoke.getEmissionsData userId orgName uuid
       = Normal (evaluate_failure uuid error)) /\
   (forall uuid stringResult error,
       buildWallet orgName = Normal tt -> connect userId = Normal tt ->
       getContract = Normal tt ->
       evaluateTransaction "getEmissionsData" [uuid] = Normal stringResult ->
       JSON_parse stringResult = Throw error ->
       EmissionsContractInvoke.getEmissionsData userId orgName uuid
       = Normal (evaluate_failure uuid error))).
Proof.
  cbv zeta. split; [| split; [| split]].
  - repeat split; intros; apply try_catch_returns; intros e; eexists; reflexivity.
  - intros err Hwallet Hconnect. repeat split; intros; run_client; reflexivity.
  - split; [| split]; intros; run_client; reflexivity.
  - split; [| split]; intros; run_client; reflexivity.
Qed.

(** C8, amended, on three gateways: one that refuses the connection, one
    that rejects the transactions, one whose results are not JSON. *)
Lemma C8_client_failure_shaping_witness :
  (@EmissionsContractInvoke.recordEmissions Scenario.language
     Scenario.gateway_refused
     (VStr "admin") (VStr "auditor1") (VStr "U1") (VStr "P1")
     (VStr "2020-01-01") (VStr "2020-01-31") (VStr "1000") (VStr "MWh")
   = Normal (VStr "ERROR: Error: connect ECONNREFUSED") /\
   @EmissionsContractInvoke.getEmissionsData Scenario.language
     Scenario.gateway_refused (VStr "admin") (VStr "auditor1")
     (VStr Scenario.key_U1)
   = Normal (VStr "ERROR: Error: connect ECONNREFUSED") /\
   @EmissionsContractInvoke.getAllEmissionsData Scenario.language
     Scenario.gateway_refused (VStr "admin") (VStr "auditor1")
     (VStr "U1") (VStr "P1")
   = Normal (VStr "ERROR: Error: connect ECONNREFUSED"))
  /\
  @EmissionsContractInvoke.recordEmissions Scenario.language
    Scenario.gateway_rejecting
    (VStr "admin") (VStr "auditor1") (VStr "U1") (VStr "P1")
    (VStr "2020-01-01") (VStr "2020-01-31") (VStr "1000") (VStr "MWh")
  = Normal
      (VObj [("info", VStr "Failed to submit transaction: Error: endorsement failed");
             ("utilityId", VStr "U1"); ("partyId", VStr "P1");
             ("fromDate", VStr "2020-01-01"); ("thruDate", VStr "2020-01-31");
             ("energyUseAmount", VStr "1000"); ("energyUseUom", VStr "MWh")])
  /\
  @EmissionsContractInvoke.recordEmissions Scenario.language
    Scenario.gateway_garbled
    (VStr "admin") (VStr "auditor1") (VStr "U1") (VStr "P1")
    (VStr "2020-01-01") (VStr "2020-01-31") (VStr "1000") (VStr "MWh")
  = Normal
      (VObj [("info",
              VStr "Failed to submit transaction: SyntaxError: Unexpected token in JSON");
             ("utilityId", VStr "U1"); ("partyId", VStr "P1");
             ("fromDate", VStr "2020-01-01"); ("thruDate", VStr "2020-01-31");
             ("energyUseAmount", VStr "1000"); ("energyUseUom", VStr "MWh")])
  /\
  @EmissionsContractInvoke.getEmissionsData Scenario.language
    Scenario.gateway_rejecting (VStr "admin") (VStr "auditor1")
    (VStr Scenario.key_U1)
  = Normal
      (VObj [("info", VStr "Failed to evaluate transaction: Error: endorsement failed");
             ("uuid", VStr Scenario.key_U1)])
  /\
  @EmissionsContractInvoke.getEmissionsData Scenario.language
    Scenario.gateway_garbled (VStr "admin") (VStr "auditor1")
    (VStr Scenario.key_U1)
  = Normal
      (VObj [("info",
              VStr "Failed to evaluate transaction: SyntaxError: Unexpected token in JSON");
             ("uuid", VStr Scenario.key_U1)]).
Proof.
  pose (refused := C8_client_failure_shaping Scenario.language
                     Scenario.gateway_refused (VStr "admin") (VStr "auditor1")).
  pose (rejecting := C8_client_failure_shaping Scenario.language
                       Scenario.gateway_rejecting (VStr "admin") (VStr "auditor1")).
  pose (garbled := C8_client_failure_shaping Scenario.language
                     Scenario.gateway_garbled (VStr "admin") (VStr "auditor1")).
  split; [| split; [| split; [| split]]].
  - destruct (proj1 (proj2 refused) (Error "connect ECONNREFUSED")
                eq_refl eq_refl) as (Hrecord & Hget & Hall).
    split; [apply Hrecord |]. split; [apply Hget | apply Hall].
  - exact (proj1 (proj2 (proj1 (proj2 (proj2 rejecting))))
             (VStr "U1") (VStr "P1") (VStr "2020-01-01") (VStr "2020-01-31")
             (VStr "1000") (VStr "MWh") (VStr "c3d0a4e2")
             (Error "endorsement failed")
             eq_refl eq_refl eq_refl eq_refl eq_refl).
  - exact (proj2 (proj2 (proj1 (proj2 (proj2 garbled))))
             (VStr "U1") (VStr "P1") (VStr "2020-01-01") (VStr "2020-01-31")
             (VStr "1000") (VStr "MWh") (VStr "c3d0a4e2") "<html>"
             (SyntaxError "Unexpected token in JSON")
             eq_refl eq_refl eq_refl eq_refl eq_refl eq_refl).
  - exact (proj1 (proj2 (proj2 (proj2 (proj2 rejecting))))
             (VStr Scenario.key_U1) (Error "endorsement failed")
             eq_refl eq_refl eq_refl eq_refl).
  - exact (proj2 (proj2 (proj2 (proj2 (proj2 garbled))))
             (VStr Scenario.key_U1) "<html>"
             (SyntaxError "Unexpected token in JSON")
             eq_refl eq_refl eq_refl eq_refl eq_refl).
Defined.

(** * Further properties *)

(** ** The resolution of the division, on every lookup item *)

Lemma get_prop_defined (v : JsVal) (k k' : string) (x : JsVal) :
  get_prop v k = Normal x -> exists y : JsVal, get_prop v k' = Normal y.
Proof.
  destruct v; cbn; intros H; try discriminate; eauto.
Qed.

Lemma call_toLowerCase_inv (v : JsVal) (t : string) :
  call_toLowerCase v = Normal t -> exists s : string, v = VStr s /\ t = toLowerCase s.
Proof.
  destruct v; cbn; intros H; try discriminate.
  injection H as <-. eauto.
Qed.

Lemma call_toLowerCase_not_string (v : JsVal) :
  (forall s : string, v <> VStr s) ->
  exists e : JsError, call_toLowerCase v = Throw e /\ err_name e = "TypeError".
Proof.
  intros Hv. destruct v; cbn; eauto. now destruct (Hv s).
Qed.

(** X1. Whatever the lookup item, a division that the resolution returns
    has one of four forms: the [state_province] of the item, with the
    type "STATE"; the divisions of the item themselves, as parsed, whose
    type is "nerc_region" up to case; the identifier of those divisions,
    a string other than "usa" up to case, with the type "Country"; or
    USA, with the type "COUNTRY". *)
Theorem X1_resolved_division_forms (L : Language)
    (utilityLookup : string) (division : JsVal) :
  newDivision utilityLookup = Normal division ->
  exists item divisions fetchedDivisions : JsVal,
    JSON_parse utilityLookup = Normal item /\
    get_prop item "divisions" = Normal divisions /\
    JSON_parse (ToString divisions) = Normal fetchedDivisions /\
    ((exists state_province : JsVal,
         get_prop item "state_province" = Normal state_province /\
         division = VObj [("division_id", state_province);
                          ("division_type", VStr "STATE")]) \/
     (division = fetchedDivisions /\
      exists type : string,
        get_prop fetchedDivisions "division_type" = Normal (VStr type) /\
        toLowerCase type = "nerc_region") \/
     (exists id : string,
         get_prop fetchedDivisions "division_id" = Normal (VStr id) /\
         division = VObj [("division_id", VStr id);
                          ("division_type", VStr "Country")] /\
         toLowerCase id <> "usa") \/
     division = VObj [("division_id", VStr "USA");
                      ("division_type", VStr "COUNTRY")]).
Proof.
  unfold newDivision, hasStateData.
  destruct (JSON_parse utilityLookup) as [p |]; [| discriminate]. cbn [bind].
  destruct (get_prop p "divisions") as [d |] eqn:Hd; [| discriminate].
  cbn [bind].
  destruct (JSON_parse (ToString d)) as [fd |] eqn:Hfd; [| discriminate].
  cbn [bind].
  destruct (get_prop fd "division_type") as [ty |] eqn:Hty; [| discriminate].
  cbn [bind].
  destruct (get_prop fd "division_id") as [id |] eqn:Hid; [| discriminate].
  cbn [bind].
  destruct (call_toLowerCase ty) as [t |] eqn:Ht; [| discriminate]. cbn [bind].
  apply call_toLowerCase_inv in Ht as (s & -> & ->).
  intros Hres. exists p, d, fd.
  split; [reflexivity |]. split; [exact Hd |]. split; [exact Hfd |].
  revert Hres.
  destruct (get_prop p "state_province") as [sp |]; cbn [bind].
  - destruct (0 <? String.length (template sp))%nat; cbn [truthy].
    + destruct (String.eqb (toLowerCase s) "country"); cbn [bind].
      * destruct (call_toLowerCase id); [| discriminate]. cbn [bind].
        intros H. injection H as <-. left. eauto.
      * intros H. injection H as <-. left. eauto.
    + destruct (String.eqb (toLowerCase s) "nerc_region") eqn:Hnerc.
      * apply String.eqb_eq in Hnerc.
        destruct (String.eqb (toLowerCase s) "country"); cbn [bind].
        -- destruct (call_toLowerCase id); [| discriminate]. cbn [bind].
           intros H. injection H as <-. right. left. eauto.
        -- intros H. injection H as <-. right. left. eauto.
      * destruct (String.eqb (toLowerCase s) "country"); cbn [bind].
        -- destruct (call_toLowerCase id) as [i |] eqn:Hi; [| discriminate].
           cbn [bind]. apply call_toLowerCase_inv in Hi as (s' & -> & ->).
           destruct (String.eqb (toLowerCase s') "usa") eqn:Husa; cbn [negb].
           ++ intros H. injection H as <-. auto.
           ++ apply String.eqb_neq in Husa. intros H. injection H as <-.
              right. right. left. eauto.
        -- intros H. injection H as <-. auto.
  - destruct (String.eqb (toLowerCase s) "nerc_region") eqn:Hnerc; cbn [truthy].
    + apply String.eqb_eq in Hnerc.
      destruct (String.eqb (toLowerCase s) "country"); cbn [bind].
      * destruct (call_toLowerCase id); [| discriminate]. cbn [bind].
        intros H. injection H as <-. right. left. eauto.
      * intros H. injection H as <-. right. left. eauto.
    + destruct (String.eqb (toLowerCase s) "country"); cbn [bind].
      * destruct (call_toLowerCase id) as [i |] eqn:Hi; [| discriminate].
        cbn [bind]. apply call_toLowerCase_inv in Hi as (s' & -> & ->).
        destruct (String.eqb (toLowerCase s') "usa") eqn:Husa; cbn [negb].
        -- intros H. injection H as <-. auto.
        -- apply String.eqb_neq in Husa. intros H. injection H as <-.
           right. right. left. eauto.
      * intros H. injection H as <-. auto.
Qed.

(** X1 on the utility of the scenario and on the utility of the unknown
    division. *)
Lemma X1_resolved_division_forms_witness :
  (exists item divisions fetchedDivisions : JsVal,
      @JSON_parse Scenario.language Scenario.lookup_U1 = Normal item /\
      get_prop item "divisions" = Normal divisions /\
      @JSON_parse Scenario.language (@ToString Scenario.language divisions)
      = Normal fetchedDivisions /\
      get_prop item "state_province" = Normal (VStr "CA"))
  /\
  (exists item divisions : JsVal,
      @JSON_parse Scenario.language Scenario.lookup_U4 = Normal item /\
      get_prop item "divisions" = Normal divisions /\
      @JSON_parse Scenario.language (@ToString Scenario.language divisions)
      = Normal Scenario.division_NERC_WECC).
Proof.
  split.
  - destruct (X1_resolved_division_forms Scenario.language Scenario.lookup_U1
                (VObj [("division_id", VStr "CA");
                       ("division_type", VStr "STATE")]))
      as (item & divisions & fetchedDivisions & Hitem & Hdiv & Hparse & Hform).
    + vm_compute. reflexivity.
    + exists item, divisions, fetchedDivisions.
      split; [exact Hitem |]. split; [exact Hdiv |]. split; [exact Hparse |].
      destruct Hform as [(sp & Hsp & Heq) | [(Heq & _) | [(id & _ & Heq & _) | Heq]]].
      * injection Heq as <-. exact Hsp.
      * exfalso. revert Heq.
        assert (H : fetchedDivisions = Scenario.division_country_USA).
        { vm_compute in Hitem. injection Hitem as <-.
          vm_compute in Hdiv. injection Hdiv as <-.
          vm_compute in Hparse. injection Hparse as <-. reflexivity. }
        rewrite H. intros Heq. discriminate Heq.
      * discriminate Heq.
      * discriminate Heq.
  - destruct (X1_resolved_division_forms Scenario.language Scenario.lookup_U4
                Scenario.division_NERC_WECC)
      as (item & divisions & fetchedDivisions & Hitem & Hdiv & Hparse & Hform).
    + vm_compute. reflexivity.
    + exists item, divisions.
      split; [exact Hitem |]. split; [exact Hdiv |].
      destruct Hform as [(sp & _ & Heq) | [(Heq & _) | [(id & _ & Heq & _) | Heq]]].
      * discriminate Heq.
      * rewrite Heq. exact Hparse.
      * discriminate Heq.
      * discriminate Heq.
Defined.

(** X2. A lookup item whose state is the empty string and whose divisions
    have a type that is neither "nerc_region" nor "country" up to case
    resolves to USA of type "COUNTRY", whatever the identifier of its
    divisions, absent or not a string; so does one whose type is "country"
    and whose identifier is "usa", up to case. The resolution does not fail
    on a type it does not know. *)
Theorem X2_unknown_type_resolves_to_USA (L : Language)
    (utilityLookup : string) (props : list (string * JsVal))
    (fetchedDivisions : JsVal) (fetchedDivisionType : string) :
  JSON_parse utilityLookup = Normal (VObj props) ->
  field props "state_province" = VStr "" ->
  JSON_parse (ToString (field props "divisions")) = Normal fetchedDivisions ->
  get_prop fetchedDivisions "division_type" = Normal (VStr fetchedDivisionType) ->
  toLowerCase fetchedDivisionType <> "nerc_region" ->
  toLowerCase fetchedDivisionType <> "country" \/
  (exists id : string,
      get_prop fetchedDivisions "division_id" = Normal (VStr id) /\
      toLowerCase id = "usa") ->
  newDivision utilityLookup
  = Normal (VObj [("division_id", VStr "USA"); ("division_type", VStr "COUNTRY")]).
Proof.
  intros Hparse Hstate Hdiv Htype Hnerc Hcases.
  apply String.eqb_neq in Hnerc.
  destruct (get_prop_defined _ _ "division_id" _ Htype) as (id & Hid).
  unfold newDivision, hasStateData.
  rewrite Hparse. cbn [bind]. rewrite !get_prop_object. cbn [bind].
  rewrite Hdiv. cbn [bind]. rewrite Htype, Hid. cbn [bind call_toLowerCase].
  rewrite Hstate, Hnerc. cbn [template ToString String.length Nat.ltb Nat.leb truthy].
  destruct Hcases as [Hcountry | (id' & Hid' & Husa)].
  - apply String.eqb_neq in Hcountry. rewrite Hcountry. reflexivity.
  - rewrite Hid' in Hid. injection Hid as <-.
    apply String.eqb_eq in Husa.
    destruct (String.eqb (toLowerCase fetchedDivisionType) "country");
      cbn [bind call_toLowerCase]; [rewrite Husa |]; reflexivity.
Qed.

(** X2 on the utility of the balancing authority, whose divisions have no
    identifier, and on a utility of the country "Usa". *)
Lemma X2_unknown_type_resolves_to_USA_witness :
  @newDivision Scenario.language Cases.lookup_BA
  = Normal (VObj [("division_id", VStr "USA"); ("division_type", VStr "COUNTRY")])
  /\
  @newDivision Scenario.language
    (Reference.json
       "{'state_province':'','divisions':'{\'division_type\':\'COUNTRY\',\'division_id\':\'Usa\'}'}")
  = Normal (VObj [("division_id", VStr "USA"); ("division_type", VStr "COUNTRY")]).
Proof.
  split.
  - refine (X2_unknown_type_resolves_to_USA Scenario.language
              Cases.lookup_BA Cases.lookup_BA_props
              (VObj [("division_type", VStr "BALANCING_AUTHORITY")])
              "BALANCING_AUTHORITY" _ _ _ _ _ _);
      try (vm_compute; reflexivity); try (vm_compute; discriminate).
    left. vm_compute. discriminate.
  - refine (X2_unknown_type_resolves_to_USA Scenario.language _
              [("state_province", VStr "");
               ("divisions",
                VStr (Reference.json "{'division_type':'COUNTRY','division_id':'Usa'}"))]
              (VObj [("division_type", VStr "COUNTRY"); ("division_id", VStr "Usa")])
              "COUNTRY" _ _ _ _ _ _);
      try (vm_compute; reflexivity); try (vm_compute; discriminate).
    right. exists "Usa". split; vm_compute; reflexivity.
Defined.

(** X3. A state does not rescue a lookup item whose divisions are
    malformed: whatever its [state_province], the resolution throws a
    TypeError when the type of the divisions is not a string, and throws
    the error of [JSON.parse] when the divisions are not a JSON text (as
    the text "undefined" of an item without divisions); no division is
    resolved and no factor is queried. *)
Theorem X3_malformed_divisions_throw (L : Language) (M : Modules)
    (utilityLookup : string) (props : list (string * JsVal)) :
  JSON_parse utilityLookup = Normal (VObj props) ->
  (forall (fetchedDivisions type : JsVal),
      JSON_parse (ToString (field props "divisions")) = Normal fetchedDivisions ->
      get_prop fetchedDivisions "division_type" = Normal type ->
      (forall s : string, type <> VStr s) ->
      exists e : JsError,
        newDivision utilityLookup = Throw e /\ err_name e = "TypeError" /\
        forall uuid thruDate : JsVal,
          getUtilityLookupItem uuid = Normal utilityLookup ->
          getEmissionsFactor uuid thruDate = Throw e)
  /\
  (forall e : JsError,
      JSON_parse (ToString (field props "divisions")) = Throw e ->
      newDivision utilityLookup = Throw e /\
      forall uuid thruDate : JsVal,
        getUtilityLookupItem uuid = Normal utilityLookup ->
        getEmissionsFactor uuid thruDate = Throw e).
Proof.
  intros Hparse. split.
  - intros fd type Hdiv Htype Hnot.
    destruct (get_prop_defined _ _ "division_id" _ Htype) as (id & Hid).
    destruct (call_toLowerCase_not_string type Hnot) as (e & He & Hname).
    assert (Hnew : newDivision utilityLookup = Throw e).
    { unfold newDivision. rewrite Hparse. cbn [bind].
      rewrite !get_prop_object. cbn [bind]. rewrite Hdiv. cbn [bind].
      rewrite Htype, Hid. cbn [bind]. rewrite He. reflexivity. }
    exists e. split; [exact Hnew |]. split; [exact Hname |].
    intros uuid thruDate Hlookup. unfold getEmissionsFactor.
    rewrite Hlookup. cbn [bind]. rewrite Hnew. reflexivity.
  - intros e Hdiv.
    assert (Hnew : newDivision utilityLookup = Throw e).
    { unfold newDivision. rewrite Hparse. cbn [bind].
      rewrite !get_prop_object. cbn [bind]. rewrite Hdiv. reflexivity. }
    split; [exact Hnew |].
    intros uuid thruDate Hlookup. unfold getEmissionsFactor.
    rewrite Hlookup. cbn [bind]. rewrite Hnew. reflexivity.
Qed.

(** X3 on the two utilities of the state CA whose divisions have no type,
    and are absent. *)
Lemma X3_malformed_divisions_throw_witness :
  (exists e : JsError,
      @newDivision Scenario.language Cases.lookup_untyped = Throw e /\
      err_name e = "TypeError" /\
      forall uuid thruDate : JsVal,
        @getUtilityLookupItem Cases.modules uuid = Normal Cases.lookup_untyped ->
        @getEmissionsFactor Scenario.language Cases.modules uuid thruDate
        = Throw e)
  /\
  (@newDivision Scenario.language Cases.lookup_undivided
   = Throw (SyntaxError "Unexpected token in JSON") /\
   forall uuid thruDate : JsVal,
     @getUtilityLookupItem Cases.modules uuid = Normal Cases.lookup_undivided ->
     @getEmissionsFactor Scenario.language Cases.modules uuid thruDate
     = Throw (SyntaxError "Unexpected token in JSON")).
Proof.
  split.
  - refine (proj1 (X3_malformed_divisions_throw Scenario.language Cases.modules
                     Cases.lookup_untyped Cases.lookup_untyped_props _)
              (VObj []) VUndef _ _ _);
      try (vm_compute; reflexivity).
    intros s. discriminate.
  - refine (proj2 (X3_malformed_divisions_throw Scenario.language Cases.modules
                     Cases.lookup_undivided Cases.lookup_undivided_props _)
              (SyntaxError "Unexpected token in JSON") _);
      vm_compute; reflexivity.
Defined.

(** ** The failures of the lookup and of the query *)

(** X4. The failures that precede the reading of the factor reach the
    caller unchanged, through [getEmissionsFactor], [getCo2Emissions] and
    [recordEmissions]: the failure of the store to find the lookup item,
    the failure of [JSON.parse] on its text (which the first, guarded,
    parse swallows and the second rethrows), and the failure of the query
    of the factors. None of them becomes the error "No utility emissions
    factor found for given query". *)
Theorem X4_lookup_failures_propagate (L : Language) (M : Modules)
    (emissionsList : gmap string EmissionsRecord)
    (uuid partyId fromDate thruDate usage usage_uom url md5 : JsVal)
    (e : JsError) :
  getUtilityLookupItem uuid = Throw e \/
  (exists utilityLookup : string,
      getUtilityLookupItem uuid = Normal utilityLookup /\
      JSON_parse utilityLookup = Throw e) \/
  (exists (utilityLookup : string) (division id type : JsVal),
      getUtilityLookupItem uuid = Normal utilityLookup /\
      newDivision utilityLookup = Normal division /\
      get_prop division "division_id" = Normal id /\ truthy id = true /\
      get_prop division "division_type" = Normal type /\
      getUtilityEmissionsFactorsByDivision (queryParams id type thruDate)
      = Throw e) ->
  getEmissionsFactor uuid thruDate = Throw e /\
  getCo2Emissions uuid thruDate usage usage_uom = Throw e /\
  recordEmissions emissionsList uuid partyId fromDate thruDate usage usage_uom
    url md5 = Throw e.
Proof.
  intros Hcases.
  assert (Hfactor : getEmissionsFactor uuid thruDate = Throw e).
  { unfold getEmissionsFactor.
    destruct Hcases as [Hlookup | [(text & Hlookup & Hparse)
                       | (text & division & id & type & Hlookup & Hnew & Hid
                          & Htruthy & Htype & Hquery)]].
    - rewrite Hlookup. reflexivity.
    - rewrite Hlookup. cbn [bind]. unfold newDivision.
      rewrite Hparse. reflexivity.
    - run. rewrite Htruthy. cbn [negb]. run. reflexivity. }
  assert (Hco2 : getCo2Emissions uuid thruDate usage usage_uom = Throw e)
    by (unfold getCo2Emissions; rewrite Hfactor; reflexivity).
  repeat split; [exact Hfactor | exact Hco2 |].
  unfold recordEmissions. rewrite Hco2. reflexivity.
Qed.

(** X4 on a utility that the ledger does not have, on the utility whose
    item is not a JSON text, and on a query that fails. *)
Lemma X4_lookup_failures_propagate_witness :
  @recordEmissions Scenario.language Cases.modules ∅
    (VStr "U0") (VStr "P1") (VStr "2020-01-01") (VStr "2020-01-31")
    (VStr "1000") (VStr "MWh") VUndef VUndef
  = Throw (Error "NotFound: utility lookup item [U0]")
  /\
  @recordEmissions Scenario.language Cases.modules ∅
    (VStr "U8") (VStr "P1") (VStr "2020-01-01") (VStr "2020-01-31")
    (VStr "1000") (VStr "MWh") VUndef VUndef
  = Throw (SyntaxError "Unexpected token in JSON")
  /\
  @getCo2Emissions Scenario.language
    (Cases.modules_returning (Throw (Error "ledger unavailable")))
    (VStr "U1") (VStr "2020-01-31") (VStr "1000") (VStr "MWh")
  = Throw (Error "ledger unavailable").
Proof.
  split; [| split].
  - refine (proj2 (proj2 (X4_lookup_failures_propagate Scenario.language
                            Cases.modules ∅ (VStr "U0") (VStr "P1")
                            (VStr "2020-01-01") (VStr "2020-01-31")
                            (VStr "1000") (VStr "MWh") VUndef VUndef
                            (Error "NotFound: utility lookup item [U0]") _))).
    left. vm_compute. reflexivity.
  - refine (proj2 (proj2 (X4_lookup_failures_propagate Scenario.language
                            Cases.modules ∅ (VStr "U8") (VStr "P1")
                            (VStr "2020-01-01") (VStr "2020-01-31")
                            (VStr "1000") (VStr "MWh") VUndef VUndef
                            (SyntaxError "Unexpected token in JSON") _))).
    right. left. exists "<html>". split; vm_compute; reflexivity.
  - refine (proj1 (proj2 (X4_lookup_failures_propagate Scenario.language
                            (Cases.modules_returning
                               (Throw (Error "ledger unavailable")))
                            ∅ (VStr "U1") VUndef VUndef (VStr "2020-01-31")
                            (VStr "1000") (VStr "MWh") VUndef VUndef
                            (Error "ledger unavailable") _))).
    right. right.
    exists Scenario.lookup_U1,
      (VObj [("division_id", VStr "CA"); ("division_type", VStr "STATE")]),
      (VStr "CA"), (VStr "STATE").
    repeat split; vm_compute; reflexivity.
Defined.

(** X5. Once the query of the factors has returned, every failure to read
    the record of a first row is reported as the error "No utility
    emissions factor found for given query": a text that is not JSON,
    whatever the error of [JSON.parse]; a value without first element (an
    empty array, a number, an object); a first element [null];
    and the value [null] itself. The error of the parser is lost. *)
Theorem X5_unreadable_factors_are_NoFactorFound (L : Language) (M : Modules)
    (uuid thruDate usage usage_uom : JsVal) (utilityFactors : string) :
  getEmissionsFactor uuid thruDate = Normal utilityFactors ->
  (exists e : JsError, JSON_parse utilityFactors = Throw e) \/
  JSON_parse utilityFactors = Normal VNull \/
  (exists rows first : JsVal,
      JSON_parse utilityFactors = Normal rows /\
      get_index rows 0 = Normal first /\
      (first = VUndef \/ first = VNull)) ->
  getCo2Emissions uuid thruDate usage usage_uom
  = Throw (Error "No utility emissions factor found for given query") /\
  forall (emissionsList : gmap string EmissionsRecord)
         (partyId fromDate url md5 : JsVal),
    recordEmissions emissionsList uuid partyId fromDate thruDate usage
      usage_uom url md5
    = Throw (Error "No utility emissions factor found for given query").
Proof.
  intros Hfactor Hcases.
  assert (Hco2 : getCo2Emissions uuid thruDate usage usage_uom
                 = Throw (Error "No utility emissions factor found for given query")).
  { unfold getCo2Emissions. rewrite Hfactor. cbn [bind].
    destruct Hcases as [(e & Hparse) | [Hparse
                       | (rows & first & Hparse & Hfirst & Hnone)]];
      rewrite Hparse; cbn [bind try_catch get_index]; try reflexivity.
    rewrite Hfirst. destruct Hnone as [-> | ->]; reflexivity. }
  split; [exact Hco2 |].
  intros emissionsList partyId fromDate url md5.
  unfold recordEmissions. rewrite Hco2. reflexivity.
Qed.

(** X5 on the utility of the scenario, with queries that return a page of
    HTML, the number 7, and an array that begins with [null]. *)
Lemma X5_unreadable_factors_are_NoFactorFound_witness :
  @getCo2Emissions Scenario.language (Cases.modules_returning (Normal "<html>"))
    (VStr "U1") (VStr "2020-01-31") (VStr "1000") (VStr "MWh")
  = Throw (Error "No utility emissions factor found for given query")
  /\
  @getCo2Emissions Scenario.language (Cases.modules_returning (Normal "7"))
    (VStr "U1") (VStr "2020-01-31") (VStr "1000") (VStr "MWh")
  = Throw (Error "No utility emissions factor found for given query")
  /\
  @getCo2Emissions Scenario.language (Cases.modules_returning (Normal "[null]"))
    (VStr "U1") (VStr "2020-01-31") (VStr "1000") (VStr "MWh")
  = Throw (Error "No utility emissions factor found for given query").
Proof.
  split; [| split].
  - refine (proj1 (X5_unreadable_factors_are_NoFactorFound Scenario.language
                     (Cases.modules_returning (Normal "<html>"))
                     (VStr "U1") (VStr "2020-01-31") (VStr "1000") (VStr "MWh")
                     "<html>" _ _)).
    + vm_compute. reflexivity.
    + left. exists (SyntaxError "Unexpected token in JSON").
      vm_compute. reflexivity.
  - refine (proj1 (X5_unreadable_factors_are_NoFactorFound Scenario.language
                     (Cases.modules_returning (Normal "7"))
                     (VStr "U1") (VStr "2020-01-31") (VStr "1000") (VStr "MWh")
                     "7" _ _)).
    + vm_compute. reflexivity.
    + right. right. exists (VNum (Finite 7)), VUndef.
      repeat split; try (vm_compute; reflexivity). left. reflexivity.
  - refine (proj1 (X5_unreadable_factors_are_NoFactorFound Scenario.language
                     (Cases.modules_returning (Normal "[null]"))
                     (VStr "U1") (VStr "2020-01-31") (VStr "1000") (VStr "MWh")
                     "[null]" _ _)).
    + vm_compute. reflexivity.
    + right. right. exists (VArr [VNull]), VNull.
      repeat split; try (vm_compute; reflexivity). right. reflexivity.
Defined.

(** X6. A first row that is an object without [Record] is not reported as
    a missing factor: the factor is [undefined], the calculation reads
    [percent_of_renewables] from it, and [getCo2Emissions] and
    [recordEmissions] throw a TypeError. *)
Theorem X6_row_without_record_is_TypeError (L : Language) (M : Modules)
    (uuid thruDate usage usage_uom : JsVal) (utilityFactors : string)
    (row : list (string * JsVal)) (rows : list JsVal) :
  getEmissionsFactor uuid thruDate = Normal utilityFactors ->
  JSON_parse utilityFactors = Normal (VArr (VObj row :: rows)) ->
  assoc "Record" row = None ->
  exists e : JsError,
    err_name e = "TypeError" /\
    getCo2Emissions uuid thruDate usage usage_uom = Throw e /\
    forall (emissionsList : gmap string EmissionsRecord)
           (partyId fromDate url md5 : JsVal),
      recordEmissions emissionsList uuid partyId fromDate thruDate usage
        usage_uom url md5 = Throw e.
Proof.
  intros Hfactor Hparse Hrecord.
  eexists. split; [| split].
  2: { rewrite (getCo2Emissions_first_row _ _ _ _ _ _ _ Hfactor Hparse).
       unfold field. rewrite Hrecord. reflexivity. }
  - reflexivity.
  - intros emissionsList partyId fromDate url md5. unfold recordEmissions.
    rewrite (getCo2Emissions_first_row _ _ _ _ _ _ _ Hfactor Hparse).
    unfold field. rewrite Hrecord. reflexivity.
Qed.

(** X6 on a query that returns a row with a key only. *)
Lemma X6_row_without_record_is_TypeError_witness :
  exists e : JsError,
    err_name e = "TypeError" /\
    @getCo2Emissions Scenario.language
      (Cases.modules_returning (Normal Cases.rows_without_record))
      (VStr "U1") (VStr "2020-01-31") (VStr "1000") (VStr "MWh") = Throw e /\
    forall (emissionsList : gmap string EmissionsRecord)
           (partyId fromDate url md5 : JsVal),
      @recordEmissions Scenario.language
        (Cases.modules_returning (Normal Cases.rows_without_record))
        emissionsList (VStr "U1") partyId fromDate (VStr "2020-01-31")
        (VStr "1000") (VStr "MWh") url md5 = Throw e.
Proof.
  refine (X6_row_without_record_is_TypeError Scenario.language
            (Cases.modules_returning (Normal Cases.rows_without_record))
            (VStr "U1") (VStr "2020-01-31") (VStr "1000") (VStr "MWh")
            Cases.rows_without_record [("Key", VStr "STATE/CA")] [] _ _ _);
    vm_compute; reflexivity.
Defined.

(** ** The record that [recordEmissions] stores *)

Section Records.
Context {L : Language} {M : Modules}.

(** The provenance of a result of the calculation is that of the factor. *)
Lemma calculate_provenance (props : list (string * JsVal))
    (usage usage_uom : JsVal) (res : Co2Emissions) :
  calculate (VObj props) usage usage_uom = Normal res ->
  division_type res = field props "division_type" /\
  division_id res = field props "division_id" /\
  year res = field props "year".
Proof.
  unfold calculate. rewrite !get_prop_object. cbn [bind].
  destruct (truthy (field props "percent_of_renewables")).
  - destruct (get_uom_factor _); [| discriminate].
    destruct (get_uom_factor _); [| discriminate].
    cbn. intros [= <-]. auto.
  - destruct (get_uom_factor usage_uom); [| discriminate]. cbn [bind].
    destruct (get_uom_factor _); [| discriminate]. cbn [bind].
    destruct (get_uom_factor _); [| discriminate]. cbn [bind].
    destruct (get_uom_factor _); [| discriminate].
    cbn. intros [= <-]. auto.
Qed.

(** What a successful [recordEmissions] is made of. *)
Lemma recordEmissions_inv (emissionsList emissionsList' : gmap string EmissionsRecord)
    (utilityId partyId fromDate thruDate energyUseAmount energyUseUom url md5
       : JsVal) (emissionsRecord : EmissionsRecord) :
  recordEmissions emissionsList utilityId partyId fromDate thruDate
    energyUseAmount energyUseUom url md5
  = Normal (emissionsRecord, emissionsList') ->
  exists co2Emissions : Co2Emissions,
    getCo2Emissions utilityId thruDate energyUseAmount energyUseUom
    = Normal co2Emissions /\
    emissionsRecord
    = createInstance
        (MD5 (js_plus (js_plus (js_plus utilityId partyId) fromDate) thruDate))
        utilityId partyId fromDate thruDate
        (emissions_value co2Emissions)
        (renewable_energy_use_amount co2Emissions)
        (nonrenewable_energy_use_amount co2Emissions)
        energyUseUom
        (VStr ("eGrid " +:+ template (year co2Emissions) +:+ " "
               +:+ template (division_type co2Emissions) +:+ " "
               +:+ template (division_id co2Emissions)))
        url md5 VNull /\
    emissionsList' = <[uuid emissionsRecord := emissionsRecord]> emissionsList.
Proof.
  unfold recordEmissions, EmissionsList.addEmissionsRecord.
  destruct (getCo2Emissions utilityId thruDate energyUseAmount energyUseUom)
    as [co2Emissions |]; [| discriminate].
  cbn [bind]. intros Hcall. injection Hcall as <- <-.
  exists co2Emissions. repeat split.
Qed.

End Records.

(** X7. The record that [recordEmissions] returns carries the provenance
    of the factor it used, not of the division it asked for: its
    [factorSource] is "eGrid", the year, the type and the identifier of
    the record of the first row, separated by spaces. Its [tokenId] is
    [null], its [energyUseUom] is the unit of the usage that the caller
    gave (the unit of the emissions, "g" or "tons", is not stored), and its
    amounts are those of the calculation on that factor. *)
Theorem X7_record_provenance (L : Language) (M : Modules)
    (emissionsList emissionsList' : gmap string EmissionsRecord)
    (utilityId partyId fromDate thruDate energyUseAmount usage_uom url md5
       : JsVal)
    (emissionsRecord : EmissionsRecord) (utilityFactors : string)
    (row props : list (string * JsVal)) (rows : list JsVal) :
  recordEmissions emissionsList utilityId partyId fromDate thruDate
    energyUseAmount usage_uom url md5
  = Normal (emissionsRecord, emissionsList') ->
  getEmissionsFactor utilityId thruDate = Normal utilityFactors ->
  JSON_parse utilityFactors = Normal (VArr (VObj row :: rows)) ->
  field row "Record" = VObj props ->
  factorSource emissionsRecord
  = VStr ("eGrid " +:+ template (field props "year") +:+ " "
          +:+ template (field props "division_type") +:+ " "
          +:+ template (field props "division_id")) /\
  tokenId emissionsRecord = VNull /\
  energyUseUom emissionsRecord = usage_uom /\
  exists co2Emissions : Co2Emissions,
    calculate (VObj props) energyUseAmount usage_uom = Normal co2Emissions /\
    emissionsAmount emissionsRecord = emissions_value co2Emissions /\
    renewableEnergyUseAmount emissionsRecord
    = renewable_energy_use_amount co2Emissions /\
    nonrenewableEnergyUseAmount emissionsRecord
    = nonrenewable_energy_use_amount co2Emissions.
Proof.
  intros Hcall Hfactor Hparse Hrecord.
  apply recordEmissions_inv in Hcall as (co2 & Hco2 & -> & _).
  rewrite (getCo2Emissions_first_row _ _ _ _ _ _ _ Hfactor Hparse), Hrecord
    in Hco2.
  destruct (calculate_provenance _ _ _ _ Hco2) as (Htype & Hid & Hyear).
  cbn [factorSource tokenId energyUseUom emissionsAmount
       renewableEnergyUseAmount nonrenewableEnergyUseAmount].
  rewrite Htype, Hid, Hyear. repeat split. exists co2. repeat split. exact Hco2.
Qed.

(** X7 on the record of the scenario. *)
Lemma X7_record_provenance_witness :
  factorSource Scenario.record_U1 = VStr "eGrid 2020 STATE CA" /\
  tokenId Scenario.record_U1 = VNull /\
  energyUseUom Scenario.record_U1 = VStr "MWh" /\
  exists co2Emissions : Co2Emissions,
    @calculate Scenario.language Scenario.modules
      (VObj Scenario.factor_CA_props) (VNum (Finite 1000)) (VStr "MWh")
    = Normal co2Emissions /\
    emissionsAmount Scenario.record_U1 = emissions_value co2Emissions /\
    renewableEnergyUseAmount Scenario.record_U1
    = renewable_energy_use_amount co2Emissions /\
    nonrenewableEnergyUseAmount Scenario.record_U1
    = nonrenewable_energy_use_amount co2Emissions.
Proof.
  refine (X7_record_provenance Scenario.language Scenario.modules
            ∅ Scenario.ledger_U1
            (VStr "U1") (VStr "P1") (VStr "2020-01-01") (VStr "2020-01-31")
            (VNum (Finite 1000)) (VStr "MWh") (VStr "https://example.org/bill")
            (VStr "0cc175b9c0f1b6a831c399e269772661")
            Scenario.record_U1 Scenario.rows_CA_text
            [("Key", VStr "STATE/CA"); ("Record", VObj Scenario.factor_CA_props)]
            Scenario.factor_CA_props [] scenario_recordEmissions _ _ _);
    vm_compute; reflexivity.
Defined.

(** X8. Recording again the same utility, party and period overwrites the
    record: whatever the usage, the unit, the url and the hash of the two
    calls, the two records have the same key, the ledger after the second
    call has the second record at that key and is the ledger before the
    first call with that one insertion, and its keys are those after the
    first call. *)
Theorem X8_recording_again_overwrites (L : Language) (M : Modules)
    (ledger0 ledger1 ledger2 : gmap string EmissionsRecord)
    (utilityId partyId fromDate thruDate : JsVal)
    (amount1 uom1 url1 md51 amount2 uom2 url2 md52 : JsVal)
    (record1 record2 : EmissionsRecord) :
  recordEmissions ledger0 utilityId partyId fromDate thruDate
    amount1 uom1 url1 md51 = Normal (record1, ledger1) ->
  recordEmissions ledger1 utilityId partyId fromDate thruDate
    amount2 uom2 url2 md52 = Normal (record2, ledger2) ->
  uuid record2 = uuid record1 /\
  ledger2 !! uuid record1 = Some record2 /\
  ledger2 = <[uuid record1 := record2]> ledger0 /\
  dom ledger2 = dom ledger1.
Proof.
  intros H1 H2.
  apply recordEmissions_inv in H1 as (co1 & _ & Hr1 & ->).
  apply recordEmissions_inv in H2 as (co2 & _ & Hr2 & ->).
  assert (Hkey : uuid record2 = uuid record1) by (rewrite Hr1, Hr2; reflexivity).
  rewrite Hkey. split; [reflexivity |].
  split; [apply lookup_insert_eq |].
  split; [apply insert_insert_eq |].
  rewrite !dom_insert_L.
  apply set_eq. intros k. rewrite !elem_of_union. tauto.
Qed.

(** X8 on the scenario, recorded again with a usage of 2000 kWh. *)
Lemma X8_recording_again_overwrites_witness :
  uuid Cases.record_U1_again = uuid Scenario.record_U1 /\
  Cases.ledger_U1_again !! uuid Scenario.record_U1 = Some Cases.record_U1_again /\
  Cases.ledger_U1_again = <[uuid Scenario.record_U1 := Cases.record_U1_again]> ∅ /\
  dom Cases.ledger_U1_again = dom Scenario.ledger_U1.
Proof.
  refine (X8_recording_again_overwrites Scenario.language Scenario.modules
            ∅ Scenario.ledger_U1 Cases.ledger_U1_again
            (VStr "U1") (VStr "P1") (VStr "2020-01-01") (VStr "2020-01-31")
            (VNum (Finite 1000)) (VStr "MWh") (VStr "https://example.org/bill")
            (VStr "0cc175b9c0f1b6a831c399e269772661")
            (VStr "2000") (VStr "kWh") VUndef VUndef
            Scenario.record_U1 Cases.record_U1_again
            scenario_recordEmissions _).
  vm_compute. reflexivity.
Defined.

(** X9. The key of a record is the digest of the four strings put end to
    end, without separator: two calls whose utility, party and dates are
    different strings with the same concatenation give their records the
    same key, and the second record replaces the first in the ledger. *)
Theorem X9_concatenation_collides (L : Language) (M : Modules)
    (ledger0 ledger1 ledger2 : gmap string EmissionsRecord)
    (utilityId1 partyId1 fromDate1 thruDate1 : string)
    (utilityId2 partyId2 fromDate2 thruDate2 : string)
    (amount1 uom1 url1 md51 amount2 uom2 url2 md52 : JsVal)
    (record1 record2 : EmissionsRecord) :
  ((utilityId1 +:+ partyId1) +:+ fromDate1) +:+ thruDate1
  = ((utilityId2 +:+ partyId2) +:+ fromDate2) +:+ thruDate2 ->
  recordEmissions ledger0 (VStr utilityId1) (VStr partyId1) (VStr fromDate1)
    (VStr thruDate1) amount1 uom1 url1 md51 = Normal (record1, ledger1) ->
  recordEmissions ledger1 (VStr utilityId2) (VStr partyId2) (VStr fromDate2)
    (VStr thruDate2) amount2 uom2 url2 md52 = Normal (record2, ledger2) ->
  uuid record2 = uuid record1 /\
  ledger2 !! uuid record1 = Some record2 /\
  dom ledger2 = dom ledger1.
Proof.
  intros Hconcat H1 H2.
  apply recordEmissions_inv in H1 as (co1 & _ & Hr1 & ->).
  apply recordEmissions_inv in H2 as (co2 & _ & Hr2 & ->).
  assert (Hkey : uuid record2 = uuid record1).
  { rewrite Hr1, Hr2. cbn [uuid js_plus ToString]. rewrite Hconcat. reflexivity. }
  rewrite Hkey. split; [reflexivity |].
  split; [apply lookup_insert_eq |].
  rewrite !dom_insert_L.
  apply set_eq. intros k. rewrite !elem_of_union. tauto.
Qed.

(** X9 on the utilities U1 and U12: the party "2P" of the first and the
    party "P" of the second share a key. *)
Lemma X9_concatenation_collides_witness :
  utilityId (Cases.record_of_party "U1" "2P" 1000)
  <> utilityId (Cases.record_of_party "U12" "P" 50) /\
  uuid (Cases.record_of_party "U12" "P" 50)
  = uuid (Cases.record_of_party "U1" "2P" 1000) /\
  Cases.ledger_of_party "U12" "P" 50
  !! uuid (Cases.record_of_party "U1" "2P" 1000)
  = Some (Cases.record_of_party "U12" "P" 50) /\
  dom (Cases.ledger_of_party "U12" "P" 50)
  = dom (Cases.ledger_of_party "U1" "2P" 1000).
Proof.
  split; [cbn; discriminate |].
  refine (X9_concatenation_collides Scenario.language Cases.modules
            ∅ (Cases.ledger_of_party "U1" "2P" 1000)
            (Cases.ledger_of_party "U12" "P" 50)
            "U1" "2P" "2020-01-01" "2020-01-31"
            "U12" "P" "2020-01-01" "2020-01-31"
            (VStr "1000") (VStr "MWh") VUndef VUndef
            (VStr "50") (VStr "MWh") VUndef VUndef
            (Cases.record_of_party "U1" "2P" 1000)
            (Cases.record_of_party "U12" "P" 50) _ _ _);
    vm_compute; reflexivity.
Defined.

(** ** The calculation, in full *)

(** X11. The two amounts stay within the usage when the factor is in
    range: for a usage that is not negative, a [percent_of_renewables]
    between 0 and 100 on the one branch, and [non_renewables] and
    [renewables] that are not negative and not both zero on the other,
    give a renewable and a nonrenewable amount between 0 and the usage. *)
Theorem X11_amounts_within_usage (L : Language) (M : Modules)
    (props : list (string * JsVal)) (usage usage_uom : JsVal)
    (res : Co2Emissions) (u : Q) :
  calculate (VObj props) usage usage_uom = Normal res ->
  ToNumber usage = Finite u ->
  (0 <= u)%Q ->
  (exists p : Q,
      truthy (field props "percent_of_renewables") = true /\
      ToNumber (field props "percent_of_renewables") = Finite p /\
      (0 <= p)%Q /\ (p <= 100)%Q)
  \/
  (exists non_renewables renewables : Q,
      truthy (field props "percent_of_renewables") = false /\
      ToNumber (field props "non_renewables") = Finite non_renewables /\
      ToNumber (field props "renewables") = Finite renewables /\
      (0 <= non_renewables)%Q /\ (0 <= renewables)%Q /\
      ~ (non_renewables + renewables == 0)%Q) ->
  exists r n : Q,
    renewable_energy_use_amount res = Finite r /\
    nonrenewable_energy_use_amount res = Finite n /\
    (0 <= r)%Q /\ (r <= u)%Q /\ (0 <= n)%Q /\ (n <= u)%Q.
Proof.
  intros Hres Hu Hpos Hcases. apply calculate_inv in Hres. cbv zeta in Hres.
  destruct Hcases as [(p & Ht & Hp & Hp0 & Hp100)
                     | (a & b & Ht & Ha & Hb & Ha0 & Hb0 & Hab)];
    rewrite Ht in Hres; destruct Hres as (_ & Hr & Hn); rewrite Hr, Hn, Hu.
  - rewrite Hp. cbn. eexists. eexists.
    split; [reflexivity |]. split; [reflexivity |].
    assert (Hx0 : (0 <= p / 100)%Q) by (apply Qle_shift_div_l; lra).
    assert (Hx1 : (p / 100 <= 1)%Q) by (apply Qle_shift_div_r; lra).
    set (x := (p / 100)%Q) in *. repeat split; nra.
  - rewrite Ha, Hb. cbn. apply Qzero_b_false_iff in Hab as Hz. rewrite Hz.
    eexists. eexists. split; [reflexivity |]. split; [reflexivity |].
    assert (Ht0 : (0 < a + b)%Q) by lra.
    assert (Hx0 : (0 <= b / (a + b))%Q) by (apply Qle_shift_div_l; lra).
    assert (Hx1 : (b / (a + b) <= 1)%Q) by (apply Qle_shift_div_r; lra).
    assert (Hy0 : (0 <= a / (a + b))%Q) by (apply Qle_shift_div_l; lra).
    assert (Hy1 : (a / (a + b) <= 1)%Q) by (apply Qle_shift_div_r; lra).
    set (x := (b / (a + b))%Q) in *. set (y := (a / (a + b))%Q) in *.
    repeat split; nra.
Qed.

(** X11 on the two factors of the ledger, one for each branch. *)
Lemma X11_amounts_within_usage_witness :
  (exists (res : Co2Emissions) (r n : Q),
      @calculate Scenario.language Scenario.modules
        (VObj Scenario.factor_CA_props) (VStr "1000") (VStr "MWh") = Normal res /\
      renewable_energy_use_amount res = Finite r /\
      nonrenewable_energy_use_amount res = Finite n /\
      (0 <= r)%Q /\ (r <= 1000)%Q /\ (0 <= n)%Q /\ (n <= 1000)%Q)
  /\
  (exists (res : Co2Emissions) (r n : Q),
      @calculate Scenario.language Scenario.modules
        (VObj Scenario.factor_WECC_props) (VStr "100") (VStr "kWh") = Normal res /\
      renewable_energy_use_amount res = Finite r /\
      nonrenewable_energy_use_amount res = Finite n /\
      (0 <= r)%Q /\ (r <= 100)%Q /\ (0 <= n)%Q /\ (n <= 100)%Q).
Proof.
  split.
  - eexists.
    assert (Hcalc :
      @calculate Scenario.language Scenario.modules
        (VObj Scenario.factor_CA_props) (VStr "1000") (VStr "MWh") = Normal _)
      by (vm_compute; reflexivity).
    destruct (X11_amounts_within_usage Scenario.language Scenario.modules
                Scenario.factor_CA_props (VStr "1000") (VStr "MWh") _ 1000%Q
                Hcalc eq_refl) as (r & n & H).
    + discriminate.
    + left. exists 40%Q. repeat split; discriminate.
    + exists r, n. split; [exact Hcalc | exact H].
  - eexists.
    assert (Hcalc :
      @calculate Scenario.language Scenario.modules
        (VObj Scenario.factor_WECC_props) (VStr "100") (VStr "kWh") = Normal _)
      by (vm_compute; reflexivity).
    destruct (X11_amounts_within_usage Scenario.language Scenario.modules
                Scenario.factor_WECC_props (VStr "100") (VStr "kWh") _ 100%Q
                Hcalc eq_refl) as (r & n & H).
    + discriminate.
    + right. exists 1500%Q, 500%Q. repeat split; discriminate.
    + exists r, n. split; [exact Hcalc | exact H].
Defined.

Section Binary64Branch.
Context {L : Language} {M : Modules}.

(** The binary64 calculation on a factor with a truthy
    [percent_of_renewables]. *)
Lemma Binary64_calculate_percent_of_renewables
    (props : list (string * JsVal)) (usage usage_uom : JsVal) (f0 f1 : number) :
  let parts := split "/" (template (field props "co2_equivalent_emissions_uom")) in
  let percent :=
    fl (Binary64.Number (field props "percent_of_renewables") / Finite 100)%num in
  truthy (field props "percent_of_renewables") = true ->
  get_uom_factor (item parts 0) = Normal f0 ->
  get_uom_factor (item parts 1) = Normal f1 ->
  Binary64.calculate (VObj props) usage usage_uom =
  Normal {| emissions_value :=
              fl (fl (Binary64.Number (field props "co2_equivalent_emissions")
                      * Binary64.Number usage)
                  * fl (fl f0 / fl f1))%num;
            emissions_uom := "g";
            division_type := field props "division_type";
            division_id := field props "division_id";
            renewable_energy_use_amount :=
              fl (Binary64.Number usage * percent)%num;
            nonrenewable_energy_use_amount :=
              fl (Binary64.Number usage * fl (Finite 1 - percent))%num;
            year := field props "year" |}.
Proof.
  intros parts percent Ht H0 H1. unfold Binary64.calculate, calculate_rounded.
  rewrite !get_prop_object. cbn [bind]. rewrite Ht.
  fold parts. rewrite H0, H1. reflexivity.
Qed.

End Binary64Branch.

Lemma Qneg_b_pos (u : Q) : (0 < u)%Q -> Qneg_b u = false.
Proof.
  intros Hu. unfold Qneg_b. apply Z.ltb_ge. destruct u as [n d].
  unfold Qlt in Hu. cbn in *. lia.
Qed.

(** X12. A [percent_of_renewables] above 100 is not rejected: with a
    positive usage the calculation returns, with a renewable amount that
    is not below the usage and a nonrenewable amount that is not above
    zero, on the exact operations and on binary64 numbers. *)
Theorem X12_percentage_above_100 (L : Language) (M : Modules)
    (props : list (string * JsVal)) (usage usage_uom : JsVal)
    (f_mass f_energy : number) (u : Q) :
  let parts := split "/" (template (field props "co2_equivalent_emissions_uom")) in
  get_uom_factor (item parts 0) = Normal f_mass ->
  get_uom_factor (item parts 1) = Normal f_energy ->
  truthy (field props "percent_of_renewables") = true ->
  (0 < u)%Q ->
  (num_lt (Finite 100) (ToNumber (field props "percent_of_renewables")) = true ->
   ToNumber usage = Finite u ->
   exists res : Co2Emissions,
     calculate (VObj props) usage usage_uom = Normal res /\
     num_le (Finite u) (renewable_energy_use_amount res) = true /\
     num_le (nonrenewable_energy_use_amount res) (Finite 0) = true)
  /\
  (num_lt (Finite 100) (Binary64.Number (field props "percent_of_renewables"))
   = true ->
   Binary64.Number usage = Finite u ->
   exists res : Co2Emissions,
     Binary64.calculate (VObj props) usage usage_uom = Normal res /\
     num_le (Finite u) (renewable_energy_use_amount res) = true /\
     num_le (nonrenewable_energy_use_amount res) (Finite 0) = true).
Proof.
  intros parts H0 H1 Ht Hu0.
  assert (Hz : Qzero_b u = false) by (apply Qzero_b_false_iff; lra).
  pose proof (Qneg_b_pos u Hu0) as Hneg.
  split; intros Hp Hu.
  - eexists. split; [apply calculate_percent_of_renewables; eassumption |].
    cbn [renewable_energy_use_amount nonrenewable_energy_use_amount].
    rewrite Hu.
    destruct (ToNumber (field props "percent_of_renewables")) as [| s | p];
      cbn in Hp; try discriminate.
    + destruct s; [discriminate |]. cbn. rewrite Hz, Hneg. split; reflexivity.
    + assert (Hp100 : (100 < p)%Q).
      { destruct (Qcompare 100 p) eqn:Hc; try discriminate.
        apply Qlt_alt. exact Hc. }
      cbn. assert (Hx : (1 < p / 100)%Q) by (apply Qlt_shift_div_l; lra).
      set (x := (p / 100)%Q) in *. split; apply Qle_bool_iff; nra.
  - eexists.
    split; [apply Binary64_calculate_percent_of_renewables; eassumption |].
    cbn [renewable_energy_use_amount nonrenewable_energy_use_amount].
    pose proof (Number_binary64 _ _ Hu) as Hu64.
    rewrite Hu.
    assert (Hq : fl (Binary64.Number (field props "percent_of_renewables")
                     / Finite 100)%num = Infinity false
                 \/ exists q : Q,
                     fl (Binary64.Number (field props "percent_of_renewables")
                         / Finite 100)%num = Finite q /\ (1 <= q)%Q).
    { destruct (Binary64.Number (field props "percent_of_renewables"))
        as [| s | p]; cbn in Hp; try discriminate.
      - destruct s; [discriminate |]. left. reflexivity.
      - assert (Hp100 : (100 < p)%Q).
        { destruct (Qcompare 100 p) eqn:Hc; try discriminate.
          apply Qlt_alt. exact Hc. }
        cbn. apply (round64_above (p / 100) 1 binary64_1); [reflexivity |].
        apply Qle_shift_div_l; lra. }
    destruct Hq as [Hq | (q & Hq & Hq1)]; rewrite Hq.
    + cbn. rewrite Hz, Hneg. split; reflexivity.
    + split.
      * cbn.
        destruct (round64_above (u * q) u Hu64 Hu0) as [Hi | (r & Hr & Hle)].
        { nra. }
        -- rewrite Hi. reflexivity.
        -- rewrite Hr. cbn. apply Qle_bool_iff. exact Hle.
      * assert (Hs : fl (Finite 1 - Finite q)%num = Infinity true
                     \/ exists s : Q,
                         fl (Finite 1 - Finite q)%num = Finite s /\ (s <= 0)%Q).
        { cbn. apply round64_nonpos. lra. }
        destruct Hs as [Hs | (s & Hs & Hs0)]; rewrite Hs.
        -- cbn. rewrite Hz, Hneg. reflexivity.
        -- cbn. destruct (round64_nonpos (u * s)) as [Hi | (n & Hn & Hle)].
           { nra. }
           ++ rewrite Hi. reflexivity.
           ++ rewrite Hn. cbn. apply Qle_bool_iff. exact Hle.
Qed.

(** X12 on a factor of 150 percent and a usage of 1000. *)
Lemma X12_percentage_above_100_witness :
  (exists res : Co2Emissions,
      @calculate Scenario.language Cases.modules
        (VObj Cases.factor_150_props) (VStr "1000") (VStr "MWh") = Normal res /\
      num_le (Finite 1000) (renewable_energy_use_amount res) = true /\
      num_le (nonrenewable_energy_use_amount res) (Finite 0) = true)
  /\
  (exists res : Co2Emissions,
      @Binary64.calculate Scenario.language Cases.modules
        (VObj Cases.factor_150_props) (VStr "1000") (VStr "MWh") = Normal res /\
      num_le (Finite 1000) (renewable_energy_use_amount res) = true /\
      num_le (nonrenewable_energy_use_amount res) (Finite 0) = true).
Proof.
  split.
  - refine (proj1 (X12_percentage_above_100 Scenario.language Cases.modules
                     Cases.factor_150_props (VStr "1000") (VStr "MWh")
                     (Finite (45359237 # 100000000)) (Finite 1000000) 1000%Q
                     _ _ _ _) _ _);
      vm_compute; reflexivity.
  - refine (proj2 (X12_percentage_above_100 Scenario.language Cases.modules
                     Cases.factor_150_props (VStr "1000") (VStr "MWh")
                     (Finite (45359237 # 100000000)) (Finite 1000000) 1000%Q
                     _ _ _ _) _ _);
      vm_compute; reflexivity.
Defined.

(** ** The units of the calculation *)

Lemma split_without_separator (sep : ascii) (s : string) :
  ~ In sep (list_ascii_of_string s) -> split sep s = [s].
Proof.
  induction s as [| c s IH]; cbn; intros Hnot; [reflexivity |].
  destruct (Ascii.eqb c sep) eqn:Heq.
  - apply Ascii.eqb_eq in Heq. tauto.
  - rewrite IH by tauto. reflexivity.
Qed.

(** X13. On the branch of [percent_of_renewables], a unit of the factor
    without "/" leaves the energy unit undefined: the mass unit is the
    whole string, and the divisor of the conversion is what
    [get_uom_factor] makes of [undefined]; when it throws, the calculation
    throws that error. *)
Theorem X13_unit_without_slash (L : Language) (M : Modules)
    (props : list (string * JsVal)) (usage usage_uom : JsVal)
    (f_mass : number) :
  let uom := template (field props "co2_equivalent_emissions_uom") in
  truthy (field props "percent_of_renewables") = true ->
  ~ In "/"%char (list_ascii_of_string uom) ->
  get_uom_factor (VStr uom) = Normal f_mass ->
  (forall e : JsError,
      get_uom_factor VUndef = Throw e ->
      calculate (VObj props) usage usage_uom = Throw e) /\
  (forall f : number,
      get_uom_factor VUndef = Normal f ->
      exists res : Co2Emissions,
        calculate (VObj props) usage usage_uom = Normal res /\
        emissions_value res
        = (ToNumber (field props "co2_equivalent_emissions") * ToNumber usage
           * (f_mass / f))%num).
Proof.
  intros uom Ht Hnot Hmass.
  pose proof (split_without_separator "/" uom Hnot) as Hsplit.
  split.
  - intros e He. unfold calculate. rewrite !get_prop_object. cbn [bind].
    rewrite Ht. fold uom. rewrite Hsplit. cbn [item nth_error].
    rewrite Hmass. cbn [bind]. rewrite He. reflexivity.
  - intros f Hf. eexists. split.
    + apply calculate_percent_of_renewables; [exact Ht | |];
        fold uom; rewrite Hsplit; cbn [item nth_error]; eassumption.
    + reflexivity.
Qed.

(** X13 on a factor in "lbs": the reference table has no entry for
    [undefined]. *)
Lemma X13_unit_without_slash_witness :
  @calculate Scenario.language Cases.modules
    (VObj Cases.factor_lbs_props) (VStr "1000") (VStr "MWh")
  = Throw (Error "Unknown UOM").
Proof.
  refine (proj1 (X13_unit_without_slash Scenario.language Cases.modules
                   Cases.factor_lbs_props (VStr "1000") (VStr "MWh")
                   (Finite (45359237 # 100000000)) _ _ _)
            (Error "Unknown UOM") _);
    try (vm_compute; reflexivity).
  vm_compute. intuition discriminate.
Defined.

(** X14. On the branch of [percent_of_renewables] the unit of the usage is
    not read: the calculation, and [getCo2Emissions] on a first row with
    such a factor, return the same result for every unit of usage, known
    to the table or not. *)
Theorem X14_usage_unit_ignored (L : Language) (M : Modules)
    (props : list (string * JsVal)) (usage usage_uom usage_uom' : JsVal) :
  truthy (field props "percent_of_renewables") = true ->
  calculate (VObj props) usage usage_uom
  = calculate (VObj props) usage usage_uom' /\
  forall (uuid thruDate : JsVal) (utilityFactors : string)
         (row : list (string * JsVal)) (rows : list JsVal),
    getEmissionsFactor uuid thruDate = Normal utilityFactors ->
    JSON_parse utilityFactors = Normal (VArr (VObj row :: rows)) ->
    field row "Record" = VObj props ->
    getCo2Emissions uuid thruDate usage usage_uom
    = getCo2Emissions uuid thruDate usage usage_uom'.
Proof.
  intros Ht.
  assert (Hcalc : calculate (VObj props) usage usage_uom
                  = calculate (VObj props) usage usage_uom').
  { unfold calculate. rewrite !get_prop_object. cbn [bind].
    rewrite Ht. reflexivity. }
  split; [exact Hcalc |].
  intros uuid thruDate utilityFactors row rows Hfactor Hparse Hrecord.
  rewrite !(getCo2Emissions_first_row _ _ _ _ _ _ _ Hfactor Hparse), Hrecord.
  exact Hcalc.
Qed.

(** X14 on the scenario: 1000 MWh, 1000 kWh and 1000 "furlongs" give the
    same emissions. *)
Lemma X14_usage_unit_ignored_witness :
  @calculate Scenario.language Scenario.modules
    (VObj Scenario.factor_CA_props) (VStr "1000") (VStr "MWh")
  = @calculate Scenario.language Scenario.modules
      (VObj Scenario.factor_CA_props) (VStr "1000") (VStr "furlongs")
  /\
  @getCo2Emissions Scenario.language Scenario.modules
    (VStr "U1") (VStr "2020-01-31") (VStr "1000") (VStr "MWh")
  = @getCo2Emissions Scenario.language Scenario.modules
      (VStr "U1") (VStr "2020-01-31") (VStr "1000") (VStr "kWh").
Proof.
  split.
  - exact (proj1 (X14_usage_unit_ignored Scenario.language Scenario.modules
                    Scenario.factor_CA_props (VStr "1000") (VStr "MWh")
                    (VStr "furlongs") eq_refl)).
  - refine (proj2 (X14_usage_unit_ignored Scenario.language Scenario.modules
                     Scenario.factor_CA_props (VStr "1000") (VStr "MWh")
                     (VStr "kWh") eq_refl)
              (VStr "U1") (VStr "2020-01-31") Scenario.rows_CA_text
              [("Key", VStr "STATE/CA"); ("Record", VObj Scenario.factor_CA_props)]
              [] _ _ _);
      vm_compute; reflexivity.
Defined.

(** ** The results of the client *)

(** X15. When every step of the client's [recordEmissions] succeeds and
    the result of the transaction is the JSON text of an object, the
    client returns ten fields read from that object, not from its own
    arguments: [energyUseAmount] is the [emissionsAmount] of the object,
    [energyUseUom] is its [energyUseUom] (the [emissionsUom] first written
    there is overwritten), and no field gives the emissions under their
    own name. When the transaction was submitted and [disconnect] then
    throws, the client reports a failed submission. *)
Theorem X15_recordEmissions_result (L : Language) (G : Gateway)
    (userId orgName utilityId partyId fromDate thruDate energyUseAmount
       energyUseUom uuid : JsVal)
    (stringResult : string) (props : list (string * JsVal)) :
  buildWallet orgName = Normal tt ->
  connect userId = Normal tt ->
  getContract = Normal tt ->
  getNewUuid = Normal uuid ->
  submitTransaction "recordEmissions"
    (EmissionsContractInvoke.recordEmissions_args uuid utilityId partyId
       fromDate thruDate energyUseAmount energyUseUom) = Normal stringResult ->
  JSON_parse stringResult = Normal (VObj props) ->
  (disconnect = Normal tt ->
   EmissionsContractInvoke.recordEmissions userId orgName utilityId partyId
     fromDate thruDate energyUseAmount energyUseUom
   = Normal
       (VObj [("info", VStr "EMISSION RECORDED TO LEDGER");
              ("utilityId", field props "utilityId");
              ("partyId", field props "partyId");
              ("fromDate", field props "fromDate");
              ("thruDate", field props "thruDate");
              ("energyUseAmount", field props "emissionsAmount");
              ("energyUseUom", field props "energyUseUom");
              ("renewableEnergyUseAmount",
               field props "renewableEnergyUseAmount");
              ("nonrenewableEnergyUseAmount",
               field props "nonrenewableEnergyUseAmount");
              ("factorSource", field props "factorSource")]))
  /\
  (forall e : JsError,
      disconnect = Throw e ->
      EmissionsContractInvoke.recordEmissions userId orgName utilityId partyId
        fromDate thruDate energyUseAmount energyUseUom
      = Normal
          (VObj [("info", VStr ("Failed to submit transaction: "
                                +:+ error_toString e));
                 ("utilityId", utilityId); ("partyId", partyId);
                 ("fromDate", fromDate); ("thruDate", thruDate);
                 ("energyUseAmount", energyUseAmount);
                 ("energyUseUom", energyUseUom)])).
Proof.
  intros Hwallet Hconnect Hcontract Huuid Hsubmit Hparse.
  split; [intros Hdisconnect | intros e Hdisconnect]; run_client; reflexivity.
Qed.

(** X15 on a gateway that returns the record of the scenario. *)
Lemma X15_recordEmissions_result_witness :
  @EmissionsContractInvoke.recordEmissions Scenario.language
    (Cases.gateway_returning Cases.record_U1_text)
    (VStr "admin") (VStr "auditor1") (VStr "U1") (VStr "P1")
    (VStr "2020-01-01") (VStr "2020-01-31") (VStr "1000") (VStr "MWh")
  = Normal
      (VObj [("info", VStr "EMISSION RECORDED TO LEDGER");
             ("utilityId", VStr "U1"); ("partyId", VStr "P1");
             ("fromDate", VStr "2020-01-01"); ("thruDate", VStr "2020-01-31");
             ("energyUseAmount", VNum (Finite (226796185 # 1000000000)));
             ("energyUseUom", VStr "MWh");
             ("renewableEnergyUseAmount", VNum (Finite 400));
             ("nonrenewableEnergyUseAmount", VNum (Finite 600));
             ("factorSource", VStr "eGrid 2020 STATE CA")]).
Proof.
  refine (proj1 (X15_recordEmissions_result Scenario.language
                   (Cases.gateway_returning Cases.record_U1_text)
                   (VStr "admin") (VStr "auditor1") (VStr "U1") (VStr "P1")
                   (VStr "2020-01-01") (VStr "2020-01-31") (VStr "1000")
                   (VStr "MWh") (VStr "c3d0a4e2") Cases.record_U1_text
                   Cases.record_U1_props _ _ _ _ _ _) _);
    vm_compute; reflexivity.
Defined.

(** X16. When every step of the client's [getEmissionsData] succeeds and
    the result of the evaluation is the JSON text of an object, the client
    returns eleven fields read from that object, a field that the object
    does not have being [undefined]. When the result is the text "null",
    the client returns the failure object with a TypeError. *)
Theorem X16_getEmissionsData_result (L : Language) (G : Gateway)
    (userId orgName uuid : JsVal) (stringResult : string) :
  buildWallet orgName = Normal tt ->
  connect userId = Normal tt ->
  getContract = Normal tt ->
  evaluateTransaction "getEmissionsData" [uuid] = Normal stringResult ->
  disconnect = Normal tt ->
  (forall props : list (string * JsVal),
      JSON_parse stringResult = Normal (VObj props) ->
      EmissionsContractInvoke.getEmissionsData userId orgName uuid
      = Normal
          (VObj [("info", VStr "UTILITY EMISSIONS DATA");
                 ("utilityId", field props "utilityId");
                 ("partyId", field props "partyId");
                 ("fromDate", field props "fromDate");
                 ("thruDate", field props "thruDate");
                 ("emissionsAmount", field props "emissionsAmount");
                 ("emissionsUom", field props "emissionsUom");
                 ("renewableEnergyUseAmount",
                  field props "renewableEnergyUseAmount");
                 ("nonrenewableEnergyUseAmount",
                  field props "nonrenewableEnergyUseAmount");
                 ("energyUseUom", field props "energyUseUom");
                 ("factorSource", field props "factorSource")]))
  /\
  (JSON_parse stringResult = Normal VNull ->
   exists e : JsError,
     err_name e = "TypeError" /\
     EmissionsContractInvoke.getEmissionsData userId orgName uuid
     = Normal
         (VObj [("info", VStr ("Failed to evaluate transaction: "
                               +:+ error_toString e));
                ("uuid", uuid)])).
Proof.
  intros Hwallet Hconnect Hcontract Hevaluate Hdisconnect. split.
  - intros props Hparse. run_client. reflexivity.
  - intros Hparse. eexists. split; [| run_client; reflexivity]. reflexivity.
Qed.

(** X16 on gateways that return the record of the scenario, and "null". *)
Lemma X16_getEmissionsData_result_witness :
  @EmissionsContractInvoke.getEmissionsData Scenario.language
    (Cases.gateway_returning Cases.record_U1_text)
    (VStr "admin") (VStr "auditor1") (VStr Scenario.key_U1)
  = Normal
      (VObj [("info", VStr "UTILITY EMISSIONS DATA");
             ("utilityId", VStr "U1"); ("partyId", VStr "P1");
             ("fromDate", VStr "2020-01-01"); ("thruDate", VStr "2020-01-31");
             ("emissionsAmount", VNum (Finite (226796185 # 1000000000)));
             ("emissionsUom", VUndef);
             ("renewableEnergyUseAmount", VNum (Finite 400));
             ("nonrenewableEnergyUseAmount", VNum (Finite 600));
             ("energyUseUom", VStr "MWh");
             ("factorSource", VStr "eGrid 2020 STATE CA")])
  /\
  exists e : JsError,
    err_name e = "TypeError" /\
    @EmissionsContractInvoke.getEmissionsData Scenario.language
      (Cases.gateway_returning "null")
      (VStr "admin") (VStr "auditor1") (VStr Scenario.key_U1)
    = Normal
        (VObj [("info", VStr ("Failed to evaluate transaction: "
                              +:+ error_toString e));
               ("uuid", VStr Scenario.key_U1)]).
Proof.
  split.
  - refine (proj1 (X16_getEmissionsData_result Scenario.language
                     (Cases.gateway_returning Cases.record_U1_text)
                     (VStr "admin") (VStr "auditor1") (VStr Scenario.key_U1)
                     Cases.record_U1_text _ _ _ _ _)
              Cases.record_U1_props _);
      vm_compute; reflexivity.
  - refine (proj2 (X16_getEmissionsData_result Scenario.language
                     (Cases.gateway_returning "null")
                     (VStr "admin") (VStr "auditor1") (VStr Scenario.key_U1)
                     "null" _ _ _ _ _) _);
      vm_compute; reflexivity.
Defined.

(** ** The rows of the client's [getAllEmissionsData] *)

Lemma record_of_row_inv (row : JsVal) (record : list (string * JsVal))
    (fromDate : string) :
  record_of_row row = Some (record, fromDate) ->
  exists props : list (string * JsVal),
    row = VObj props /\ field props "Record" = VObj record /\
    field record "fromDate" = VStr fromDate.
Proof.
  unfold record_of_row. destruct row as [| | | | | | props]; try discriminate.
  destruct (field props "Record") as [| | | | | | record'] eqn:HRecord;
    try discriminate.
  destruct (field record' "fromDate") as [| | | | d | |] eqn:Hfrom;
    try discriminate.
  intros H. injection H as <- <-. eauto.
Qed.

(** The loop on rows that each hold a record with a string [fromDate]:
    it appends, in the order of the rows, the results of the records that
    the test does not skip. *)
Lemma all_emissions_loop_filter {L : Language} (rows : list JsVal)
    (recs : list (list (string * JsVal) * string)) (current_year : number)
    (all_emissions : list JsVal) :
  Forall2 (fun row rd => record_of_row row = Some rd) rows recs ->
  EmissionsContractInvoke.all_emissions_loop rows current_year all_emissions
  = Normal (all_emissions
            ++ map (fun rd => emission_result (fst rd))
                 (List.filter (fun rd => negb (skipped current_year (snd rd)))
                    recs)).
Proof.
  intros Hrows. revert all_emissions.
  induction Hrows as [| row [record d] rows recs Hrow _ IH]; intros all_emissions.
  - cbn. rewrite app_nil_r. reflexivity.
  - apply record_of_row_inv in Hrow as (props & -> & HRecord & Hfrom).
    cbn [EmissionsContractInvoke.all_emissions_loop].
    rewrite get_prop_object, HRecord. cbn [bind].
    rewrite get_prop_object, Hfrom.
    cbn [bind EmissionsContractInvoke.call_slice_0_4 ToString].
    cbn [List.filter map fst snd].
    change (num_lt (parseInt (substring 0 4 d)) (current_year - Finite 1)%num)
      with (skipped current_year d).
    destruct (skipped current_year d).
    + cbn [negb]. apply IH.
    + cbn [negb map fst]. unfold EmissionsContractInvoke.copy.
      rewrite !get_prop_object. cbn [bind]. rewrite IH.
      rewrite <- app_assoc. reflexivity.
Qed.

Lemma Forall2_record_of_row (rows : list JsVal)
    (recs : list (list (string * JsVal) * string))
    (record : list (string * JsVal)) (fromDate : string) :
  Forall2 (fun row rd => record_of_row row = Some rd) rows recs ->
  In (record, fromDate) recs ->
  field record "fromDate" = VStr fromDate.
Proof.
  induction 1 as [| row rd rows recs Hrow _ IH]; intros Hin;
    [destruct Hin | destruct Hin as [Heq | Hin]].
  - subst rd. apply record_of_row_inv in Hrow as (props & _ & _ & Hfrom).
    exact Hfrom.
  - apply IH, Hin.
Qed.

(** The test of the loop, by the number that [parseInt] reads. *)
Lemma skipped_false_iff {L : Language} (c : Q) (fromDate : string) :
  skipped (Finite c) fromDate = false <->
  match parseInt (substring 0 4 fromDate) with
  | Finite y => (c - 1 <= y)%Q
  | NaN => True
  | Infinity negative => negative = false
  end.
Proof.
  unfold skipped.
  destruct (parseInt (substring 0 4 fromDate)) as [| negative | y]; cbn.
  - tauto.
  - tauto.
  - match goal with
    | |- context [Qcompare y ?b] => destruct (Qcompare y b) eqn:Hcompare
    end.
    + apply Qeq_alt in Hcompare. split; [intros _; lra | reflexivity].
    + apply Qlt_alt in Hcompare. split; [discriminate | intros Hle; lra].
    + apply Qgt_alt in Hcompare. split; [intros _; lra | reflexivity].
Qed.

(** The loop throws when one of its rows has no record, or a record
    without a [fromDate] that can be sliced: the rows before it do not
    stop the loop. *)
Lemma all_emissions_loop_throws {L : Language} (rows : list JsVal)
    (current_year : number) (all_emissions : list JsVal) (row : JsVal)
    (e : JsError) :
  In row rows ->
  (record <- get_prop row "Record";;
   from <- get_prop record "fromDate";;
   EmissionsContractInvoke.call_slice_0_4 from) = Throw e ->
  exists e' : JsError,
    EmissionsContractInvoke.all_emissions_loop rows current_year all_emissions
    = Throw e'.
Proof.
  intros Hin Hthrow. revert all_emissions.
  induction rows as [| row' rows IH]; intros all_emissions; [destruct Hin |].
  cbn [EmissionsContractInvoke.all_emissions_loop].
  destruct Hin as [-> | Hin].
  - destruct (get_prop row "Record") as [record | e1]; cbn [bind] in *; [| eauto].
    destruct (get_prop record "fromDate") as [from | e2]; cbn [bind] in *;
      [| eauto].
    destruct (EmissionsContractInvoke.call_slice_0_4 from); [discriminate |].
    cbn [bind]. eauto.
  - destruct (get_prop row' "Record") as [record | e1]; cbn [bind]; [| eauto].
    destruct (get_prop record "fromDate") as [from | e2] eqn:Hfrom; cbn [bind];
      [| eauto].
    destruct (EmissionsContractInvoke.call_slice_0_4 from) as [prefix | e3];
      cbn [bind]; [| eauto].
    destruct (num_lt _ _); [apply (IH Hin) |].
    unfold EmissionsContractInvoke.copy.
    repeat match goal with
           | |- context [get_prop record ?k] =>
               let y := fresh "y" in
               let Hy := fresh "Hy" in
               destruct (get_prop_defined record "fromDate" k from Hfrom)
                 as [y Hy];
               rewrite Hy; cbn [bind]; clear Hy
           end.
    apply (IH Hin).
Qed.

(** X17. When the evaluation succeeds and its result is the JSON text of
    an array whose rows each hold a record with a string [fromDate], the
    client's [getAllEmissionsData] returns, in the order of the rows, the
    eleven-field result of every record that the test on the year does not
    skip, and nothing else. *)
Theorem X17_getAllEmissionsData_filters_rows (L : Language) (G : Gateway)
    (userId orgName utilityId partyId : JsVal) (stringResult : string)
    (rows : list JsVal) (recs : list (list (string * JsVal) * string)) :
  buildWallet orgName = Normal tt ->
  connect userId = Normal tt ->
  getContract = Normal tt ->
  evaluateTransaction "getAllEmissionsData" [utilityId; partyId]
  = Normal stringResult ->
  JSON_parse stringResult = Normal (VArr rows) ->
  disconnect = Normal tt ->
  Forall2 (fun row rd => record_of_row row = Some rd) rows recs ->
  EmissionsContractInvoke.getAllEmissionsData userId orgName utilityId partyId
  = Normal
      (VArr (map (fun rd => emission_result (fst rd))
               (List.filter (fun rd => negb (skipped getFullYear (snd rd)))
                  recs))).
Proof.
  intros Hwallet Hconnect Hcontract Hevaluate Hparse Hdisconnect Hrows.
  run_client. cbn [EmissionsContractInvoke.iterate bind].
  rewrite (all_emissions_loop_filter rows recs getFullYear [] Hrows).
  reflexivity.
Qed.

(** X17 on four rows in the year 2021: the row of 2019 is left out, the
    rows of 2020 and 2021 and the row whose date starts with "Marc" are
    returned. *)
Lemma X17_getAllEmissionsData_filters_rows_witness :
  @EmissionsContractInvoke.getAllEmissionsData Scenario.language
    (Cases.gateway_returning Cases.rows_text)
    (VStr "admin") (VStr "auditor1") (VStr "U1") (VStr "P1")
  = Normal
      (VArr [emission_result (Cases.record_of "2020-01-01");
             emission_result (Cases.record_of "2021-03-01");
             emission_result (Cases.record_of "March 2018")]).
Proof.
  refine (eq_trans
            (X17_getAllEmissionsData_filters_rows Scenario.language
               (Cases.gateway_returning Cases.rows_text)
               (VStr "admin") (VStr "auditor1") (VStr "U1") (VStr "P1")
               Cases.rows_text
               (map Cases.row_of
                  ["2019-12-01"; "2020-01-01"; "2021-03-01"; "March 2018"])
               (map (fun d => (Cases.record_of d, d))
                  ["2019-12-01"; "2020-01-01"; "2021-03-01"; "March 2018"])
               _ _ _ _ _ _ _) _);
    try (vm_compute; reflexivity).
  repeat constructor.
Defined.

(** X18. Under the conditions of X17, in the year [c], the result of a
    record is returned exactly when [parseInt], on the first four
    characters of its [fromDate], does not give a number below [c - 1]:
    records of the year before are returned, and so is every record whose
    [fromDate] does not start with a number. *)
Theorem X18_rows_returned (L : Language) (G : Gateway)
    (userId orgName utilityId partyId : JsVal) (stringResult : string)
    (rows : list JsVal) (recs : list (list (string * JsVal) * string))
    (c : Q) :
  buildWallet orgName = Normal tt ->
  connect userId = Normal tt ->
  getContract = Normal tt ->
  evaluateTransaction "getAllEmissionsData" [utilityId; partyId]
  = Normal stringResult ->
  JSON_parse stringResult = Normal (VArr rows) ->
  disconnect = Normal tt ->
  Forall2 (fun row rd => record_of_row row = Some rd) rows recs ->
  getFullYear = Finite c ->
  exists all_emissions : list JsVal,
    EmissionsContractInvoke.getAllEmissionsData userId orgName utilityId
      partyId = Normal (VArr all_emissions) /\
    forall (record : list (string * JsVal)) (fromDate : string),
      In (record, fromDate) recs ->
      (In (emission_result record) all_emissions <->
       match parseInt (substring 0 4 fromDate) with
       | Finite y => (c - 1 <= y)%Q
       | NaN => True
       | Infinity negative => negative = false
       end).
Proof.
  intros Hwallet Hconnect Hcontract Hevaluate Hparse Hdisconnect Hrows Hyear.
  eexists. split.
  - run_client. cbn [EmissionsContractInvoke.iterate bind].
    rewrite (all_emissions_loop_filter rows recs getFullYear [] Hrows).
    reflexivity.
  - intros record fromDate Hin. cbn [app]. rewrite Hyear.
    rewrite <- skipped_false_iff. rewrite in_map_iff. split.
    + intros ([record' d'] & Hresult & Hfilter). cbn [fst] in Hresult.
      apply filter_In in Hfilter as [Hin' Hkept]. cbn [snd] in Hkept.
      pose proof (Forall2_record_of_row _ _ _ _ Hrows Hin) as Hfrom.
      pose proof (Forall2_record_of_row _ _ _ _ Hrows Hin') as Hfrom'.
      unfold emission_result in Hresult.
      injection Hresult as _ _ Hdate _ _ _ _ _ _ _.
      rewrite Hfrom, Hfrom' in Hdate. injection Hdate as ->.
      now apply negb_true_iff in Hkept.
    + intros Hkept. exists (record, fromDate). split; [reflexivity |].
      apply filter_In. split; [exact Hin |]. cbn [snd]. now rewrite Hkept.
Qed.

(** X18 on the four rows of the witness of X17, in the year 2021. *)
Lemma X18_rows_returned_witness :
  exists all_emissions : list JsVal,
    @EmissionsContractInvoke.getAllEmissionsData Scenario.language
      (Cases.gateway_returning Cases.rows_text)
      (VStr "admin") (VStr "auditor1") (VStr "U1") (VStr "P1")
    = Normal (VArr all_emissions) /\
    forall (record : list (string * JsVal)) (fromDate : string),
      In (record, fromDate)
        (map (fun d => (Cases.record_of d, d))
           ["2019-12-01"; "2020-01-01"; "2021-03-01"; "March 2018"]) ->
      (In (emission_result record) all_emissions <->
       match @parseInt Scenario.language (substring 0 4 fromDate) with
       | Finite y => (2021 - 1 <= y)%Q
       | NaN => True
       | Infinity negative => negative = false
       end).
Proof.
  refine (X18_rows_returned Scenario.language
            (Cases.gateway_returning Cases.rows_text)
            (VStr "admin") (VStr "auditor1") (VStr "U1") (VStr "P1")
            Cases.rows_text
            (map Cases.row_of
               ["2019-12-01"; "2020-01-01"; "2021-03-01"; "March 2018"])
            (map (fun d => (Cases.record_of d, d))
               ["2019-12-01"; "2020-01-01"; "2021-03-01"; "March 2018"])
            2021 _ _ _ _ _ _ _ _);
    try (vm_compute; reflexivity).
  repeat constructor.
Defined.

(** X19. When the evaluation succeeds, the client's [getAllEmissionsData]
    returns the empty array, without any sign of a failure, whenever the
    parsed result is not an array, and whenever one row of the array has no
    record, or a record without a [fromDate] that can be sliced: the
    results of the rows before it are lost. *)
Theorem X19_unreadable_row_empties_result (L : Language) (G : Gateway)
    (userId orgName utilityId partyId : JsVal) (stringResult : string)
    (jsonResult : JsVal) :
  buildWallet orgName = Normal tt ->
  connect userId = Normal tt ->
  getContract = Normal tt ->
  evaluateTransaction "getAllEmissionsData" [utilityId; partyId]
  = Normal stringResult ->
  JSON_parse stringResult = Normal jsonResult ->
  disconnect = Normal tt ->
  (forall rows : list JsVal, jsonResult <> VArr rows) \/
  (exists (rows : list JsVal) (row : JsVal) (e : JsError),
      jsonResult = VArr rows /\ In row rows /\
      (record <- get_prop row "Record";;
       from <- get_prop record "fromDate";;
       EmissionsContractInvoke.call_slice_0_4 from) = Throw e) ->
  EmissionsContractInvoke.getAllEmissionsData userId orgName utilityId partyId
  = Normal (VArr []).
Proof.
  intros Hwallet Hconnect Hcontract Hevaluate Hparse Hdisconnect Hresult.
  run_client.
  destruct Hresult as [Hnot_array | (rows & row & e & -> & Hin & Hthrow)].
  - destruct jsonResult as [| | | | s | rows |]; cbn [EmissionsContractInvoke.iterate bind];
      try reflexivity; [| now destruct (Hnot_array rows)].
    destruct s as [| a s]; [reflexivity |].
    cbn [list_ascii_of_string map EmissionsContractInvoke.all_emissions_loop
           get_prop bind]. reflexivity.
  - cbn [EmissionsContractInvoke.iterate bind].
    destruct (all_emissions_loop_throws rows getFullYear [] row e Hin Hthrow)
      as [e' ->].
    reflexivity.
Qed.

(** X19 on two rows of 2020 and 2021 followed by a row without record,
    and on a result that is an object. *)
Lemma X19_unreadable_row_empties_result_witness :
  @EmissionsContractInvoke.getAllEmissionsData Scenario.language
    (Cases.gateway_returning Cases.rows_poisoned_text)
    (VStr "admin") (VStr "auditor1") (VStr "U1") (VStr "P1")
  = Normal (VArr [])
  /\
  @EmissionsContractInvoke.getAllEmissionsData Scenario.language
    (Cases.gateway_returning Cases.record_U1_text)
    (VStr "admin") (VStr "auditor1") (VStr "U1") (VStr "P1")
  = Normal (VArr []).
Proof.
  split.
  - refine (X19_unreadable_row_empties_result Scenario.language
              (Cases.gateway_returning Cases.rows_poisoned_text)
              (VStr "admin") (VStr "auditor1") (VStr "U1") (VStr "P1")
              Cases.rows_poisoned_text
              (VArr [Cases.row_of "2020-01-01"; Cases.row_of "2021-03-01";
                     VObj [("Key", VStr "k")]])
              _ _ _ _ _ _
              (or_intror
                 (ex_intro _ _
                    (ex_intro _ (VObj [("Key", VStr "k")])
                       (ex_intro _
                          (TypeError
                             "Cannot read properties of undefined (reading 'fromDate')")
                          (conj eq_refl (conj _ _)))))));
      try (vm_compute; reflexivity).
    right. right. left. reflexivity.
  - refine (X19_unreadable_row_empties_result Scenario.language
              (Cases.gateway_returning Cases.record_U1_text)
              (VStr "admin") (VStr "auditor1") (VStr "U1") (VStr "P1")
              Cases.record_U1_text (VObj Cases.record_U1_props)
              _ _ _ _ _ _ (or_introl _));
      try (vm_compute; reflexivity).
    intros rows. discriminate.
Defined.
